(** * Client-side store, gateway and page handlers of the role-matching front end

    A shallow embedding of [src/context/AppContext.jsx] (the shared store and
    its operations), [src/services/api.js] (the axios client, its response
    interceptor and the per-resource services), [src/App.jsx] (the
    [AppContent] gate) and of the handlers of the role and offer pages,
    followed by the properties of the specification that concern them.

    Conventions of the embedding.
    - A JavaScript value is a [value]. Numbers are the integral doubles
      ([VNum], with [-0] identified with [0], which no operation of this
      program tells apart), the two infinities ([VInf]) and [NaN]; the
      numbers of this program are salaries, scores, counts and HTTP status
      codes.  A string is the byte string of its UTF-8 encoding.
    - An object is the list of its own properties in insertion order; the
      property names of this program are identifiers, never array indices.
    - [useState] cells are the fields of a record; a component function is
      a function of the rendered state (what its closures captured), and a
      setter is a write to the current state.
    - An [async] function is a computation in the monad [M]: it reads and
      writes the world (store, page states, backend, request log) and either
      returns or throws. *)

From Stdlib Require Import ZArith String Ascii List Bool Lia DecimalString DecimalPos.
From ExtLib Require Import Structures.Monad Structures.MonadExc.
Import ListNotations.
Import MonadNotation.

Local Open Scope string_scope.
Local Open Scope monad_scope.

Set Implicit Arguments.

(** ** JavaScript values *)

Module JS.

#[warnings="-register-all"]
Inductive value : Type :=
| VUndef
| VNull
| VNaN
| VBool (b : bool)
| VNum (z : Z)
| VInf (negative : bool)
| VStr (s : string)
| VArr (l : list value)
| VObj (fs : list (string * value)).

Definition obj := list (string * value).

(** ToBoolean. *)
Definition truthy (v : value) : bool :=
  match v with
  | VUndef | VNull | VNaN => false
  | VBool b => b
  | VNum z => negb (z =? 0)%Z
  | VInf _ => true
  | VStr s => negb (s =? "")
  | VArr _ | VObj _ => true
  end.

(** [a || b]. *)
Definition js_or (a b : value) : value := if truthy a then a else b.

(** [a === b].  Two object or array operands are equal only when they are
    the same reference; every use in this program compares a stored
    property with an argument or with a property of a freshly parsed
    response, so such operands are never the same reference. *)
Definition strict_eq (a b : value) : bool :=
  match a, b with
  | VUndef, VUndef => true
  | VNull, VNull => true
  | VBool x, VBool y => Bool.eqb x y
  | VNum x, VNum y => (x =? y)%Z
  | VInf x, VInf y => Bool.eqb x y
  | VStr x, VStr y => (x =? y)
  | _, _ => false
  end.

(** Own property lookup; a missing property reads [undefined]. *)
Fixpoint obj_get (k : string) (fs : obj) : value :=
  match fs with
  | [] => VUndef
  | (k', v) :: r => if k =? k' then v else obj_get k r
  end.

Fixpoint obj_has (k : string) (fs : obj) : bool :=
  match fs with
  | [] => false
  | (k', _) :: r => (k =? k') || obj_has k r
  end.

(** Property definition as object literals and spreads do it: an existing
    property keeps its place and takes the new value, a new one goes last. *)
Fixpoint obj_set (k : string) (v : value) (fs : obj) : obj :=
  match fs with
  | [] => [(k, v)]
  | (k', v') :: r =>
      if k =? k' then (k', v) :: r else (k', v') :: obj_set k v r
  end.

(** [{...target, ...source}]: the properties of [source], in order, defined
    on [target]. *)
Definition spread (target source : obj) : obj :=
  fold_left (fun acc kv => obj_set (fst kv) (snd kv) acc) source target.

(** The own properties a spread copies out of a value: those of an object,
    none of [undefined], [null] or another primitive.  (Strings and arrays
    spread their indices; no spread of this program receives one.) *)
Definition props_of (v : value) : obj :=
  match v with
  | VObj fs => fs
  | _ => []
  end.

(** The decimal digits of an integer.  This is ToString of the number for
    an integer below 2^53 in magnitude, which the array lengths and the
    HTTP status codes printed by this program are. *)
Definition Z_to_string (z : Z) : string := NilZero.string_of_int (Z.to_int z).

Fixpoint string_rev_aux (acc s : string) : string :=
  match s with
  | EmptyString => acc
  | String c r => string_rev_aux (String c acc) r
  end.

Definition string_rev (s : string) : string := string_rev_aux "" s.

(** *** Numbers as doubles *)

(** The Number value for an integer: itself below 2^53 in magnitude,
    otherwise rounded to 53 significant bits, ties to even, and an
    infinity from 2^1024 on. *)
Definition double_of_Z (z : Z) : value :=
  let a := Z.abs z in
  if (a <? 9007199254740992)%Z then VNum z
  else
    let e := (Z.log2 a - 52)%Z in
    let q := Z.shiftr a e in
    let r := (a - Z.shiftl q e)%Z in
    let half := Z.shiftl 1 (e - 1) in
    let q' := if (half <? r)%Z || ((r =? half)%Z && Z.odd q) then (q + 1)%Z else q in
    let m := Z.shiftl q' e in
    if (Z.shiftl 1 1024 <=? m)%Z then VInf (z <? 0)%Z
    else VNum (if (z <? 0)%Z then (- m)%Z else m).

(** [Number.isSafeInteger]. *)
Definition safe_integer (z : Z) : bool :=
  (Z.abs z <? 9007199254740992)%Z.

Definition rounds_to (x v : Z) : bool :=
  match double_of_Z v with
  | VNum y => (y =? x)%Z
  | _ => false
  end.

(** The integer with the fewest significant decimal digits that rounds
    to the double [x >= 2^53] of [n] decimal digits, trying [k] digits and
    more: the closest one when two of [k] digits do, the one with the even
    last digit when they are as close. *)
Fixpoint shortest_decimal (x : Z) (n k fuel : nat) : Z :=
  match fuel with
  | O => x
  | S fuel' =>
      if (n <? k)%nat then x
      else
        let p := (10 ^ Z.of_nat (n - k))%Z in
        let lo := (x / p * p)%Z in
        let hi := (lo + p)%Z in
        match rounds_to x lo, rounds_to x hi with
        | true, true =>
            if (x - lo <? hi - x)%Z then lo
            else if (hi - x <? x - lo)%Z then hi
            else if Z.even (x / p) then lo else hi
        | true, false => lo
        | false, true => hi
        | false, false => shortest_decimal x n (S k) fuel'
        end
  end.

(** The digits without their trailing zeros, on the reversed string. *)
Fixpoint strip_trailing_zeros_rev (s : string) : string :=
  match s with
  | String c r => if (c =? "0")%char then strip_trailing_zeros_rev r else s
  | EmptyString => s
  end.

(** [d.ddde+x] for the integer [v >= 10^21]. *)
Definition exponent_form (v : Z) : string :=
  let ds := Z_to_string v in
  let digits := string_rev (strip_trailing_zeros_rev (string_rev ds)) in
  match digits with
  | EmptyString => "0"
  | String c r =>
      String c (match r with EmptyString => "" | _ => "." ++ r end)
      ++ "e+" ++ Z_to_string (Z.of_nat (String.length ds) - 1)
  end.

(** Number::toString in radix 10, for an integral double: the decimal
    digits below 2^53; from there on the shortest digits that read back as
    the same double, followed by zeros below 10^21 and in exponent
    notation from 10^21 on. *)
Definition Number_toString (z : Z) : string :=
  if safe_integer z then Z_to_string z
  else
    let a := Z.abs z in
    let v := shortest_decimal a (String.length (Z_to_string a)) 1 17 in
    (if (z <? 0)%Z then "-" else "")
    ++ (if (v <? 1000000000000000000000)%Z then Z_to_string v else exponent_form v).

(** ToString, as template literals and [parseInt] apply it. *)
Fixpoint to_string (v : value) : string :=
  match v with
  | VUndef => "undefined"
  | VNull => "null"
  | VNaN => "NaN"
  | VBool true => "true"
  | VBool false => "false"
  | VNum z => Number_toString z
  | VInf false => "Infinity"
  | VInf true => "-Infinity"
  | VStr s => s
  | VArr l =>
      (fix join (l : list value) : string :=
         match l with
         | [] => ""
         | x :: r =>
             let sx := match x with
                       | VUndef | VNull => ""
                       | _ => to_string x
                       end in
             match r with
             | [] => sx
             | _ :: _ => sx ++ "," ++ join r
             end
         end) l
  | VObj _ => "[object Object]"
  end.

(** *** [parseInt] *)

(** White space: the code points of WhiteSpace and LineTerminator, which
    [parseInt] skips and [trim] strips, in UTF-8: U+0009 to U+000D, U+0020,
    U+00A0, U+1680, U+2000 to U+200A, U+2028, U+2029, U+202F, U+205F,
    U+3000 and U+FEFF. *)
Definition utf8 (bytes : list nat) : string :=
  string_of_list_ascii (map ascii_of_nat bytes).

Definition white_spaces : list string :=
  map utf8
    [ [9]; [10]; [11]; [12]; [13]; [32]; [194; 160]; [225; 154; 128];
      [226; 128; 128]; [226; 128; 129]; [226; 128; 130]; [226; 128; 131];
      [226; 128; 132]; [226; 128; 133]; [226; 128; 134]; [226; 128; 135];
      [226; 128; 136]; [226; 128; 137]; [226; 128; 138]; [226; 128; 168];
      [226; 128; 169]; [226; 128; 175]; [226; 129; 159]; [227; 128; 128];
      [239; 187; 191] ]%nat.

Fixpoint strip_prefix (p s : string) : option string :=
  match p, s with
  | EmptyString, _ => Some s
  | String a p', String b s' => if Ascii.eqb a b then strip_prefix p' s' else None
  | String _ _, EmptyString => None
  end.

(** What follows the first word of [ws] that [s] starts with. *)
Fixpoint strip_word (ws : list string) (s : string) : option string :=
  match ws with
  | [] => None
  | w :: r =>
      match strip_prefix w s with
      | Some rest => Some rest
      | None => strip_word r s
      end
  end.

(** [s] without the words of [ws] it starts with; [fuel] bounds their
    number. *)
Fixpoint skip_words (ws : list string) (fuel : nat) (s : string) : string :=
  match fuel with
  | O => s
  | S fuel' =>
      match strip_word ws s with
      | Some rest => skip_words ws fuel' rest
      | None => s
      end
  end.

Definition skip_spaces (s : string) : string :=
  skip_words white_spaces (String.length s) s.

(** The value of a digit in the given radix (10 or 16). *)
Definition digit_value (radix : N) (c : ascii) : option N :=
  let n := N_of_ascii c in
  let d :=
    if (48 <=? n)%N && (n <=? 57)%N then Some (n - 48)%N
    else if (97 <=? n)%N && (n <=? 102)%N then Some (n - 87)%N
    else if (65 <=? n)%N && (n <=? 70)%N then Some (n - 55)%N
    else None in
  match d with
  | Some x => if (x <? radix)%N then Some x else None
  | None => None
  end.

(** The longest prefix of digits, read most significant first; [None] when
    no digit was read. *)
Fixpoint read_digits (radix : N) (acc : option N) (s : string) : option N :=
  match s with
  | EmptyString => acc
  | String c r =>
      match digit_value radix c with
      | Some d =>
          read_digits radix
            (Some (match acc with Some a => a * radix + d | None => d end)%N) r
      | None => acc
      end
  end.

Definition strip_hex_prefix (s : string) : option string :=
  match s with
  | String c (String d r) =>
      if ((c =? "0") && ((d =? "x") || (d =? "X")))%char then Some r else None
  | _ => None
  end.

(** The mathematical integer [parseInt] reads off a string: white space,
    a sign, the prefix of a hexadecimal literal, digits. *)
Definition int_prefix (s : string) : option Z :=
  let s1 := skip_spaces s in
  let '(neg, s2) :=
    match s1 with
    | String c r =>
        if (c =? "-")%char then (true, r)
        else if (c =? "+")%char then (false, r)
        else (false, s1)
    | EmptyString => (false, s1)
    end in
  let n :=
    match strip_hex_prefix s2 with
    | Some r => read_digits 16 None r
    | None => read_digits 10 None s2
    end in
  match n with
  | Some m => Some (if neg then - Z.of_N m else Z.of_N m)%Z
  | None => None
  end.

(** The Number value for the integer read, [NaN] when no digit was read.
    (The rounding is the correct one, as the engines do it; the standard
    lets an implementation replace the digits after the twentieth by
    zeros.) *)
Definition parse_int_string (s : string) : value :=
  match int_prefix s with
  | Some z => double_of_Z z
  | None => VNaN
  end.

(** [parseInt(v)]: ToString, then the integer prefix. *)
Definition parseInt (v : value) : value := parse_int_string (to_string v).

(** [a + b] on two numbers (both operands of the only sum of this program
    are results of [parseInt]). *)
Definition number_add (a b : value) : value :=
  match a, b with
  | VNum x, VNum y => double_of_Z (x + y)
  | VInf s, VNum _ | VNum _, VInf s => VInf s
  | VInf s, VInf t => if Bool.eqb s t then VInf s else VNaN
  | _, _ => VNaN
  end.

(** *** [String.prototype.split(',')] and [trim] *)

Fixpoint split_comma_aux (cur : string) (s : string) : list string :=
  match s with
  | EmptyString => [cur]
  | String c r =>
      if Ascii.eqb c ","%char then cur :: split_comma_aux "" r
      else split_comma_aux (cur ++ String c "") r
  end.

Definition split_comma (s : string) : list string := split_comma_aux "" s.

(** [trim]: the white space at the start goes, then the white space at
    the end, read backwards. *)
Definition trim (s : string) : string :=
  string_rev (skip_words (map string_rev white_spaces) (String.length s)
                         (string_rev (skip_spaces s))).

End JS.
Import JS.

(** ** Exceptions, the transport and the world *)

(** What axios knows of a failed request: the response when the server
    replied, whether the request went out, axios's error code, and the
    message the response interceptor attaches. *)
Record AxiosError : Type := mkAxiosError {
  response : option (Z * value);
  request : bool;
  code : value;
  userMessage : value
}.

(** What an [await] can throw in this program: an axios error, or the
    engine's TypeError (a property read of [undefined] or [null], a method
    call on a value that lacks the method). *)
Inductive exn : Type :=
| AxiosFailure (e : AxiosError)
| TypeError.

(** [err.userMessage] in a catch block. *)
Definition userMessage_of (err : exn) : value :=
  match err with
  | AxiosFailure e => userMessage e
  | TypeError => VUndef
  end.

Inductive Result (A : Type) : Type :=
| Ok (a : A)
| Throw (e : exn).
Arguments Ok {A} a.
Arguments Throw {A} e.

#[global] Instance Monad_Result : Monad Result := {
  ret := fun _ a => Ok a;
  bind := fun _ _ r k => match r with Ok a => k a | Throw e => Throw e end
}.

(** [v.k] for one of the identifier names of the program. *)
Definition get_prop (v : value) (k : string) : Result value :=
  match v with
  | VUndef | VNull => Throw TypeError
  | VObj fs => Ok (obj_get k fs)
  | VArr l => Ok (if k =? "length" then VNum (Z.of_nat (List.length l)) else VUndef)
  | VStr s => Ok (if k =? "length" then VNum (Z.of_nat (String.length s)) else VUndef)
  | VNaN | VBool _ | VNum _ | VInf _ => Ok VUndef
  end.

(** [v?.k]. *)
Definition optional_prop (v : value) (k : string) : value :=
  match get_prop v k with
  | Ok x => x
  | Throw _ => VUndef
  end.

(** [arr.map(f)]; a value without [map] makes the call a TypeError. *)
Fixpoint map_result (f : value -> Result value) (l : list value)
  : Result (list value) :=
  match l with
  | [] => Ok []
  | x :: r =>
      match f x with
      | Ok y =>
          match map_result f r with
          | Ok ys => Ok (y :: ys)
          | Throw e => Throw e
          end
      | Throw e => Throw e
      end
  end.

Definition array_map (f : value -> Result value) (arr : value) : Result value :=
  match arr with
  | VArr l =>
      match map_result f l with
      | Ok ys => Ok (VArr ys)
      | Throw e => Throw e
      end
  | _ => Throw TypeError
  end.

(** An HTTP request as the services issue it. *)
Record Request : Type := mkRequest {
  method : string;
  url : string;
  params : obj;
  body : value
}.

(** What comes back on the wire. *)
Inductive Transport : Type :=
| HttpResponse (status : Z) (data : value)
| NoResponse (code : value)
| RequestNotSent.

(** The store of [AppProvider]: one field per [useState] cell. *)
Record Store : Type := mkStore {
  candidates : value;
  roles : value;
  matches : value;
  offers : value;
  loading : bool;
  error : value;
  useFallbackData : bool
}.

Record Notification : Type := mkNotification {
  open : bool;
  message : string;
  severity : string
}.

(** The state cells of the role page its handlers read or write. *)
Module RoleManagement.
Record FormData : Type := mkFormData {
  title : value;
  department : value;
  description : value;
  required_skills : string;
  preferred_skills : string;
  experience_required : value;
  education_required : value;
  location : value;
  remote_option : value;
  salary_range : value
}.
Record State : Type := mkState {
  loading : bool;
  dialogOpen : bool;
  dialogMode : string;
  selectedRole : value;
  notification : Notification;
  formData : FormData
}.
End RoleManagement.

(** The state cells of the offer page its handlers read or write. *)
Module OfferRecommendation.
Record State : Type := mkState {
  offers : value;
  selectedOffer : value;
  detailDialogOpen : bool;
  editDialogOpen : bool;
  editedOffer : value;
  notification : Notification
}.
End OfferRecommendation.

(** ** The client, over an arbitrary backend *)

Section Client.

(** The backend: a state and its answer to each request.  Nothing is
    assumed of it. *)
Variable Srv : Type.
Variable serve : Request -> Srv -> Transport * Srv.

(** The engine's conversion of a string to a number (StringToNumber), used
    only where a relational comparison meets a string operand. *)
Variable string_to_number : string -> value.

Record World : Type := mkWorld {
  store : Store;
  rolePage : RoleManagement.State;
  offerPage : OfferRecommendation.State;
  backend : Srv;
  requests : list Request
}.

(** An asynchronous computation: it transforms the world and returns or
    throws.  Writes made before a throw stay made. *)
Definition M (A : Type) : Type := World -> Result A * World.

#[local] Instance Monad_M : Monad M := {
  ret := fun _ a w => (Ok a, w);
  bind := fun _ _ m k w =>
            match m w with
            | (Ok a, w1) => k a w1
            | (Throw e, w1) => (Throw e, w1)
            end
}.

(** [try { m } catch (err) { h err }] and [throw]. *)
#[local] Instance Exc_M : MonadExc exn M := {
  raise := fun _ e w => (Throw e, w);
  catch := fun _ m h w =>
             match m w with
             | (Ok a, w1) => (Ok a, w1)
             | (Throw e, w1) => h e w1
             end
}.

(** [try { m } finally { f }]. *)
Definition try_finally {A : Type} (m : M A) (f : M unit) : M A :=
  fun w =>
    match m w with
    | (r, w1) =>
        match f w1 with
        | (Ok _, w2) => (r, w2)
        | (Throw e, w2) => (Throw e, w2)
        end
    end.

Definition lift {A : Type} (r : Result A) : M A := fun w => (r, w).

Definition update_store (f : Store -> Store) : M unit :=
  fun w => (Ok tt, mkWorld (f (store w)) (rolePage w) (offerPage w)
                           (backend w) (requests w)).

Definition update_rolePage
  (f : RoleManagement.State -> RoleManagement.State) : M unit :=
  fun w => (Ok tt, mkWorld (store w) (f (rolePage w)) (offerPage w)
                           (backend w) (requests w)).

Definition update_offerPage
  (f : OfferRecommendation.State -> OfferRecommendation.State) : M unit :=
  fun w => (Ok tt, mkWorld (store w) (rolePage w) (f (offerPage w))
                           (backend w) (requests w)).

(** *** [src/services/api.js] *)

(** The error axios rejects with, before the interceptor sees it.  A server
    reply outside 2xx carries the response; its [code] is not read by this
    program. *)
Definition axios_error (t : Transport) : AxiosError :=
  match t with
  | HttpResponse status data => mkAxiosError (Some (status, data)) true VUndef VUndef
  | NoResponse c => mkAxiosError None true c VUndef
  | RequestNotSent => mkAxiosError None false VUndef VUndef
  end.

(** The rejection handler of [apiClient.interceptors.response.use]. *)
Definition response_error_interceptor (error : AxiosError) : AxiosError :=
  let errorMessage :=
    match response error with
    | Some (status, data) =>
        let detail := js_or (optional_prop data "detail") (VStr "") in
        if (status =? 400)%Z then
          "Bad Request: " ++ to_string detail
        else if (status =? 401)%Z then
          "Unauthorized: Please log in again"
        else if (status =? 403)%Z then
          "Forbidden: You do not have permission"
        else if (status =? 404)%Z then
          "Not Found: "
            ++ to_string (js_or detail (VStr "The requested resource was not found"))
        else if (status =? 500)%Z then
          "Server Error: " ++ to_string (js_or detail (VStr "Internal server error"))
        else
          "Error " ++ Z_to_string status ++ ": "
            ++ to_string (js_or detail (VStr "Something went wrong"))
    | None =>
        if request error then
          if strict_eq (code error) (VStr "ECONNABORTED") then
            "Request timed out. Please try again."
          else if strict_eq (code error) (VStr "ERR_NETWORK") then
            "Network error. Please check if the backend server is running on http://localhost:8000"
          else
            "Network error. Please check your connection."
        else "An unexpected error occurred"
    end in
  mkAxiosError (response error) (request error) (code error) (VStr errorMessage).

(** How axios settles what came back: a 2xx reply resolves with its body
    ([response.data]); anything else is rejected through the interceptor. *)
Definition settle (t : Transport) : Result value :=
  match t with
  | HttpResponse status data =>
      if ((200 <=? status) && (status <? 300))%Z then Ok data
      else Throw (AxiosFailure (response_error_interceptor (axios_error t)))
  | _ => Throw (AxiosFailure (response_error_interceptor (axios_error t)))
  end.

(** A call on [apiClient]: the request goes out, is logged, and settles. *)
Definition apiClient (req : Request) : M value :=
  fun w =>
    let (t, b) := serve req (backend w) in
    (settle t,
     mkWorld (store w) (rolePage w) (offerPage w) b (requests w ++ [req])).

(** A parameter with a default value. *)
Definition default_arg (v d : value) : value :=
  match v with
  | VUndef => d
  | _ => v
  end.

(** Every service method is [try { ... return response.data } catch (error)
    { console.error(...); throw error }]. *)
Definition service (req : Request) : M value :=
  catch (apiClient req) (fun error => raise error).

Definition getCandidates_request : Request :=
  mkRequest "GET" "/candidates/" [] VUndef.

Definition candidateService_getCandidates : M value :=
  service getCandidates_request.

Definition getRoles_request (activeOnly : value) : Request :=
  mkRequest "GET" "/roles/" [("active_only", activeOnly)] VUndef.

Definition roleService_getRoles (activeOnly : value) : M value :=
  let activeOnly := default_arg activeOnly (VBool true) in
  service (getRoles_request activeOnly).



Definition createRole_request (roleData : value) : Request :=
  mkRequest "POST" "/roles/" [] roleData.

Definition roleService_createRole (roleData : value) : M value :=
  service (createRole_request roleData).

Definition updateRole_request (id roleData : value) : Request :=
  mkRequest "PUT" ("/roles/" ++ to_string id) [] roleData.

Definition roleService_updateRole (id roleData : value) : M value :=
  service (updateRole_request id roleData).

Definition deleteRole_request (id : value) : Request :=
  mkRequest "DELETE" ("/roles/" ++ to_string id) [] VUndef.

Definition roleService_deleteRole (id : value) : M value :=
  service (deleteRole_request id).

Definition getMatches_request (filters : value) : Request :=
  mkRequest "GET" "/matches/" (props_of filters) VUndef.

Definition matchService_getMatches (filters : value) : M value :=
  let filters := default_arg filters (VObj []) in
  service (getMatches_request filters).

Definition getOffers_request (filters : value) : Request :=
  mkRequest "GET" "/offers/" (props_of filters) VUndef.

Definition offerService_getOffers (filters : value) : M value :=
  let filters := default_arg filters (VObj []) in
  service (getOffers_request filters).

Definition updateOffer_request (id offerData : value) : Request :=
  mkRequest "PUT" ("/offers/" ++ to_string id) [] offerData.

Definition offerService_updateOffer (id offerData : value) : M value :=
  service (updateOffer_request id offerData).

Definition approveOffer_request (id : value) : Request :=
  mkRequest "POST" ("/offers/" ++ to_string id ++ "/approve") [] VUndef.

Definition offerService_approveOffer (id : value) : M value :=
  service (approveOffer_request id).

(** *** [src/context/AppContext.jsx] *)

(** [mockData], the fixed fallback dataset. *)
Definition mockData : obj :=
  [ ("candidates", VArr
      [ VObj [ ("_id", VStr "mock1"); ("name", VStr "Alex Johnson");
               ("email", VStr "alex@example.com");
               ("skills", VArr [VStr "React"; VStr "Node.js"]);
               ("experience", VStr "5 years") ];
        VObj [ ("_id", VStr "mock2"); ("name", VStr "Maria Garcia");
               ("email", VStr "maria@example.com");
               ("skills", VArr [VStr "Python"; VStr "Data Science"]);
               ("experience", VStr "3 years") ] ]);
    ("roles", VArr
      [ VObj [ ("_id", VStr "mock1"); ("title", VStr "Frontend Developer");
               ("department", VStr "Engineering");
               ("required_skills", VArr [VStr "JavaScript"; VStr "React"]);
               ("is_active", VBool true) ];
        VObj [ ("_id", VStr "mock2"); ("title", VStr "Data Scientist");
               ("department", VStr "Analytics");
               ("required_skills", VArr [VStr "Python"; VStr "Machine Learning"]);
               ("is_active", VBool true) ] ]);
    ("matches", VArr
      [ VObj [ ("_id", VStr "mock1"); ("candidate_id", VStr "mock1");
               ("role_id", VStr "mock1"); ("match_score", VNum 85);
               ("status", VStr "Matched") ];
        VObj [ ("_id", VStr "mock2"); ("candidate_id", VStr "mock2");
               ("role_id", VStr "mock2"); ("match_score", VNum 92);
               ("status", VStr "Matched") ] ]);
    ("offers", VArr
      [ VObj [ ("_id", VStr "mock1"); ("candidate_id", VStr "mock1");
               ("role_id", VStr "mock1"); ("match_score", VNum 85);
               ("status", VStr "Pending Approval");
               ("offer", VObj [ ("base_salary", VNum 100000);
                                ("bonus", VNum 10000);
                                ("equity", VStr "1%");
                                ("total_ctc", VNum 110000) ]) ] ]) ].

(** The initial values of the [useState] cells. *)
Definition initialStore : Store :=
  mkStore (VArr []) (VArr []) (VArr []) (VArr []) true VNull false.

Definition setCandidates (v : value) : M unit :=
  update_store (fun s => mkStore v (roles s) (matches s) (offers s)
                                 (loading s) (error s) (useFallbackData s)).

Definition setRoles (v : value) : M unit :=
  update_store (fun s => mkStore (candidates s) v (matches s) (offers s)
                                 (loading s) (error s) (useFallbackData s)).

Definition setMatches (v : value) : M unit :=
  update_store (fun s => mkStore (candidates s) (roles s) v (offers s)
                                 (loading s) (error s) (useFallbackData s)).

Definition setOffers (v : value) : M unit :=
  update_store (fun s => mkStore (candidates s) (roles s) (matches s) v
                                 (loading s) (error s) (useFallbackData s)).

Definition setLoading (b : bool) : M unit :=
  update_store (fun s => mkStore (candidates s) (roles s) (matches s) (offers s)
                                 b (error s) (useFallbackData s)).

(** [setError(prev => f prev)]; [setError(v)] is the constant update. *)
Definition setError_with (f : value -> value) : M unit :=
  update_store (fun s => mkStore (candidates s) (roles s) (matches s) (offers s)
                                 (loading s) (f (error s)) (useFallbackData s)).

Definition setError (v : value) : M unit := setError_with (fun _ => v).

Definition setUseFallbackData (b : bool) : M unit :=
  update_store (fun s => mkStore (candidates s) (roles s) (matches s) (offers s)
                                 (loading s) (error s) b).

(** [v > 0]. *)
Definition gt_zero (v : value) : bool :=
  let num_gt_zero n :=
    match n with VNum z => (0 <? z)%Z | VInf s => negb s | _ => false end in
  match v with
  | VNum z => (0 <? z)%Z
  | VInf s => negb s
  | VBool b => b
  | VStr s => num_gt_zero (string_to_number s)
  | VArr _ => num_gt_zero (string_to_number (to_string v))
  | VUndef | VNull | VNaN | VObj _ => false
  end.

(** [data.length > 0]. *)
Definition length_gt_zero (data : value) : M bool :=
  len <- lift (get_prop data "length") ;;
  ret (gt_zero len).

(** [a || b] on two conditions, the second evaluated only when needed. *)
Definition or_else (a b : M bool) : M bool :=
  x <- a ;; if x then ret true else b.

(** Each of the four fetches of the bootstrap: the variable starts as [[]],
    [try { data = await fetch() } catch (err) { if (err.userMessage)
    setError(prev => prev || err.userMessage) }]; the value is what the
    variable holds afterwards. *)
Definition try_fetch (fetch : M value) : M value :=
  catch fetch
        (fun err =>
           (if truthy (userMessage_of err) then
              setError_with (fun prev => js_or prev (userMessage_of err))
            else ret tt) ;;
           ret (VArr [])).

Definition demo_mode_notice : string :=
  "Unable to connect to the backend. Using demo mode with sample data.".

Definition load_failure_notice : string :=
  "Failed to load application data. Please refresh the page.".

(** [fetchInitialData], the bootstrap of the mount effect.  [rendered] is
    the store of the render that created the effect: the closure reads its
    [error] cell, the setters write the current store. *)
Definition fetchInitialData (rendered : Store) : M unit :=
  try_finally
    (catch
       (setLoading true ;;
        setError VNull ;;
        candidatesData <- try_fetch candidateService_getCandidates ;;
        rolesData <- try_fetch (roleService_getRoles VUndef) ;;
        matchesData <- try_fetch (matchService_getMatches VUndef) ;;
        offersData <- try_fetch (offerService_getOffers VUndef) ;;
        hasData <-
          or_else (length_gt_zero candidatesData)
            (or_else (length_gt_zero rolesData)
               (or_else (length_gt_zero matchesData)
                        (length_gt_zero offersData))) ;;
        if negb hasData then
          setUseFallbackData true ;;
          setCandidates (obj_get "candidates" mockData) ;;
          setRoles (obj_get "roles" mockData) ;;
          setMatches (obj_get "matches" mockData) ;;
          setOffers (obj_get "offers" mockData) ;;
          if negb (truthy (error rendered)) then
            setError (VStr demo_mode_notice)
          else ret tt
        else
          setCandidates candidatesData ;;
          setRoles rolesData ;;
          setMatches matchesData ;;
          setOffers offersData)
       (fun err =>
          setError (VStr load_failure_notice) ;;
          setCandidates (obj_get "candidates" mockData) ;;
          setRoles (obj_get "roles" mockData) ;;
          setMatches (obj_get "matches" mockData) ;;
          setOffers (obj_get "offers" mockData) ;;
          setUseFallbackData true))
    (setLoading false).

(** [refreshRoles] and [refreshOffers]. *)
Definition refreshRoles (rendered : Store) : M value :=
  if useFallbackData rendered then ret (obj_get "roles" mockData)
  else
    catch
      (data <- roleService_getRoles VUndef ;;
       setRoles data ;;
       ret data)
      (fun err =>
         setError (js_or (userMessage_of err) (VStr "Error refreshing roles")) ;;
         raise err).

Definition refreshOffers (rendered : Store) : M value :=
  if useFallbackData rendered then ret (obj_get "offers" mockData)
  else
    catch
      (data <- offerService_getOffers VUndef ;;
       setOffers data ;;
       ret data)
      (fun err =>
         setError (js_or (userMessage_of err) (VStr "Error refreshing offers")) ;;
         raise err).

(** The callback of [offers.map] in [approveOffer]:
    [offer._id === offerId ? { ...offer, status: 'Approved' } : offer]. *)
Definition approve_one (offerId : string) (offer : value) : Result value :=
  id <- get_prop offer "_id" ;;
  ret (if strict_eq id (VStr offerId)
       then VObj (obj_set "status" (VStr "Approved") (props_of offer))
       else offer).

Definition approveOffer (rendered : Store) (offerId : string) : M value :=
  if useFallbackData rendered then
    newOffers <- lift (array_map (approve_one offerId) (offers rendered)) ;;
    setOffers newOffers ;;
    ret (VObj [("message", VStr "Simulated offer approval in demo mode")])
  else
    catch
      (response <- offerService_approveOffer (VStr offerId) ;;
       newOffers <- lift (array_map (approve_one offerId) (offers rendered)) ;;
       setOffers newOffers ;;
       ret response)
      (fun err =>
         setError (js_or (userMessage_of err) (VStr "Error approving offer")) ;;
         raise err).

(** The callback of [offers.map] in the fallback branch of [updateOffer]:
    [offer._id === offerId ? { ...offer, ...offerData, status: 'Modified' }
    : offer]. *)
Definition modify_one (offerId : string) (offerData : obj) (offer : value)
  : Result value :=
  id <- get_prop offer "_id" ;;
  ret (if strict_eq id (VStr offerId)
       then VObj (obj_set "status" (VStr "Modified")
                          (spread (props_of offer) offerData))
       else offer).

(** The callback of [offers.map] in the live branch of [updateOffer]:
    [offer._id === offerId ? response : offer]. *)
Definition replace_one (offerId : string) (response : value) (offer : value)
  : Result value :=
  id <- get_prop offer "_id" ;;
  ret (if strict_eq id (VStr offerId) then response else offer).

Definition updateOffer (rendered : Store) (offerId : string) (offerData : obj)
  : M value :=
  if useFallbackData rendered then
    newOffers <- lift (array_map (modify_one offerId offerData) (offers rendered)) ;;
    setOffers newOffers ;;
    ret (VObj [("message", VStr "Simulated offer update in demo mode")])
  else
    catch
      (response <- offerService_updateOffer (VStr offerId) (VObj offerData) ;;
       newOffers <- lift (array_map (replace_one offerId response) (offers rendered)) ;;
       setOffers newOffers ;;
       ret response)
      (fun err =>
         setError (js_or (userMessage_of err) (VStr "Error updating offer")) ;;
         raise err).

(** *** [src/App.jsx] *)

Inductive Screen : Type :=
| LoadingScreen
| ErrorScreen (message : value)
| Router.

(** [AppContent]: the loading screen while the bootstrap runs, the error
    screen whenever the error cell is truthy, the routed application
    otherwise. *)
Definition AppContent (ctx : Store) : Screen :=
  if loading ctx then LoadingScreen
  else if truthy (error ctx) then ErrorScreen (error ctx)
  else Router.

(** *** [src/pages/RoleManagement.jsx] *)

Definition rolePage_setLoading (b : bool) : M unit :=
  update_rolePage (fun p =>
    RoleManagement.mkState b (RoleManagement.dialogOpen p)
      (RoleManagement.dialogMode p) (RoleManagement.selectedRole p)
      (RoleManagement.notification p) (RoleManagement.formData p)).

Definition rolePage_setDialogOpen (b : bool) : M unit :=
  update_rolePage (fun p =>
    RoleManagement.mkState (RoleManagement.loading p) b
      (RoleManagement.dialogMode p) (RoleManagement.selectedRole p)
      (RoleManagement.notification p) (RoleManagement.formData p)).

Definition rolePage_setNotification (n : Notification) : M unit :=
  update_rolePage (fun p =>
    RoleManagement.mkState (RoleManagement.loading p) (RoleManagement.dialogOpen p)
      (RoleManagement.dialogMode p) (RoleManagement.selectedRole p)
      n (RoleManagement.formData p)).

(** [s.split(',').map(skill => skill.trim()).filter(Boolean)]. *)
Definition skills_of (s : string) : value :=
  VArr (map VStr (filter (fun x => negb (x =? "")) (map trim (split_comma s)))).

(** [roleData], as [handleSubmit] builds it from the form. *)
Definition roleData_of (f : RoleManagement.FormData) : value :=
  VObj [ ("title", RoleManagement.title f);
         ("department", RoleManagement.department f);
         ("description", RoleManagement.description f);
         ("required_skills", skills_of (RoleManagement.required_skills f));
         ("preferred_skills", skills_of (RoleManagement.preferred_skills f));
         ("experience_required", RoleManagement.experience_required f);
         ("education_required", RoleManagement.education_required f);
         ("location", RoleManagement.location f);
         ("remote_option", RoleManagement.remote_option f);
         ("salary_range", RoleManagement.salary_range f) ].

(** [handleSubmit]; [ctx] is the rendered store the page took [refreshRoles]
    from, [page] the rendered page state. *)
Definition handleSubmit (ctx : Store) (page : RoleManagement.State) : M unit :=
  let dialogMode := RoleManagement.dialogMode page in
  try_finally
    (catch
       (rolePage_setLoading true ;;
        let roleData := roleData_of (RoleManagement.formData page) in
        (if dialogMode =? "add" then
           _ <- roleService_createRole roleData ;;
           rolePage_setNotification
             (mkNotification true "Role created successfully!" "success")
         else
           id <- lift (get_prop (RoleManagement.selectedRole page) "_id") ;;
           _ <- roleService_updateRole id roleData ;;
           rolePage_setNotification
             (mkNotification true "Role updated successfully!" "success")) ;;
        _ <- refreshRoles ctx ;;
        rolePage_setDialogOpen false)
       (fun error =>
          rolePage_setNotification
            (mkNotification true
               ("Error " ++ (if dialogMode =? "add" then "creating" else "updating")
                         ++ " role. Please try again.")
               "error")))
    (rolePage_setLoading false).

(** [handleDeleteRole]. *)
Definition handleDeleteRole (ctx : Store) (roleId : value) : M unit :=
  try_finally
    (catch
       (rolePage_setLoading true ;;
        _ <- roleService_deleteRole roleId ;;
        _ <- refreshRoles ctx ;;
        rolePage_setNotification
          (mkNotification true "Role deactivated successfully!" "success"))
       (fun error =>
          rolePage_setNotification
            (mkNotification true "Error deactivating role. Please try again."
                            "error")))
    (rolePage_setLoading false).

(** *** [src/pages/OfferRecommendation.jsx] *)

Definition offerPage_setOffers (v : value) : M unit :=
  update_offerPage (fun p =>
    OfferRecommendation.mkState v (OfferRecommendation.selectedOffer p)
      (OfferRecommendation.detailDialogOpen p) (OfferRecommendation.editDialogOpen p)
      (OfferRecommendation.editedOffer p) (OfferRecommendation.notification p)).

Definition offerPage_setDetailDialogOpen (b : bool) : M unit :=
  update_offerPage (fun p =>
    OfferRecommendation.mkState (OfferRecommendation.offers p)
      (OfferRecommendation.selectedOffer p) b (OfferRecommendation.editDialogOpen p)
      (OfferRecommendation.editedOffer p) (OfferRecommendation.notification p)).

Definition offerPage_setEditDialogOpen (b : bool) : M unit :=
  update_offerPage (fun p =>
    OfferRecommendation.mkState (OfferRecommendation.offers p)
      (OfferRecommendation.selectedOffer p) (OfferRecommendation.detailDialogOpen p) b
      (OfferRecommendation.editedOffer p) (OfferRecommendation.notification p)).

Definition offerPage_setNotification (n : Notification) : M unit :=
  update_offerPage (fun p =>
    OfferRecommendation.mkState (OfferRecommendation.offers p)
      (OfferRecommendation.selectedOffer p) (OfferRecommendation.detailDialogOpen p)
      (OfferRecommendation.editDialogOpen p) (OfferRecommendation.editedOffer p) n).

(** [newTotalCTC] of [handleSaveEdit]:
    [parseInt(editedOffer.base_salary) + parseInt(editedOffer.bonus || 0)]. *)
Definition newTotalCTC (editedOffer : value) : Result value :=
  base_salary <- get_prop editedOffer "base_salary" ;;
  bonus <- get_prop editedOffer "bonus" ;;
  ret (number_add (parseInt base_salary) (parseInt (js_or bonus (VNum 0)))).

(** [updatedOfferData] of [handleSaveEdit]:
    [{ offer: { ...editedOffer, total_ctc: newTotalCTC }, status: 'Modified' }]. *)
Definition updatedOfferData (editedOffer : value) : Result obj :=
  total <- newTotalCTC editedOffer ;;
  ret [ ("offer", VObj (obj_set "total_ctc" total (props_of editedOffer)));
        ("status", VStr "Modified") ].

(** The callback of [offers.map] in [handleSaveEdit]:
    [offer._id === response._id ? response : offer]. *)
Definition replace_by_response (response : value) (offer : value) : Result value :=
  id <- get_prop offer "_id" ;;
  rid <- get_prop response "_id" ;;
  ret (if strict_eq id rid then response else offer).

Definition handleSaveEdit (page : OfferRecommendation.State) : M unit :=
  catch
    (data <- lift (updatedOfferData (OfferRecommendation.editedOffer page)) ;;
     id <- lift (get_prop (OfferRecommendation.selectedOffer page) "_id") ;;
     response <- offerService_updateOffer id (VObj data) ;;
     newOffers <- lift (array_map (replace_by_response response)
                                  (OfferRecommendation.offers page)) ;;
     offerPage_setOffers newOffers ;;
     offerPage_setNotification
       (mkNotification true "Offer updated successfully!" "success") ;;
     offerPage_setEditDialogOpen false)
    (fun error =>
       offerPage_setNotification
         (mkNotification true "Error updating offer. Please try again." "error")).

Definition handleDetailClose : M unit := offerPage_setDetailDialogOpen false.

Definition handleApproveOffer (page : OfferRecommendation.State) (offerId : string)
  : M unit :=
  catch
    (response <- offerService_approveOffer (VStr offerId) ;;
     newOffers <- lift (array_map (approve_one offerId)
                                  (OfferRecommendation.offers page)) ;;
     offerPage_setOffers newOffers ;;
     offerPage_setNotification
       (mkNotification true "Offer approved successfully!" "success") ;;
     if OfferRecommendation.detailDialogOpen page
        && strict_eq (optional_prop (OfferRecommendation.selectedOffer page) "_id")
                     (VStr offerId)
     then handleDetailClose
     else ret tt)
    (fun error =>
       offerPage_setNotification
         (mkNotification true "Error approving offer. Please try again." "error")).

(** *** [src/pages/Dashboard.jsx]: resolving the role of a match *)





(** *** Vocabulary of the statements *)

(** The answers of the backend to the four requests of the bootstrap, in
    the order the bootstrap issues them. *)
Definition bootstrap_answers (b : Srv)
  : Transport * Transport * Transport * Transport :=
  let (t1, b1) := serve getCandidates_request b in
  let (t2, b2) := serve (getRoles_request (VBool true)) b1 in
  let (t3, b3) := serve (getMatches_request (VObj [])) b2 in
  let (t4, _) := serve (getOffers_request (VObj [])) b3 in
  (t1, t2, t3, t4).

(** The world the mount effect starts from. *)
Definition mounted (w : World) : Prop := store w = initialStore.

End Client.

(** A fetch that fails or returns an empty collection. *)
Definition failed_or_empty (t : Transport) : bool :=
  match settle t with
  | Throw _ => true
  | Ok (VArr []) => true
  | Ok _ => false
  end.

(** A fetch that succeeds with a non-empty collection. *)
Definition fetched_nonempty (t : Transport) : bool :=
  match settle t with
  | Ok (VArr (_ :: _)) => true
  | _ => false
  end.

Definition all_failed_or_empty
  (ts : Transport * Transport * Transport * Transport) : bool :=
  let '(t1, t2, t3, t4) := ts in
  failed_or_empty t1 && failed_or_empty t2 && failed_or_empty t3
  && failed_or_empty t4.

Definition exactly_one_nonempty
  (ts : Transport * Transport * Transport * Transport) : bool :=
  let '(t1, t2, t3, t4) := ts in
  (fetched_nonempty t1 && failed_or_empty t2 && failed_or_empty t3
   && failed_or_empty t4)
  || (failed_or_empty t1 && fetched_nonempty t2 && failed_or_empty t3
      && failed_or_empty t4)
  || (failed_or_empty t1 && failed_or_empty t2 && fetched_nonempty t3
      && failed_or_empty t4)
  || (failed_or_empty t1 && failed_or_empty t2 && failed_or_empty t3
      && fetched_nonempty t4).

Definition is_object (v : value) : bool :=
  match v with
  | VObj _ => true
  | _ => false
  end.

(** The entity carries the identifier [id]. *)
Definition has_id (id : string) (v : value) : bool :=
  strict_eq (optional_prop v "_id") (VStr id).

Definition status_of (v : value) : value := optional_prop v "status".

(** [offer.offer?.total_ctc], as the offer page reads it. *)
Definition total_ctc_of (offer : value) : value :=
  optional_prop (optional_prop offer "offer") "total_ctc".

(** The replacement [approveOffer] applies to each offer of the collection
    ([approve_one], on an object). *)
Definition approved (id : string) (o : value) : value :=
  if has_id id o then VObj (obj_set "status" (VStr "Approved") (props_of o))
  else o.

(** The replacement the fallback branch of [updateOffer] applies
    ([modify_one], on an object). *)
Definition modified (id : string) (patch : obj) (o : value) : value :=
  if has_id id o
  then VObj (obj_set "status" (VStr "Modified") (spread (props_of o) patch))
  else o.

(** *** Sample backends and worlds *)

(** A backend that cannot be reached. *)
Definition unreachable : Request -> unit -> Transport * unit :=
  fun _ _ => (NoResponse (VStr "ERR_NETWORK"), tt).

(** A backend that holds nothing and accepts everything with an empty
    collection. *)
Definition empty_backend : Request -> unit -> Transport * unit :=
  fun _ _ => (HttpResponse 200 (VArr []), tt).

Definition no_notification : Notification := mkNotification false "" "info".

Definition blank_form : RoleManagement.FormData :=
  RoleManagement.mkFormData (VStr "") (VStr "") (VStr "") "" "" (VStr "")
    (VStr "") (VStr "") (VStr "") (VObj [("min", VNum 0); ("max", VNum 0)]).

Definition initialRolePage : RoleManagement.State :=
  RoleManagement.mkState false false "add" VNull no_notification blank_form.

Definition initialOfferPage : OfferRecommendation.State :=
  OfferRecommendation.mkState (VArr []) VNull false false VNull no_notification.

(** The world at mount time, over a backend in state [b]. *)
Definition mount {Srv : Type} (b : Srv) : World Srv :=
  mkWorld initialStore initialRolePage initialOfferPage b [].

(** ** The roles resource of the backend *)

Definition role_is_active (r : value) : bool :=
  truthy (optional_prop r "is_active").

Definition deactivate (id : string) (r : value) : value :=
  if has_id id r then VObj (obj_set "is_active" (VBool false) (props_of r))
  else r.


(** A backend that holds one candidate and cannot serve the other
    resources. *)
Definition sample_candidate : value :=
  VObj [("_id", VStr "c1"); ("name", VStr "Ada Park"); ("skills", VArr [VStr "Go"])].

Definition candidates_only : Request -> unit -> Transport * unit :=
  fun req _ =>
    if url req =? "/candidates/" then (HttpResponse 200 (VArr [sample_candidate]), tt)
    else (NoResponse (VStr "ERR_NETWORK"), tt).

(** A backend that accepts every request with the same body. *)
Definition accepting (reply : value) : Request -> unit -> Transport * unit :=
  fun _ _ => (HttpResponse 200 reply, tt).

(** The answer of the scenario of the gateway: HTTP 404 with the body
    [{detail: 'role not found'}]. *)
Definition role_not_found : Transport :=
  HttpResponse 404 (VObj [("detail", VStr "role not found")]).

Definition missing_everywhere : Request -> unit -> Transport * unit :=
  fun _ _ => (role_not_found, tt).

(** The store the bootstrap leaves when every fetch failed. *)
Definition fallbackStore : Store :=
  mkStore (obj_get "candidates" mockData) (obj_get "roles" mockData)
          (obj_get "matches" mockData) (obj_get "offers" mockData)
          false (VStr demo_mode_notice) true.

Definition world_of {Srv : Type} (s : Store) (b : Srv) : World Srv :=
  mkWorld s initialRolePage initialOfferPage b [].

(** The scenario of role creation: fallback mode, the single role
    [{_id: 'mock1', required_skills: ['React']}], the form filled with the
    title [X] and the required skill [X]. *)
Definition scenario_role : value :=
  VObj [("_id", VStr "mock1"); ("required_skills", VArr [VStr "React"])].

Definition scenario_store : Store :=
  mkStore (obj_get "candidates" mockData) (VArr [scenario_role])
          (obj_get "matches" mockData) (obj_get "offers" mockData)
          false VNull true.

Definition scenario_form : RoleManagement.FormData :=
  RoleManagement.mkFormData (VStr "X") (VStr "") (VStr "") "X" "" (VStr "")
    (VStr "") (VStr "") (VStr "") (VObj [("min", VNum 0); ("max", VNum 0)]).

Definition scenario_page : RoleManagement.State :=
  RoleManagement.mkState false true "add" VNull no_notification scenario_form.

(** A live store over a backend that holds one active role and a match
    that refers to it. *)
Definition engineer_role : value :=
  VObj [("_id", VStr "r1"); ("title", VStr "Engineer"); ("is_active", VBool true)].

Definition engineer_match : value :=
  VObj [("_id", VStr "m1"); ("candidate_id", VStr "c1"); ("role_id", VStr "r1");
        ("match_score", VNum 90); ("status", VStr "Matched")].

Definition live_store : Store :=
  mkStore (VArr [sample_candidate]) (VArr [engineer_role]) (VArr [engineer_match])
          (VArr []) false VNull false.

(** An offer page that shows the fallback offers and edits the package of
    the first one. *)
Definition editing_page (edited : value) : OfferRecommendation.State :=
  OfferRecommendation.mkState (obj_get "offers" mockData)
    (VObj [("_id", VStr "mock1")]) false true edited no_notification.

(** The offers of the fallback dataset, and stores that hold them in
    fallback and in live mode. *)
Definition fallback_offers : list value :=
  match obj_get "offers" mockData with
  | VArr l => l
  | _ => []
  end.

Definition offers_store (fallback : bool) : Store :=
  mkStore (VArr []) (VArr []) (VArr []) (VArr fallback_offers) false VNull fallback.

(** The package of the fallback offer after the base salary was retyped in
    the edit dialog: the field holds the text of the input. *)
Definition edited_package : obj :=
  [ ("base_salary", VStr "120000"); ("bonus", VNum 10000);
    ("equity", VStr "1%"); ("total_ctc", VNum 110000) ].


(** ** The rest of the client *)

(** *** [Array.prototype.join] and the serialisation of a query *)

Fixpoint join_with (sep : string) (l : list string) : string :=
  match l with
  | [] => ""
  | [x] => x
  | x :: r => x ++ sep ++ join_with sep r
  end.

(** The string [join] takes for an element: empty for [undefined] and
    [null], ToString otherwise. *)
Definition element_string (v : value) : string :=
  match v with
  | VUndef | VNull => ""
  | _ => to_string v
  end.

(** [arr.join(sep)]; a value without [join] makes the call a TypeError. *)
Definition array_join (sep : string) (arr : value) : Result string :=
  match arr with
  | VArr l => Ok (join_with sep (map element_string l))
  | _ => Throw TypeError
  end.

(** The bytes the serialiser of [URLSearchParams] leaves as they are:
    ASCII letters and digits, [*], [-], [.] and [_]. *)
Definition url_safe (c : ascii) : bool :=
  let n := N_of_ascii c in
  (((48 <=? n) && (n <=? 57)) || ((65 <=? n) && (n <=? 90))
   || ((97 <=? n) && (n <=? 122))
   || (n =? 42) || (n =? 45) || (n =? 46) || (n =? 95))%N.

Definition hex_char (n : N) : ascii :=
  if (n <? 10)%N then ascii_of_N (48 + n) else ascii_of_N (55 + n).

(** The serialisation of one byte: itself when safe, [+] for a space,
    [%HH] otherwise. *)
Definition urlencode_byte (c : ascii) : string :=
  if url_safe c then String c ""
  else if (c =? " ")%char then "+"
  else String "%" (String (hex_char (N_of_ascii c / 16))
                          (String (hex_char (N_of_ascii c mod 16)) "")).

Fixpoint urlencode (s : string) : string :=
  match s with
  | EmptyString => ""
  | String c r => urlencode_byte c ++ urlencode r
  end.

(** [params.toString()] for the list of appended pairs. *)
Definition URLSearchParams_toString (params : list (string * string)) : string :=
  join_with "&" (map (fun p => urlencode (fst p) ++ "=" ++ urlencode (snd p)) params).

(** [ids.forEach(id => params.append(name, id))]: one pair per element, the
    value converted by ToString; a value without [forEach] makes the call
    a TypeError. *)
Definition params_append (name : string) (ids : value)
  (params : list (string * string)) : Result (list (string * string)) :=
  match ids with
  | VArr l => Ok (params ++ map (fun id => (name, to_string id)) l)%list
  | _ => Throw TypeError
  end.

(** [[...v]]: the elements of an array, the characters of a string; any
    other value is not iterable. *)
Definition spread_elements (v : value) : Result (list value) :=
  match v with
  | VArr l => Ok l
  | VStr s => Ok (map (fun c => VStr (String c "")) (list_ascii_of_string s))
  | _ => Throw TypeError
  end.

(** [v[0]]. *)
Definition first_element (v : value) : Result value :=
  match v with
  | VUndef | VNull => Throw TypeError
  | VArr l => Ok (nth 0 l VUndef)
  | VStr s => Ok (match s with
                  | EmptyString => VUndef
                  | String c _ => VStr (String c "")
                  end)
  | VObj fs => Ok (obj_get "0" fs)
  | VNaN | VBool _ | VNum _ | VInf _ => Ok VUndef
  end.

(** [arr.filter(p)]. *)
Fixpoint filter_result (p : value -> Result bool) (l : list value)
  : Result (list value) :=
  match l with
  | [] => Ok []
  | x :: r =>
      match p x with
      | Ok b =>
          match filter_result p r with
          | Ok ys => Ok (if b then x :: ys else ys)
          | Throw e => Throw e
          end
      | Throw e => Throw e
      end
  end.

Definition array_filter (p : value -> Result bool) (arr : value) : Result value :=
  match arr with
  | VArr l =>
      match filter_result p l with
      | Ok ys => Ok (VArr ys)
      | Throw e => Throw e
      end
  | _ => Throw TypeError
  end.

(** [`mock${coll.length + 1}`], the identifier the simulations synthesize,
    for a collection of [n] elements (the collection has been spread by
    then: it is an array or a string, and its length is the number of the
    elements). *)
Definition mock_id (n : nat) : value :=
  VStr ("mock" ++ Z_to_string (Z.of_nat n + 1)).

(** The identifiers [mock1 .. mockn]. *)
Definition mock_ids (n : nat) : list value :=
  map (fun i => VStr ("mock" ++ Z_to_string (Z.of_nat i))) (seq 1 n).

(** [o._id] of each entity of a list. *)
Definition ids_of (l : list value) : list value :=
  map (fun o => optional_prop o "_id") l.

Section Workflows.

Variable Srv : Type.
Variable serve : Request -> Srv -> Transport * Srv.

#[local] Existing Instance Monad_M.
#[local] Existing Instance Exc_M.

(** *** [src/services/api.js], continued *)

(** The body of the upload: the form data, one [files] entry per file. *)
Definition uploadCandidateFiles_request (files : list value) : Request :=
  mkRequest "POST" "/candidates/upload" []
            (VArr (map (fun file => VArr [VStr "files"; file]) files)).

Definition candidateService_uploadCandidateFiles (files : value) : M Srv value :=
  catch
    (match files with
     | VArr l => apiClient serve (uploadCandidateFiles_request l)
     | _ => raise TypeError
     end)
    (fun error => raise error).

Definition processMatches_request (params : list (string * string)) : Request :=
  mkRequest "POST" ("/matches/process?" ++ URLSearchParams_toString params) [] VUndef.

Definition matchService_processMatches (candidateIds roleIds : value)
  : M Srv value :=
  let candidateIds := default_arg candidateIds (VArr []) in
  let roleIds := default_arg roleIds (VArr []) in
  catch
    (params <- lift (params_append "candidate_ids" candidateIds []) ;;
     params <- lift (params_append "role_ids" roleIds params) ;;
     apiClient serve (processMatches_request params))
    (fun error => raise error).

Definition generateOffers_request (params : list (string * string)) : Request :=
  mkRequest "POST" ("/offers/generate?" ++ URLSearchParams_toString params) [] VUndef.

Definition offerService_generateOffers (matchIds : value) : M Srv value :=
  let matchIds := default_arg matchIds (VArr []) in
  catch
    (params <- lift (params_append "match_ids" matchIds []) ;;
     apiClient serve (generateOffers_request params))
    (fun error => raise error).

Definition getOffer_request (id : value) : Request :=
  mkRequest "GET" ("/offers/" ++ to_string id) [] VUndef.

Definition offerService_getOffer (id : value) : M Srv value :=
  service serve (getOffer_request id).

(** *** [src/context/AppContext.jsx], continued *)

Definition refreshCandidates (rendered : Store) : M Srv value :=
  if useFallbackData rendered then ret (obj_get "candidates" mockData)
  else
    catch
      (data <- candidateService_getCandidates serve ;;
       setCandidates data ;;
       ret data)
      (fun err =>
         setError (js_or (userMessage_of err) (VStr "Error refreshing candidates")) ;;
         raise err).

Definition refreshMatches (rendered : Store) : M Srv value :=
  if useFallbackData rendered then ret (obj_get "matches" mockData)
  else
    catch
      (data <- matchService_getMatches serve VUndef ;;
       setMatches data ;;
       ret data)
      (fun err =>
         setError (js_or (userMessage_of err) (VStr "Error refreshing matches")) ;;
         raise err).

Definition clearError : M Srv unit := setError VNull.

(** A timer set by [setTimeout]: its delay in milliseconds and what runs
    when it fires.  A throw of the callback is an uncaught error. *)
Record Timer : Type := mkTimer {
  delay : Z;
  callback : M Srv unit
}.

(** The callback of the simulated upload:
    [setCandidates([...candidates, { _id: `mock${candidates.length + 1}`, ... }])]. *)
Definition simulated_upload (rendered : Store) : M Srv unit :=
  elements <- lift (spread_elements (candidates rendered)) ;;
  setCandidates
    (VArr (elements ++
           [VObj [ ("_id", mock_id (List.length elements));
                   ("name", VStr "New Candidate");
                   ("email", VStr "new@example.com");
                   ("skills", VArr [VStr "JavaScript"; VStr "React"]);
                   ("experience", VStr "2 years") ]])).

(** The callback of the simulated matching. *)
Definition simulated_matching (rendered : Store) : M Srv unit :=
  elements <- lift (spread_elements (matches rendered)) ;;
  candidate <- lift (first_element (candidates rendered)) ;;
  candidate_id <- lift (get_prop candidate "_id") ;;
  role <- lift (first_element (roles rendered)) ;;
  role_id <- lift (get_prop role "_id") ;;
  setMatches
    (VArr (elements ++
           [VObj [ ("_id", mock_id (List.length elements));
                   ("candidate_id", candidate_id);
                   ("role_id", role_id);
                   ("match_score", VNum 75);
                   ("status", VStr "Matched") ]])).

(** The callback of the simulated offer generation. *)
Definition simulated_generation (rendered : Store) : M Srv unit :=
  elements <- lift (spread_elements (offers rendered)) ;;
  candidate <- lift (first_element (candidates rendered)) ;;
  candidate_id <- lift (get_prop candidate "_id") ;;
  role <- lift (first_element (roles rendered)) ;;
  role_id <- lift (get_prop role "_id") ;;
  setOffers
    (VArr (elements ++
           [VObj [ ("_id", mock_id (List.length elements));
                   ("candidate_id", candidate_id);
                   ("role_id", role_id);
                   ("match_score", VNum 75);
                   ("status", VStr "Pending Approval");
                   ("offer", VObj [ ("base_salary", VNum 90000);
                                    ("bonus", VNum 9000);
                                    ("equity", VStr "0.5%");
                                    ("total_ctc", VNum 99000) ]) ]])).

(** [uploadCandidates], [runMatching] and [generateOffers].  Each returns
    its value together with the timers it has set: setting the timer is
    the last step before the return, nothing can throw after it. *)
Definition uploadCandidates (rendered : Store) (files : value)
  : M Srv (value * list Timer) :=
  if useFallbackData rendered then
    ret (VObj [("message", VStr "Simulated upload successful in demo mode")],
         [mkTimer 1000 (simulated_upload rendered)])
  else
    catch
      (response <- candidateService_uploadCandidateFiles files ;;
       ret (response, [mkTimer 2000 (_ <- refreshCandidates rendered ;; ret tt)]))
      (fun err =>
         setError (js_or (userMessage_of err) (VStr "Error uploading candidates")) ;;
         raise err).

Definition runMatching (rendered : Store) (candidateIds roleIds : value)
  : M Srv (value * list Timer) :=
  let candidateIds := default_arg candidateIds (VArr []) in
  let roleIds := default_arg roleIds (VArr []) in
  if useFallbackData rendered then
    ret (VObj [("message", VStr "Simulated matching process in demo mode")],
         [mkTimer 1000 (simulated_matching rendered)])
  else
    catch
      (response <- matchService_processMatches candidateIds roleIds ;;
       ret (response, [mkTimer 3000 (_ <- refreshMatches rendered ;; ret tt)]))
      (fun err =>
         setError (js_or (userMessage_of err) (VStr "Error running matching process")) ;;
         raise err).

Definition generateOffers (rendered : Store) (matchIds : value)
  : M Srv (value * list Timer) :=
  let matchIds := default_arg matchIds (VArr []) in
  if useFallbackData rendered then
    ret (VObj [("message", VStr "Simulated offer generation in demo mode")],
         [mkTimer 1000 (simulated_generation rendered)])
  else
    catch
      (response <- offerService_generateOffers matchIds ;;
       ret (response, [mkTimer 3000 (_ <- refreshOffers serve rendered ;; ret tt)]))
      (fun err =>
         setError (js_or (userMessage_of err) (VStr "Error generating offers")) ;;
         raise err).

End Workflows.

(** The own enumerable properties a spread copies into a fresh object:
    those of an object, the indexed elements of an array, the indexed
    characters of a string, none of another value. *)
Fixpoint indexed (i : nat) (l : list value) : obj :=
  match l with
  | [] => []
  | x :: r => (Z_to_string (Z.of_nat i), x) :: indexed (S i) r
  end.

Definition own_props (v : value) : obj :=
  match v with
  | VObj fs => fs
  | VArr l => indexed 0 l
  | VStr s => indexed 0 (map (fun c => VStr (String c "")) (list_ascii_of_string s))
  | _ => []
  end.

(** The inputs of the role form, by their [name] attribute. *)
Inductive InputName : Type :=
| input_title
| input_department
| input_description
| input_required_skills
| input_preferred_skills
| input_experience_required
| input_education_required
| input_location
| input_remote_option
| input_salary_min
| input_salary_max.

(** [{ ...formData, [name]: value }] for a text input. *)
Definition set_text_field (name : InputName) (value : string)
  (f : RoleManagement.FormData) : RoleManagement.FormData :=
  let v := VStr value in
  match name with
  | input_title =>
      RoleManagement.mkFormData v (RoleManagement.department f)
        (RoleManagement.description f) (RoleManagement.required_skills f)
        (RoleManagement.preferred_skills f) (RoleManagement.experience_required f)
        (RoleManagement.education_required f) (RoleManagement.location f)
        (RoleManagement.remote_option f) (RoleManagement.salary_range f)
  | input_department =>
      RoleManagement.mkFormData (RoleManagement.title f) v
        (RoleManagement.description f) (RoleManagement.required_skills f)
        (RoleManagement.preferred_skills f) (RoleManagement.experience_required f)
        (RoleManagement.education_required f) (RoleManagement.location f)
        (RoleManagement.remote_option f) (RoleManagement.salary_range f)
  | input_description =>
      RoleManagement.mkFormData (RoleManagement.title f) (RoleManagement.department f)
        v (RoleManagement.required_skills f)
        (RoleManagement.preferred_skills f) (RoleManagement.experience_required f)
        (RoleManagement.education_required f) (RoleManagement.location f)
        (RoleManagement.remote_option f) (RoleManagement.salary_range f)
  | input_required_skills =>
      RoleManagement.mkFormData (RoleManagement.title f) (RoleManagement.department f)
        (RoleManagement.description f) value
        (RoleManagement.preferred_skills f) (RoleManagement.experience_required f)
        (RoleManagement.education_required f) (RoleManagement.location f)
        (RoleManagement.remote_option f) (RoleManagement.salary_range f)
  | input_preferred_skills =>
      RoleManagement.mkFormData (RoleManagement.title f) (RoleManagement.department f)
        (RoleManagement.description f) (RoleManagement.required_skills f)
        value (RoleManagement.experience_required f)
        (RoleManagement.education_required f) (RoleManagement.location f)
        (RoleManagement.remote_option f) (RoleManagement.salary_range f)
  | input_experience_required =>
      RoleManagement.mkFormData (RoleManagement.title f) (RoleManagement.department f)
        (RoleManagement.description f) (RoleManagement.required_skills f)
        (RoleManagement.preferred_skills f) v
        (RoleManagement.education_required f) (RoleManagement.location f)
        (RoleManagement.remote_option f) (RoleManagement.salary_range f)
  | input_education_required =>
      RoleManagement.mkFormData (RoleManagement.title f) (RoleManagement.department f)
        (RoleManagement.description f) (RoleManagement.required_skills f)
        (RoleManagement.preferred_skills f) (RoleManagement.experience_required f)
        v (RoleManagement.location f)
        (RoleManagement.remote_option f) (RoleManagement.salary_range f)
  | input_location =>
      RoleManagement.mkFormData (RoleManagement.title f) (RoleManagement.department f)
        (RoleManagement.description f) (RoleManagement.required_skills f)
        (RoleManagement.preferred_skills f) (RoleManagement.experience_required f)
        (RoleManagement.education_required f) v
        (RoleManagement.remote_option f) (RoleManagement.salary_range f)
  | input_remote_option =>
      RoleManagement.mkFormData (RoleManagement.title f) (RoleManagement.department f)
        (RoleManagement.description f) (RoleManagement.required_skills f)
        (RoleManagement.preferred_skills f) (RoleManagement.experience_required f)
        (RoleManagement.education_required f) (RoleManagement.location f)
        v (RoleManagement.salary_range f)
  | input_salary_min | input_salary_max => f
  end.

(** [{ ...formData, salary_range: range }]. *)
Definition set_salary_range (range : value) (f : RoleManagement.FormData)
  : RoleManagement.FormData :=
  RoleManagement.mkFormData (RoleManagement.title f) (RoleManagement.department f)
    (RoleManagement.description f) (RoleManagement.required_skills f)
    (RoleManagement.preferred_skills f) (RoleManagement.experience_required f)
    (RoleManagement.education_required f) (RoleManagement.location f)
    (RoleManagement.remote_option f) range.

(** The form data [handleInputChange] stores for the input [name] and the
    text [value], from the form data of the render. *)
Definition changed_form (formData : RoleManagement.FormData) (name : InputName)
  (value : string) : RoleManagement.FormData :=
  match name with
  | input_salary_min | input_salary_max =>
      set_salary_range
        (VObj (obj_set (match name with input_salary_min => "min" | _ => "max" end)
                       (js_or (parseInt (VStr value)) (VNum 0))
                       (own_props (RoleManagement.salary_range formData))))
        formData
  | _ => set_text_field name value formData
  end.

(** The form data [handleEditRole] builds from a role. *)
Definition form_of_role (role : value) : Result RoleManagement.FormData :=
  title <- get_prop role "title" ;;
  department <- get_prop role "department" ;;
  description <- get_prop role "description" ;;
  required <- get_prop role "required_skills" ;;
  required <- array_join ", " (js_or required (VArr [])) ;;
  preferred <- get_prop role "preferred_skills" ;;
  preferred <- array_join ", " (js_or preferred (VArr [])) ;;
  experience <- get_prop role "experience_required" ;;
  education <- get_prop role "education_required" ;;
  location <- get_prop role "location" ;;
  remote <- get_prop role "remote_option" ;;
  salary <- get_prop role "salary_range" ;;
  ret (RoleManagement.mkFormData
         (js_or title (VStr "")) (js_or department (VStr ""))
         (js_or description (VStr ""))
         required preferred
         (js_or experience (VStr "")) (js_or education (VStr ""))
         (js_or location (VStr "")) (js_or remote (VStr ""))
         (js_or salary (VObj [("min", VNum 0); ("max", VNum 0)]))).

Section Pages.

Variable Srv : Type.
Variable serve : Request -> Srv -> Transport * Srv.

#[local] Existing Instance Monad_M.
#[local] Existing Instance Exc_M.

(** *** [src/pages/RoleManagement.jsx], continued *)

Definition rolePage_setDialogMode (mode : string) : M Srv unit :=
  update_rolePage (fun p =>
    RoleManagement.mkState (RoleManagement.loading p) (RoleManagement.dialogOpen p)
      mode (RoleManagement.selectedRole p)
      (RoleManagement.notification p) (RoleManagement.formData p)).

Definition rolePage_setSelectedRole (role : value) : M Srv unit :=
  update_rolePage (fun p =>
    RoleManagement.mkState (RoleManagement.loading p) (RoleManagement.dialogOpen p)
      (RoleManagement.dialogMode p) role
      (RoleManagement.notification p) (RoleManagement.formData p)).

Definition rolePage_setFormData (f : RoleManagement.FormData) : M Srv unit :=
  update_rolePage (fun p =>
    RoleManagement.mkState (RoleManagement.loading p) (RoleManagement.dialogOpen p)
      (RoleManagement.dialogMode p) (RoleManagement.selectedRole p)
      (RoleManagement.notification p) f).

Definition handleAddRole : M Srv unit :=
  rolePage_setDialogMode "add" ;;
  rolePage_setFormData
    (RoleManagement.mkFormData (VStr "") (VStr "") (VStr "") "" "" (VStr "")
       (VStr "") (VStr "") (VStr "") (VObj [("min", VNum 0); ("max", VNum 0)])) ;;
  rolePage_setDialogOpen true.

Definition handleEditRole (role : value) : M Srv unit :=
  rolePage_setDialogMode "edit" ;;
  rolePage_setSelectedRole role ;;
  f <- lift (form_of_role role) ;;
  rolePage_setFormData f ;;
  rolePage_setDialogOpen true.

Definition handleInputChange (page : RoleManagement.State) (name : InputName)
  (value : string) : M Srv unit :=
  rolePage_setFormData (changed_form (RoleManagement.formData page) name value).

(** *** [src/pages/OfferRecommendation.jsx], continued *)

Definition offerPage_setSelectedOffer (v : value) : M Srv unit :=
  update_offerPage (fun p =>
    OfferRecommendation.mkState (OfferRecommendation.offers p) v
      (OfferRecommendation.detailDialogOpen p) (OfferRecommendation.editDialogOpen p)
      (OfferRecommendation.editedOffer p) (OfferRecommendation.notification p)).

Definition offerPage_setEditedOffer (v : value) : M Srv unit :=
  update_offerPage (fun p =>
    OfferRecommendation.mkState (OfferRecommendation.offers p)
      (OfferRecommendation.selectedOffer p)
      (OfferRecommendation.detailDialogOpen p) (OfferRecommendation.editDialogOpen p)
      v (OfferRecommendation.notification p)).

Definition handleDetailOpen (offer : value) : M Srv unit :=
  catch
    (id <- lift (get_prop offer "_id") ;;
     offerDetails <- offerService_getOffer serve id ;;
     offerPage_setSelectedOffer offerDetails ;;
     offerPage_setDetailDialogOpen true)
    (fun error =>
       offerPage_setNotification
         (mkNotification true "Error loading offer details. Please try again." "error")).

Definition handleEditOpen (offer : value) : M Srv unit :=
  offerPage_setSelectedOffer offer ;;
  package <- lift (get_prop offer "offer") ;;
  offerPage_setEditedOffer (VObj (own_props package)) ;;
  offerPage_setEditDialogOpen true.

Definition handleEditClose : M Srv unit := offerPage_setEditDialogOpen false.

(** The [onChange] of a field of the edit dialog:
    [setEditedOffer({ ...editedOffer, [field]: e.target.value })]. *)
Definition handleEditChange (page : OfferRecommendation.State) (field value : string)
  : M Srv unit :=
  offerPage_setEditedOffer
    (VObj (obj_set field (VStr value)
                   (own_props (OfferRecommendation.editedOffer page)))).

End Pages.

(** *** [src/components/Navigation.jsx] *)

(** [offers.filter(o => o.status === 'Pending Approval').length] and
    [matches.filter(m => m.status === 'Review Needed').length]. *)
Definition count_status (status : string) (coll : value) : Result nat :=
  match coll with
  | VArr l =>
      match filter_result (fun o => st <- get_prop o "status" ;;
                                    ret (strict_eq st (VStr status))) l with
      | Ok ys => Ok (List.length ys)
      | Throw e => Throw e
      end
  | _ => Throw TypeError
  end.

Definition pendingOffersCount (offers : value) : Result nat :=
  count_status "Pending Approval" offers.

Definition pendingMatchesCount (matches : value) : Result nat :=
  count_status "Review Needed" matches.

(** *** [src/pages/CandidateUpload.jsx] *)

Definition pdf_type : string := "application/pdf".

Definition docx_type : string :=
  "application/vnd.openxmlformats-officedocument.wordprocessingml.document".

(** The filter of [onDrop]. *)
Definition accepted_type (file : value) : Result bool :=
  t <- get_prop file "type" ;;
  if strict_eq t (VStr pdf_type) then ret true
  else (t' <- get_prop file "type" ;; ret (strict_eq t' (VStr docx_type))).

(** [onDrop]: the files kept, whether the rejection notice is shown, and
    the update of the selected files [prevFiles => [...prevFiles,
    ...filteredFiles]]. *)
Definition onDrop (acceptedFiles : list value) (prevFiles : list value)
  : Result (bool * list value) :=
  filteredFiles <- filter_result accepted_type acceptedFiles ;;
  ret ((List.length filteredFiles <? List.length acceptedFiles)%nat,
       (prevFiles ++ filteredFiles)%list).

(** The updater of the progress interval of [handleUpload]:
    [prev => prev >= 90 ? prev : prev + 10] (the branch that keeps [prev]
    also clears the interval). *)
Definition progress_tick (prev : Z) : Z :=
  if (90 <=? prev)%Z then prev else (prev + 10)%Z.

(** [handleRemoveFile]: [files.filter((_, i) => i !== index)]. *)
Fixpoint remove_at (index : nat) (files : list value) : list value :=
  match files with
  | [] => []
  | f :: r =>
      match index with
      | O => r
      | S i => f :: remove_at i r
      end
  end.

(** *** Match scores: [src/pages/Dashboard.jsx] and [src/pages/RoleMatching.jsx] *)

Section Scores.

(** The engine's conversion of a string to a number, and its lower-casing
    of a string. *)
Variable string_to_number : string -> value.
Variable toLowerCase : string -> string.

(** ToNumber. *)
Definition to_number (v : value) : value :=
  match v with
  | VNum z => VNum z
  | VInf s => VInf s
  | VBool true => VNum 1
  | VBool false => VNum 0
  | VNull => VNum 0
  | VStr s => string_to_number s
  | VArr _ => string_to_number (to_string v)
  | VUndef | VNaN | VObj _ => VNaN
  end.

(** [v >= n] and [v < n] for a number literal [n]. *)
Definition js_ge (v : value) (n : Z) : bool :=
  match to_number v with
  | VNum z => (n <=? z)%Z
  | VInf s => negb s
  | _ => false
  end.

Definition js_lt (v : value) (n : Z) : bool :=
  match to_number v with
  | VNum z => (z <? n)%Z
  | VInf s => s
  | _ => false
  end.

(** [getMatchScoreColor]. *)
Definition getMatchScoreColor (score : value) : string :=
  if js_ge score 90 then "success"
  else if js_ge score 70 then "primary"
  else if js_ge score 50 then "warning"
  else "error".

(** The loop of [fetchDashboardData] over the matches: the four counters
    (excellent, good, fair, poor) after the matches of [l]. *)
Fixpoint count_matches (l : list value) (d : Z * Z * Z * Z) : Result (Z * Z * Z * Z) :=
  match l with
  | [] => Ok d
  | m :: r =>
      match get_prop m "match_score" with
      | Ok score =>
          let '(d0, d1, d2, d3) := d in
          count_matches r
            (if js_ge score 90 then (d0 + 1, d1, d2, d3)
             else if js_ge score 70 then (d0, d1 + 1, d2, d3)
             else if js_ge score 50 then (d0, d1, d2 + 1, d3)
             else (d0, d1, d2, d3 + 1))%Z
      | Throw e => Throw e
      end
  end.

Definition matchDistribution (matches : value) : Result (Z * Z * Z * Z) :=
  match matches with
  | VArr l => count_matches l (0, 0, 0, 0)%Z
  | _ => Throw TypeError
  end.

(** [s.includes(q)]. *)
Fixpoint includes (q s : string) : bool :=
  prefix q s
  || match s with
     | EmptyString => false
     | String _ r => includes q r
     end.

(** [m[name]?.toLowerCase().includes(query)], as a condition. *)
Definition name_matches (m : value) (name query : string) : Result bool :=
  v <- get_prop m name ;;
  match v with
  | VUndef | VNull => Ok false
  | VStr s => Ok (includes query (toLowerCase s))
  | _ => Throw TypeError
  end.

(** The filter of the score selector of the matching page, for one of its
    four cases (the effect applies no filter for another selection). *)
Definition score_filter (filterMatchScore : string) (m : value) : Result bool :=
  score <- get_prop m "match_score" ;;
  if filterMatchScore =? "excellent" then Ok (js_ge score 90)
  else if filterMatchScore =? "good" then
    (if js_ge score 70 then (again <- get_prop m "match_score" ;; Ok (js_lt again 90))
     else Ok false)
  else if filterMatchScore =? "fair" then
    (if js_ge score 50 then (again <- get_prop m "match_score" ;; Ok (js_lt again 70))
     else Ok false)
  else Ok (js_lt score 50).

(** The effect of the matching page that computes [filteredMatches]. *)
Definition filteredMatches
  (matches : value) (searchQuery filterRole filterMatchScore : string)
  : Result (list value) :=
  filtered <- spread_elements matches ;;
  filtered <-
    (if negb (searchQuery =? "") then
       let query := toLowerCase searchQuery in
       filter_result
         (fun m =>
            match name_matches m "candidate_name" query with
            | Ok true => Ok true
            | Ok false => name_matches m "role_title" query
            | Throw e => Throw e
            end)
         filtered
     else Ok filtered) ;;
  filtered <-
    (if negb (filterRole =? "") then
       filter_result
         (fun m => r <- get_prop m "role_id" ;; Ok (strict_eq r (VStr filterRole)))
         filtered
     else Ok filtered) ;;
  if negb (filterMatchScore =? "") then
    if (filterMatchScore =? "excellent") || (filterMatchScore =? "good")
       || (filterMatchScore =? "fair") || (filterMatchScore =? "poor")
    then filter_result (score_filter filterMatchScore) filtered
    else Ok filtered
  else Ok filtered.

End Scores.

(** *** Vocabulary of the further statements *)

(** The user-facing message the interceptor attaches for a reply. *)
Definition message_for (t : Transport) : value :=
  userMessage (response_error_interceptor (axios_error t)).

Fixpoint string_forall (p : ascii -> bool) (s : string) : bool :=
  match s with
  | EmptyString => true
  | String c r => p c && string_forall p r
  end.

Fixpoint count_char (c : ascii) (s : string) : nat :=
  match s with
  | EmptyString => 0
  | String d r => (if (c =? d)%char then 1 else 0) + count_char c r
  end.

(** The bytes a serialised query component is made of. *)
Definition encoded_char (c : ascii) : bool :=
  url_safe c || (c =? "+")%char || (c =? "%")%char.

Definition is_array (v : value) : bool :=
  match v with
  | VArr _ => true
  | _ => false
  end.

(** A number that is not [NaN]. *)
Definition is_number (v : value) : bool :=
  match v with
  | VNum _ | VInf _ => true
  | _ => false
  end.

(** Words none of which is empty. *)
Definition nonempty_words (ws : list string) : bool :=
  forallb (fun w => negb (w =? "")) ws.

Definition no_comma (c : ascii) : bool := negb (c =? ",")%char.

(** A skill as the role form round-trips it: not empty, without a comma
    and without white space at either end ([trim] leaves it as it is). *)
Definition clean_skill (s : string) : bool :=
  negb (s =? "") && string_forall no_comma s && (trim s =? s).

(** The entries [handleSubmit] reads off a typed text: the strings of
    [skills_of]. *)
Definition typed_skills (s : string) : list string :=
  filter (fun x => negb (x =? "")) (map trim (split_comma s)).

(** The offer page after a handler that has only raised an error
    notification. *)
Definition only_notice (p p' : OfferRecommendation.State) : Prop :=
  OfferRecommendation.offers p' = OfferRecommendation.offers p /\
  OfferRecommendation.selectedOffer p' = OfferRecommendation.selectedOffer p /\
  OfferRecommendation.detailDialogOpen p' = OfferRecommendation.detailDialogOpen p /\
  OfferRecommendation.editDialogOpen p' = OfferRecommendation.editDialogOpen p /\
  OfferRecommendation.editedOffer p' = OfferRecommendation.editedOffer p /\
  open (OfferRecommendation.notification p') = true /\
  severity (OfferRecommendation.notification p') = "error".

(** An offer that waits for approval, as the navigation counts it. *)
Definition is_pending (o : value) : bool :=
  strict_eq (status_of o) (VStr "Pending Approval").

(** A file of one of the two accepted types. *)
Definition pdf_or_docx (file : value) : bool :=
  strict_eq (optional_prop file "type") (VStr pdf_type)
  || strict_eq (optional_prop file "type") (VStr docx_type).

(** A backend that accepts what is posted to it and serves nothing else. *)
Definition posts_only (reply : value) : Request -> unit -> Transport * unit :=
  fun req _ =>
    if method req =? "POST" then (HttpResponse 201 reply, tt)
    else (NoResponse (VStr "ERR_NETWORK"), tt).

(** A role with two required skills and no preferred ones. *)
Definition skilled_role : obj :=
  [ ("_id", VStr "r1"); ("title", VStr "Frontend Developer");
    ("required_skills", VArr [VStr "JavaScript"; VStr "React"]) ].

(** An offer whose package is the edited package of the fallback offer. *)
Definition edited_offer : obj :=
  [ ("_id", VStr "mock1"); ("status", VStr "Pending Approval");
    ("offer", VObj edited_package) ].

(** Two dropped files, a PDF and an image. *)
Definition dropped_files : list value :=
  [ VObj [("name", VStr "cv.pdf"); ("type", VStr pdf_type)];
    VObj [("name", VStr "photo.png"); ("type", VStr "image/png")] ].

(** * Facts *)

(** ** Objects *)

Lemma obj_get_set_same (k : string) (v : value) (fs : obj) :
  obj_get k (obj_set k v fs) = v.
Proof.
  induction fs as [|[k' v'] r IH]; simpl.
  - now rewrite String.eqb_refl.
  - destruct (k =? k') eqn:E; simpl; rewrite E; auto.
Qed.

Lemma obj_get_set_other (k k' : string) (v : value) (fs : obj) :
  (k' =? k) = false -> obj_get k' (obj_set k v fs) = obj_get k' fs.
Proof.
  intros Hne. induction fs as [|[k0 v0] r IH]; simpl.
  - now rewrite Hne.
  - destruct (k =? k0) eqn:E; simpl.
    + apply String.eqb_eq in E. subst k0. now rewrite Hne.
    + destruct (k' =? k0); auto.
Qed.

Lemma obj_has_set (k k' : string) (v : value) (fs : obj) :
  obj_has k' (obj_set k v fs) = (k' =? k) || obj_has k' fs.
Proof.
  induction fs as [|[k0 v0] r IH]; simpl.
  - now rewrite orb_false_r.
  - destruct (k =? k0) eqn:E; simpl.
    + apply String.eqb_eq in E. subst k0.
      destruct (k' =? k); reflexivity.
    + rewrite IH. destruct (k' =? k0), (k' =? k); reflexivity.
Qed.

(** Writing the value a property already holds changes nothing. *)
Lemma obj_set_same_value (k : string) (v : value) (fs : obj) :
  obj_has k fs = true -> obj_get k fs = v -> obj_set k v fs = fs.
Proof.
  induction fs as [|[k0 v0] r IH]; simpl; intros Hhas Hget.
  - discriminate.
  - destruct (k =? k0) eqn:E.
    + now subst v0.
    + simpl in Hhas. f_equal. now apply IH.
Qed.

Lemma obj_get_defined_has (k : string) (fs : obj) :
  obj_get k fs <> VUndef -> obj_has k fs = true.
Proof.
  induction fs as [|[k0 v0] r IH]; simpl; intros H.
  - congruence.
  - destruct (k =? k0); simpl; auto.
Qed.

Lemma obj_set_twice (k : string) (v v' : value) (fs : obj) :
  obj_set k v (obj_set k v' fs) = obj_set k v fs.
Proof.
  induction fs as [|[k0 v0] r IH]; simpl.
  - now rewrite String.eqb_refl.
  - destruct (k =? k0) eqn:E; simpl; rewrite E; congruence.
Qed.

(** Two writes commute as soon as one of the two properties exists. *)
Lemma obj_set_comm (k k' : string) (v v' : value) (fs : obj) :
  (k =? k') = false -> obj_has k' fs = true ->
  obj_set k v (obj_set k' v' fs) = obj_set k' v' (obj_set k v fs).
Proof.
  intros Hne. induction fs as [|[k0 v0] r IH]; simpl; intros Hhas.
  - discriminate.
  - destruct (k' =? k0) eqn:E'; destruct (k =? k0) eqn:E; simpl;
      rewrite ?E, ?E'; try reflexivity.
    + apply String.eqb_eq in E, E'. subst. now rewrite String.eqb_refl in Hne.
    + simpl in Hhas. f_equal. now apply IH.
Qed.

Lemma spread_app (o p q : obj) : spread o (p ++ q)%list = spread (spread o p) q.
Proof. unfold spread. now rewrite fold_left_app. Qed.

Lemma obj_has_spread (k : string) (p o : obj) :
  obj_has k (spread o p) = obj_has k o || obj_has k p.
Proof.
  revert o. induction p as [|[k0 v0] r IH]; intros o; simpl.
  - now rewrite orb_false_r.
  - unfold spread in *. simpl. rewrite IH, obj_has_set.
    destruct (k =? k0), (obj_has k o); reflexivity.
Qed.

(** Re-applying a patch whose properties all exist, under a final write
    that the object has already received. *)
Lemma spread_under_write (k : string) (v : value) (p o : obj) :
  (forall k', obj_has k' p = true -> obj_has k' o = true) ->
  obj_set k v (spread (obj_set k v o) p) = obj_set k v (spread o p).
Proof.
  revert o. induction p as [|[k0 v0] r IH]; intros o Hin.
  - simpl. apply obj_set_twice.
  - unfold spread in *. simpl.
    destruct (k0 =? k) eqn:E.
    + apply String.eqb_eq in E. subst k0. now rewrite obj_set_twice.
    + assert (Hk0 : obj_has k0 o = true).
      { apply Hin. simpl. now rewrite String.eqb_refl. }
      rewrite String.eqb_sym in E.
      rewrite <- (obj_set_comm k k0 v v0 o E Hk0).
      apply IH. intros k' Hk'. rewrite obj_has_set.
      rewrite (Hin k'); [apply orb_true_r|].
      simpl. rewrite Hk'. apply orb_true_r.
Qed.

(** A spread is idempotent: [{...{...o, ...p}, ...p} = {...o, ...p}]. *)
Lemma spread_idempotent (p o : obj) : spread (spread o p) p = spread o p.
Proof.
  induction p as [|[k v] r IH] using rev_ind.
  - reflexivity.
  - rewrite !spread_app. unfold spread at 1 3. simpl.
    fold (spread (obj_set k v (spread o r)) r).
    rewrite spread_under_write.
    + now rewrite IH.
    + intros k' Hk'. rewrite obj_has_spread, Hk'. apply orb_true_r.
Qed.


(** ** [parseInt] reads back what ToString prints *)

Ltac eval_digit :=
  match goal with
  | |- context [digit_value 10 ?c] =>
      let v := eval vm_compute in (digit_value 10 c) in
      change (digit_value 10 c) with v
  end.

Lemma read_digits_acc (u : Decimal.uint) (acc : positive) :
  read_digits 10 (Some (N.pos acc)) (NilEmpty.string_of_uint u)
  = Some (N.pos (Pos.of_uint_acc u acc)).
Proof.
  revert acc. induction u; intros acc;
    cbn [NilEmpty.string_of_uint read_digits Pos.of_uint_acc];
    try reflexivity; eval_digit; cbv iota beta;
    rewrite <- IHu; do 2 f_equal; lia.
Qed.

Lemma read_digits_zero (u : Decimal.uint) :
  read_digits 10 (Some 0%N) (NilEmpty.string_of_uint u) = Some (Pos.of_uint u).
Proof.
  induction u; cbn [NilEmpty.string_of_uint read_digits Pos.of_uint];
    try reflexivity; eval_digit; cbv iota beta.
  1: exact IHu.
  all: now rewrite <- read_digits_acc.
Qed.

Lemma read_digits_start (u : Decimal.uint) :
  u <> Decimal.Nil ->
  read_digits 10 None (NilEmpty.string_of_uint u) = Some (Pos.of_uint u).
Proof.
  intros Hu. rewrite <- read_digits_zero.
  destruct u; [contradiction|reflexivity..].
Qed.

(** A decimal numeral begins with a digit: nothing to skip, no sign and
    no hexadecimal prefix. *)
Lemma int_prefix_plain (c : ascii) (r : string) (n : N) :
  strip_word white_spaces (String c r) = None ->
  (c =? "-")%char = false ->
  (c =? "+")%char = false ->
  strip_hex_prefix (String c r) = None ->
  read_digits 10 None (String c r) = Some n ->
  int_prefix (String c r) = Some (Z.of_N n) /\
  int_prefix (String "-" (String c r)) = Some (- Z.of_N n)%Z.
Proof.
  intros Hsp Hm Hp Hx Hr. unfold int_prefix, skip_spaces. split.
  - cbn [String.length skip_words]. rewrite Hsp, Hm, Hp, Hx, Hr. reflexivity.
  - cbn [String.length skip_words].
    change (strip_word white_spaces (String "-" (String c r))) with (@None string).
    cbv iota. change ("-" =? "-")%char with true. cbv iota.
    rewrite Hx, Hr. reflexivity.
Qed.

Lemma string_of_uint_no_hex (c : ascii) (u : Decimal.uint) :
  strip_hex_prefix (String c (NilEmpty.string_of_uint u))
  = None.
Proof.
  unfold strip_hex_prefix.
  destruct u; cbn [NilEmpty.string_of_uint]; try reflexivity;
    match goal with
    | |- context [((?d =? "x") || (?d =? "X"))%char] =>
        change ((d =? "x") || (d =? "X"))%char with false
    end; now rewrite andb_false_r.
Qed.

Lemma parse_digits_string (u : Decimal.uint) :
  u <> Decimal.Nil ->
  int_prefix (NilEmpty.string_of_uint u) = Some (Z.of_N (Pos.of_uint u)) /\
  int_prefix (String "-" (NilEmpty.string_of_uint u))
  = Some (- Z.of_N (Pos.of_uint u))%Z.
Proof.
  intros Hu. pose proof (read_digits_start Hu) as R.
  destruct u as [|u|u|u|u|u|u|u|u|u|u]; [contradiction|..];
    cbn [NilEmpty.string_of_uint] in *;
    (apply int_prefix_plain;
     [reflexivity|reflexivity|reflexivity|apply string_of_uint_no_hex|exact R]).
Qed.

Lemma to_uint_not_nil (p : positive) : Pos.to_uint p <> Decimal.Nil.
Proof.
  intros E. pose proof (DecimalPos.Unsigned.of_to p) as H.
  rewrite E in H. discriminate.
Qed.

(** The digits of an integer read back as the integer. *)
Lemma int_prefix_Z_to_string (z : Z) : int_prefix (Z_to_string z) = Some z.
Proof.
  unfold Z_to_string.
  destruct z as [|p|p]; [reflexivity| |]; simpl;
    pose proof (to_uint_not_nil p) as Hn;
    destruct (parse_digits_string Hn) as [Hp Hm];
    rewrite (DecimalPos.Unsigned.of_to p) in Hp, Hm.
  - unfold NilZero.string_of_uint.
    destruct (Pos.to_uint p); [contradiction|exact Hp..].
  - unfold NilZero.string_of_uint.
    destruct (Pos.to_uint p); [contradiction|exact Hm..].
Qed.

Lemma double_of_Z_safe (z : Z) : safe_integer z = true -> double_of_Z z = VNum z.
Proof. unfold safe_integer, double_of_Z. now intros ->. Qed.

(** [parseInt] of a decimal numeral is the double of its integer. *)
Lemma parseInt_typed (z : Z) : parseInt (VStr (Z_to_string z)) = double_of_Z z.
Proof.
  unfold parseInt, parse_int_string. simpl to_string.
  now rewrite int_prefix_Z_to_string.
Qed.

(** [parseInt(n) = n] for every safe integer. *)
Lemma parseInt_number (z : Z) : safe_integer z = true -> parseInt (VNum z) = VNum z.
Proof.
  intros H. unfold parseInt, parse_int_string. simpl to_string.
  unfold Number_toString. rewrite H, int_prefix_Z_to_string.
  now apply double_of_Z_safe.
Qed.

Example parseInt_examples :
  parseInt (VStr " 120000") = VNum 120000 /\
  parseInt (VStr "-42abc") = VNum (-42) /\
  parseInt (VStr "0x1F") = VNum 31 /\
  parseInt (VStr "") = VNaN /\
  parseInt (VNum 10000) = VNum 10000 /\
  parseInt VUndef = VNaN /\
  parseInt (VStr "9007199254740993") = VNum 9007199254740992 /\
  parseInt (VNum (10 ^ 21)) = VNum 1 /\
  to_string (VNum (2 ^ 60)) = "1152921504606847000" /\
  to_string (VNum (2 ^ 70)) = "1.1805916207174113e+21" /\
  number_add (VNum (2 ^ 53)) (VNum 1) = VNum (2 ^ 53) /\
  to_string (VArr [VNum 1; VNull; VStr "a"]) = "1,,a" /\
  map trim (split_comma "X, React ,") = ["X"; "React"; ""] /\
  trim (utf8 [194; 160] ++ "x y" ++ utf8 [226; 128; 168; 9]) = "x y".
Proof. repeat split; vm_compute; reflexivity. Qed.


(** ** The gateway *)

Section GatewayFacts.

Variable Srv : Type.
Variable serve : Request -> Srv -> Transport * Srv.
Variable string_to_number : string -> value.

(** A service call logs its request, hands the backend its next state and
    settles the answer; it leaves the store and the pages alone. *)
Lemma service_run (req : Request) (w : World Srv) (t : Transport) (b : Srv) :
  serve req (backend w) = (t, b) ->
  service serve req w
  = (settle t,
     mkWorld (store w) (rolePage w) (offerPage w) b (requests w ++ [req])).
Proof.
  intros E. unfold service, apiClient. simpl. rewrite E.
  destruct (settle t); reflexivity.
Qed.

(** Every rejection of the gateway carries a user-facing message. *)
Lemma settle_throw_message (t : Transport) (e : exn) :
  settle t = Throw e ->
  exists s, userMessage_of e = VStr s /\ s <> "".
Proof.
  unfold settle. intros H.
  assert (He : e = AxiosFailure (response_error_interceptor (axios_error t))).
  { destruct t as [st d| |]; [destruct ((200 <=? st) && (st <? 300))%Z|..];
      congruence. }
  subst e. clear H. simpl.
  destruct t as [st d|c|]; simpl.
  - repeat match goal with
           | |- context [if ?c then _ else _] => destruct c
           end; eexists; (split; [reflexivity|discriminate]).
  - repeat match goal with
           | |- context [if ?c then _ else _] => destruct c
           end; eexists; (split; [reflexivity|discriminate]).
  - eexists; (split; [reflexivity|discriminate]).
Qed.

(** No rejection of the gateway carries the demo-mode notice. *)
Lemma settle_throw_not_notice (t : Transport) (e : exn) :
  settle t = Throw e -> userMessage_of e <> VStr demo_mode_notice.
Proof.
  unfold settle. intros H.
  assert (He : e = AxiosFailure (response_error_interceptor (axios_error t))).
  { destruct t as [st d| |]; [destruct ((200 <=? st) && (st <? 300))%Z|..];
      congruence. }
  subst e. clear H. unfold demo_mode_notice.
  destruct t as [st d|c|]; simpl;
    repeat match goal with
           | |- context [if ?c then _ else _] => destruct c
           end; discriminate.
Qed.

End GatewayFacts.


Section BootstrapFacts.

Variable Srv : Type.
Variable serve : Request -> Srv -> Transport * Srv.
Variable string_to_number : string -> value.

Lemma try_fetch_run (req : Request) (w : World Srv) (t : Transport) (b : Srv) :
  serve req (backend w) = (t, b) ->
  try_fetch (service serve req) w
  = match settle t with
    | Ok d =>
        (Ok d, mkWorld (store w) (rolePage w) (offerPage w) b (requests w ++ [req]))
    | Throw e =>
        (Ok (VArr []),
         mkWorld (mkStore (candidates (store w)) (roles (store w))
                          (matches (store w)) (offers (store w))
                          (loading (store w))
                          (js_or (error (store w)) (userMessage_of e))
                          (useFallbackData (store w)))
                 (rolePage w) (offerPage w) b (requests w ++ [req]))
    end.
Proof.
  intros E. unfold try_fetch. simpl. rewrite (service_run serve req w E).
  destruct (settle t) as [d|e] eqn:S; [reflexivity|].
  destruct (settle_throw_message t S) as [s [Hs Hne]].
  rewrite Hs. simpl.
  destruct (s =? "") eqn:Es; [apply String.eqb_eq in Es; contradiction|].
  reflexivity.
Qed.

Lemma failed_or_empty_inv (t : Transport) :
  failed_or_empty t = true ->
  settle t = Ok (VArr []) \/ exists e, settle t = Throw e.
Proof.
  unfold failed_or_empty. destruct (settle t) as [d|e].
  - destruct d as [| | | | | | |[|x l]|]; try discriminate. now left.
  - intros _. right. now exists e.
Qed.

Lemma fetched_nonempty_inv (t : Transport) :
  fetched_nonempty t = true ->
  exists x l, settle t = Ok (VArr (x :: l)).
Proof.
  unfold fetched_nonempty. destruct (settle t) as [d|e]; [|discriminate].
  destruct d as [| | | | | | |[|x l]|]; try discriminate.
  intros _. now exists x, l.
Qed.

Ltac fetch_step E S :=
  erewrite try_fetch_run by (cbn; exact E);
  rewrite S; cbn -[try_fetch service mockData].

Lemma bootstrap_total_failure_store (w : World Srv) :
  mounted w ->
  all_failed_or_empty (bootstrap_answers serve (backend w)) = true ->
  fst (fetchInitialData serve string_to_number initialStore w) = Ok tt /\
  store (snd (fetchInitialData serve string_to_number initialStore w))
  = mkStore (obj_get "candidates" mockData) (obj_get "roles" mockData)
            (obj_get "matches" mockData) (obj_get "offers" mockData)
            false (VStr demo_mode_notice) true.
Proof.
  unfold mounted, bootstrap_answers, all_failed_or_empty. intros Hs H.
  destruct (serve getCandidates_request (backend w)) as [t1 b1] eqn:E1.
  destruct (serve (getRoles_request (VBool true)) b1) as [t2 b2] eqn:E2.
  destruct (serve (getMatches_request (VObj [])) b2) as [t3 b3] eqn:E3.
  destruct (serve (getOffers_request (VObj [])) b3) as [t4 b4] eqn:E4.
  apply andb_true_iff in H. destruct H as [H H4].
  apply andb_true_iff in H. destruct H as [H H3].
  apply andb_true_iff in H. destruct H as [H1 H2].
  apply failed_or_empty_inv in H1, H2, H3, H4.
  unfold fetchInitialData, try_finally.
  unfold candidateService_getCandidates, roleService_getRoles,
    matchService_getMatches, offerService_getOffers.
  cbn -[try_fetch service mockData].
  destruct H1 as [S1|[e1 S1]]; fetch_step E1 S1;
    (destruct H2 as [S2|[e2 S2]]; fetch_step E2 S2;
     (destruct H3 as [S3|[e3 S3]]; fetch_step E3 S3;
      (destruct H4 as [S4|[e4 S4]]; fetch_step E4 S4;
       (split; reflexivity)))).
Qed.


(** C1. If all four bootstrap fetches fail or return empty collections,
    then after the bootstrap has completed the fallback-mode flag is true
    and each of the four collections of the store equals the corresponding
    collection of the fixed fallback dataset. *)
Theorem bootstrap_total_failure_uses_fallback (w : World Srv) :
  mounted w ->
  all_failed_or_empty (bootstrap_answers serve (backend w)) = true ->
  let (r, w') := fetchInitialData serve string_to_number initialStore w in
  r = Ok tt /\
  loading (store w') = false /\
  useFallbackData (store w') = true /\
  candidates (store w') = obj_get "candidates" mockData /\
  roles (store w') = obj_get "roles" mockData /\
  matches (store w') = obj_get "matches" mockData /\
  offers (store w') = obj_get "offers" mockData.
Proof.
  intros Hm H.
  destruct (bootstrap_total_failure_store Hm H) as [Hr Hs].
  destruct (fetchInitialData serve string_to_number initialStore w) as [r w'].
  simpl in Hr, Hs. rewrite Hs. simpl. now repeat split.
Qed.

(** C2. Whenever exactly one of the four bootstrap fetches succeeds with
    non-empty data and the other three fail or return empty, the
    fallback-mode flag is false, the collection of every failed or empty
    fetch is empty (the fallback dataset is substituted for none), and the
    collection of the successful fetch is what it returned. *)
Theorem bootstrap_single_success_keeps_live_data
  (w : World Srv) (t1 t2 t3 t4 : Transport) :
  mounted w ->
  bootstrap_answers serve (backend w) = (t1, t2, t3, t4) ->
  exactly_one_nonempty (t1, t2, t3, t4) = true ->
  let (r, w') := fetchInitialData serve string_to_number initialStore w in
  r = Ok tt /\
  useFallbackData (store w') = false /\
  (failed_or_empty t1 = true -> candidates (store w') = VArr []) /\
  (failed_or_empty t2 = true -> roles (store w') = VArr []) /\
  (failed_or_empty t3 = true -> matches (store w') = VArr []) /\
  (failed_or_empty t4 = true -> offers (store w') = VArr []) /\
  (fetched_nonempty t1 = true -> settle t1 = Ok (candidates (store w'))) /\
  (fetched_nonempty t2 = true -> settle t2 = Ok (roles (store w'))) /\
  (fetched_nonempty t3 = true -> settle t3 = Ok (matches (store w'))) /\
  (fetched_nonempty t4 = true -> settle t4 = Ok (offers (store w'))).
Proof.
  unfold mounted, bootstrap_answers, exactly_one_nonempty. intros Hs Ha H.
  destruct (serve getCandidates_request (backend w)) as [u1 b1] eqn:E1.
  destruct (serve (getRoles_request (VBool true)) b1) as [u2 b2] eqn:E2.
  destruct (serve (getMatches_request (VObj [])) b2) as [u3 b3] eqn:E3.
  destruct (serve (getOffers_request (VObj [])) b3) as [u4 b4] eqn:E4.
  injection Ha as -> -> -> ->.
  unfold fetchInitialData, try_finally.
  unfold candidateService_getCandidates, roleService_getRoles,
    matchService_getMatches, offerService_getOffers.
  cbn -[try_fetch service mockData].
  rewrite Hs.
  cbn -[try_fetch service mockData].
  repeat (apply orb_true_iff in H; destruct H as [H|H]);
    repeat (match type of H with
            | (_ && _ = true) => apply andb_true_iff in H; destruct H as [H ?]
            end);
    repeat match goal with
           | Hn : fetched_nonempty ?t = true |- _ =>
               destruct (fetched_nonempty_inv t Hn) as (? & ? & ?); clear Hn
           | Hf : failed_or_empty ?t = true |- _ =>
               destruct (failed_or_empty_inv t Hf) as [?|[? ?]]; clear Hf
           end;
    match goal with
    | S1 : settle t1 = _, S2 : settle t2 = _, S3 : settle t3 = _,
      S4 : settle t4 = _ |- _ =>
        fetch_step E1 S1; fetch_step E2 S2; fetch_step E3 S3; fetch_step E4 S4;
        unfold failed_or_empty, fetched_nonempty;
        rewrite S1, S2, S3, S4
    end;
    repeat split; intros; try reflexivity; try discriminate.
Qed.


(** C4, on the code.  When the bootstrap ends in total failure and fallback
    mode is entered, the error cell holds the demo-mode notice, and
    [AppContent] renders the hard failure screen with it instead of the
    routed application. *)
Theorem total_failure_shows_error_screen (w : World Srv) :
  mounted w ->
  all_failed_or_empty (bootstrap_answers serve (backend w)) = true ->
  let s := store (snd (fetchInitialData serve string_to_number initialStore w)) in
  useFallbackData s = true /\
  loading s = false /\
  AppContent s = ErrorScreen (VStr demo_mode_notice) /\
  AppContent s <> Router.
Proof.
  intros Hm H. destruct (bootstrap_total_failure_store Hm H) as [_ Hs].
  cbv zeta. rewrite Hs. repeat split. discriminate.
Qed.

(** The guard of a fetch records the message of its failure in an empty
    error cell. *)
Lemma try_fetch_records_message
  (req : Request) (w : World Srv) (t : Transport) (b : Srv) (e : exn) :
  serve req (backend w) = (t, b) ->
  settle t = Throw e ->
  error (store w) = VNull ->
  error (store (snd (try_fetch (service serve req) w))) = userMessage_of e.
Proof.
  intros E S Hn. rewrite (@try_fetch_run req w t b E), S. simpl.
  now rewrite Hn.
Qed.

(** C5, on the code.  When the first fetch fails, its guard records the
    specific message of the failure, which is never the demo-mode notice,
    in the error cell; when the bootstrap then enters fallback mode, the
    error cell ends up holding the generic demo-mode notice all the same:
    the test that should keep the recorded message reads the error cell of
    the first render, which is [null]. *)
Theorem total_failure_overwrites_recorded_message
  (w : World Srv) (t1 t2 t3 t4 : Transport) (e : exn) :
  mounted w ->
  bootstrap_answers serve (backend w) = (t1, t2, t3, t4) ->
  all_failed_or_empty (t1, t2, t3, t4) = true ->
  settle t1 = Throw e ->
  truthy (userMessage_of e) = true /\
  userMessage_of e <> VStr demo_mode_notice /\
  error (store (snd (try_fetch (candidateService_getCandidates serve) w)))
  = userMessage_of e /\
  error (store (snd (fetchInitialData serve string_to_number initialStore w)))
  = VStr demo_mode_notice.
Proof.
  intros Hm Ha H S.
  assert (H' : all_failed_or_empty (bootstrap_answers serve (backend w)) = true)
    by now rewrite Ha.
  destruct (bootstrap_total_failure_store Hm H') as [_ Hs].
  rewrite Hs. split; [|split; [exact (settle_throw_not_notice t1 S)|split]];
    [| |reflexivity].
  - destruct (settle_throw_message t1 S) as [m [-> Hne]]. simpl.
    destruct (m =? "") eqn:Em; [apply String.eqb_eq in Em; contradiction|].
    reflexivity.
  - unfold bootstrap_answers in Ha.
    destruct (serve getCandidates_request (backend w)) as [u1 b1] eqn:E1.
    destruct (serve (getRoles_request (VBool true)) b1) as [u2 b2].
    destruct (serve (getMatches_request (VObj [])) b2) as [u3 b3].
    destruct (serve (getOffers_request (VObj [])) b3) as [u4 b4].
    injection Ha as -> -> -> ->.
    unfold candidateService_getCandidates.
    apply (@try_fetch_records_message getCandidates_request w t1 b1 e E1 S).
    unfold mounted in Hm. now rewrite Hm.
Qed.

End BootstrapFacts.


(** ** Mapping over a collection of entities *)

Lemma map_result_pure (f : value -> Result value) (g : value -> value)
  (l : list value) :
  (forall o, In o l -> f o = Ok (g o)) -> map_result f l = Ok (map g l).
Proof.
  induction l as [|x r IH]; intros H; simpl; [reflexivity|].
  rewrite (H x (or_introl eq_refl)), IH; [reflexivity|].
  intros o Ho. apply H. now right.
Qed.

Lemma Forall2_map_pure (P : value -> value -> Prop) (g : value -> value)
  (l : list value) :
  (forall o, In o l -> P o (g o)) -> Forall2 P l (map g l).
Proof.
  induction l as [|x r IH]; intros H; simpl; constructor.
  - apply H. now left.
  - apply IH. intros o Ho. apply H. now right.
Qed.

Lemma forallb_is_object_In (l : list value) (o : value) :
  forallb is_object l = true -> In o l -> exists fs, o = VObj fs.
Proof.
  intros H Ho. rewrite forallb_forall in H. specialize (H o Ho).
  destruct o; try discriminate. now eexists.
Qed.

Lemma has_id_set_other (id k : string) (v : value) (fs : obj) :
  ("_id" =? k) = false ->
  has_id id (VObj (obj_set k v fs)) = has_id id (VObj fs).
Proof.
  intros Hk. unfold has_id, optional_prop. simpl.
  now rewrite obj_get_set_other.
Qed.

Lemma approve_one_object (id : string) (fs : obj) :
  approve_one id (VObj fs) = Ok (approved id (VObj fs)).
Proof. reflexivity. Qed.

Lemma modify_one_object (id : string) (patch fs : obj) :
  modify_one id patch (VObj fs) = Ok (modified id patch (VObj fs)).
Proof. reflexivity. Qed.

Lemma approved_is_object (id : string) (o : value) :
  is_object o = true -> is_object (approved id o) = true.
Proof. unfold approved. destruct (has_id id o); auto. Qed.

Lemma modified_is_object (id : string) (patch : obj) (o : value) :
  is_object o = true -> is_object (modified id patch o) = true.
Proof. unfold modified. destruct (has_id id o); auto. Qed.

Lemma has_id_object (id : string) (o : value) :
  has_id id o = true -> exists fs, o = VObj fs.
Proof.
  destruct o; try (intros H; cbv in H; discriminate).
  intros _. now eexists.
Qed.

Lemma approved_idempotent (id : string) (o : value) :
  approved id (approved id o) = approved id o.
Proof.
  destruct (has_id id o) eqn:E.
  - destruct (has_id_object id o E) as [fs ->].
    unfold approved. rewrite E. simpl props_of.
    rewrite has_id_set_other by reflexivity. rewrite E.
    simpl props_of. now rewrite obj_set_twice.
  - unfold approved. now rewrite !E.
Qed.

Lemma modified_idempotent (id : string) (patch : obj) (o : value) :
  modified id patch (modified id patch o) = modified id patch o.
Proof.
  destruct (has_id id o) eqn:E.
  - destruct (has_id_object id o E) as [fs ->].
    unfold modified. rewrite E. simpl props_of.
    match goal with
    | |- context [has_id id ?x] => destruct (has_id id x); [|reflexivity]
    end.
    simpl props_of. f_equal.
    change (obj_set "status" (VStr "Modified") (spread fs patch))
      with (spread (spread fs patch) [("status", VStr "Modified")]).
    change (obj_set "status" (VStr "Modified")
              (spread (spread (spread fs patch) [("status", VStr "Modified")]) patch))
      with (spread (spread (spread (spread fs patch) [("status", VStr "Modified")])
                           patch) [("status", VStr "Modified")]).
    rewrite <- (spread_app fs patch [("status", VStr "Modified")]).
    rewrite <- spread_app. apply spread_idempotent.
  - unfold modified. now rewrite !E.
Qed.

Lemma forallb_map_object (g : value -> value) (l : list value) :
  (forall o, is_object o = true -> is_object (g o) = true) ->
  forallb is_object l = true -> forallb is_object (map g l) = true.
Proof.
  intros Hg. induction l as [|x r IH]; simpl; [reflexivity|].
  intros H. apply andb_true_iff in H. destruct H as [Hx Hr].
  now rewrite (Hg x Hx), IH.
Qed.

Lemma map_result_approve (id : string) (l : list value) :
  forallb is_object l = true ->
  map_result (approve_one id) l = Ok (map (approved id) l).
Proof.
  intros H. apply map_result_pure. intros o Ho.
  destruct (@forallb_is_object_In l o H Ho) as [fs ->]. apply approve_one_object.
Qed.

Lemma map_result_modify (id : string) (patch : obj) (l : list value) :
  forallb is_object l = true ->
  map_result (modify_one id patch) l = Ok (map (modified id patch) l).
Proof.
  intros H. apply map_result_pure. intros o Ho.
  destruct (@forallb_is_object_In l o H Ho) as [fs ->]. apply modify_one_object.
Qed.

(** Where no entity carries the identifier, the replacement is the
    identity. *)
Lemma map_unmatched (id : string) (g : value -> value) (l : list value) :
  (forall o, has_id id o = false -> g o = o) ->
  existsb (has_id id) l = false -> map g l = l.
Proof.
  intros Hg. induction l as [|x r IH]; simpl; [reflexivity|].
  intros H. apply orb_false_iff in H. destruct H as [Hx Hr].
  now rewrite (Hg x Hx), IH.
Qed.


(** ** Offers: approval and update *)

Section OfferFacts.

Variable Srv : Type.
Variable serve : Request -> Srv -> Transport * Srv.

Lemma world_eta (w : World Srv) :
  mkWorld (mkStore (candidates (store w)) (roles (store w)) (matches (store w))
                   (offers (store w)) (loading (store w)) (error (store w))
                   (useFallbackData (store w)))
          (rolePage w) (offerPage w) (backend w) (requests w) = w.
Proof. destruct w as [[] ? ? ? ?]. reflexivity. Qed.

Lemma approved_status (id : string) (o : value) :
  if has_id id o
  then status_of (approved id o) = VStr "Approved" /\
       (status_of o = VStr "Approved" -> approved id o = o)
  else approved id o = o.
Proof.
  destruct (has_id id o) eqn:E; unfold approved; rewrite E; [|reflexivity].
  destruct (has_id_object id o E) as [fs ->]. simpl props_of. split.
  - unfold status_of, optional_prop. simpl. apply obj_get_set_same.
  - unfold status_of, optional_prop. simpl. intros Hst. f_equal.
    apply obj_set_same_value; [|exact Hst].
    apply obj_get_defined_has. rewrite Hst. discriminate.
Qed.

(** When the gateway rejects the approval, the live branch records the
    message and rethrows; the offers are left as they were. *)
Lemma approveOffer_rejected
  (ctx : Store) (w : World Srv) (id : string) (t : Transport) (b : Srv) (e : exn) :
  useFallbackData ctx = false ->
  serve (approveOffer_request (VStr id)) (backend w) = (t, b) ->
  settle t = Throw e ->
  fst (approveOffer serve ctx id w) = Throw e /\
  offers (store (snd (approveOffer serve ctx id w))) = offers (store w) /\
  error (store (snd (approveOffer serve ctx id w))) = userMessage_of e.
Proof.
  intros Hf Hs S. unfold approveOffer, offerService_approveOffer. rewrite Hf.
  cbn -[service array_map].
  rewrite (service_run serve (approveOffer_request (VStr id)) w Hs), S.
  destruct (settle_throw_message t S) as [m [Hm Hne]].
  cbn. rewrite Hm. unfold js_or. simpl.
  destruct (m =? "") eqn:Em; [apply String.eqb_eq in Em; contradiction|].
  simpl. repeat split.
Qed.

(** C6. [approveOffer(id)] is idempotent.  In the fallback branch, and in
    the live branch whatever body the server returns with its success, it
    sets the status of the offer carrying that identifier to ['Approved']
    and leaves the other offers as they are; on an offer that is already
    ['Approved'] the offer is left as it is and the call returns; applying
    it to its own result changes nothing.  The approval handler of the offer
    page does the same on the page's collection. *)
Theorem approveOffer_idempotent
  (ctx : Store) (page : OfferRecommendation.State) (w : World Srv)
  (id : string) (l : list value) :
  forallb is_object l = true ->
  let l' := map (approved id) l in
  let req := approveOffer_request (VStr id) in
  Forall2 (fun o o' =>
             if has_id id o
             then status_of o' = VStr "Approved" /\
                  (status_of o = VStr "Approved" -> o' = o)
             else o' = o) l l' /\
  map (approved id) l' = l' /\
  (offers ctx = VArr l -> useFallbackData ctx = true ->
   approveOffer serve ctx id w
   = (Ok (VObj [("message", VStr "Simulated offer approval in demo mode")]),
      snd (setOffers (VArr l') w))) /\
  (offers ctx = VArr l -> useFallbackData ctx = false ->
   forall status body b,
     serve req (backend w) = (HttpResponse status body, b) ->
     ((200 <=? status) && (status <? 300))%Z = true ->
     approveOffer serve ctx id w
     = (Ok body,
        snd (setOffers (VArr l')
               (mkWorld (store w) (rolePage w) (offerPage w) b
                        (requests w ++ [req]))))) /\
  (OfferRecommendation.offers page = VArr l ->
   forall status body b,
     serve req (backend w) = (HttpResponse status body, b) ->
     ((200 <=? status) && (status <? 300))%Z = true ->
     let (r, w') := handleApproveOffer serve page id w in
     r = Ok tt /\ OfferRecommendation.offers (offerPage w') = VArr l' /\
     store w' = store w).
Proof.
  intros Hobj l' req. repeat split.
  - apply Forall2_map_pure. intros o _. apply approved_status.
  - unfold l'. rewrite map_map. apply map_ext. intros o.
    apply approved_idempotent.
  - intros Ho Hf. unfold approveOffer. rewrite Hf, Ho. simpl.
    rewrite (map_result_approve id l Hobj). reflexivity.
  - intros Ho Hf status body b Hs H2.
    unfold approveOffer, offerService_approveOffer. rewrite Hf, Ho.
    cbn -[service map_result]. fold req.
    rewrite (service_run serve req w Hs). cbn -[map_result]. rewrite H2.
    rewrite (map_result_approve id l Hobj). reflexivity.
  - intros Ho status body b Hs H2.
    unfold handleApproveOffer, offerService_approveOffer.
    cbn -[service map_result]. fold req.
    rewrite (service_run serve req w Hs). cbn -[map_result]. rewrite H2, Ho.
    unfold array_map. rewrite (map_result_approve id l Hobj). cbn.
    destruct (OfferRecommendation.detailDialogOpen page
              && strict_eq (optional_prop (OfferRecommendation.selectedOffer page) "_id")
                           (VStr id)); simpl; auto.
Qed.

(** C10. In fallback mode, [approveOffer(id)] and [updateOffer(id, patch)]
    with an identifier that no offer of the collection carries do not
    throw: each returns its simulated success and leaves the world as it
    was, every offer unchanged and no request issued. *)
Theorem fallback_unknown_offer_is_noop
  (ctx : Store) (w : World Srv) (id : string) (patch : obj) (l : list value) :
  useFallbackData ctx = true ->
  store w = ctx ->
  offers ctx = VArr l ->
  forallb is_object l = true ->
  existsb (has_id id) l = false ->
  approveOffer serve ctx id w
  = (Ok (VObj [("message", VStr "Simulated offer approval in demo mode")]), w) /\
  updateOffer serve ctx id patch w
  = (Ok (VObj [("message", VStr "Simulated offer update in demo mode")]), w).
Proof.
  intros Hf Hw Ho Hobj Hno. subst ctx. split.
  - unfold approveOffer. rewrite Hf, Ho. simpl.
    rewrite (map_result_approve id l Hobj).
    rewrite (map_unmatched id (approved id) l); [|
      intros o E; unfold approved; now rewrite E | exact Hno].
    simpl. rewrite <- Ho. now rewrite world_eta.
  - unfold updateOffer. rewrite Hf, Ho. simpl.
    rewrite (map_result_modify id patch l Hobj).
    rewrite (map_unmatched id (modified id patch) l); [|
      intros o E; unfold modified; now rewrite E | exact Hno].
    simpl. rewrite <- Ho. now rewrite world_eta.
Qed.

End OfferFacts.


Section UpdateFacts.

Variable Srv : Type.
Variable serve : Request -> Srv -> Transport * Srv.

(** Every run of [handleSaveEdit] on an edited package issues exactly the
    update request that carries the computed patch. *)
Lemma handleSaveEdit_request
  (page : OfferRecommendation.State) (w : World Srv) (edited patch : obj)
  (sid : value) :
  OfferRecommendation.editedOffer page = VObj edited ->
  updatedOfferData (VObj edited) = Ok patch ->
  get_prop (OfferRecommendation.selectedOffer page) "_id" = Ok sid ->
  requests (snd (handleSaveEdit serve page w))
  = (requests w ++ [updateOffer_request sid (VObj patch)])%list.
Proof.
  intros He Hp Hs. unfold handleSaveEdit, offerService_updateOffer.
  rewrite He, Hp. cbn -[service array_map]. rewrite Hs. cbn -[service array_map].
  destruct (serve (updateOffer_request sid (VObj patch)) (backend w))
    as [t b] eqn:E.
  rewrite (service_run serve _ w E).
  destruct (settle t) as [body|e]; cbn -[array_map]; [|reflexivity].
  destruct (array_map _ _); reflexivity.
Qed.

Lemma modified_by_saved_patch (id : string) (package : value) (o : value) :
  let patch := [("offer", package); ("status", VStr "Modified")] in
  if has_id id o
  then status_of (modified id patch o) = VStr "Modified" /\
       optional_prop (modified id patch o) "offer" = package
  else modified id patch o = o.
Proof.
  intros patch. destruct (has_id id o) eqn:E; unfold modified; rewrite E;
    [|reflexivity].
  destruct (has_id_object id o E) as [fs ->]. simpl props_of.
  unfold status_of, optional_prop, patch, spread. simpl. split.
  - apply obj_get_set_same.
  - rewrite !obj_get_set_other by reflexivity. apply obj_get_set_same.
Qed.

(** [handleSaveEdit] never writes to the store: it does not go through
    the store's [updateOffer]. *)
Lemma handleSaveEdit_store (page : OfferRecommendation.State) (w : World Srv) :
  store (snd (handleSaveEdit serve page w)) = store w.
Proof.
  unfold handleSaveEdit, offerService_updateOffer.
  destruct (updatedOfferData (OfferRecommendation.editedOffer page)) as [data|e];
    cbn -[service array_map]; [|reflexivity].
  destruct (get_prop (OfferRecommendation.selectedOffer page) "_id") as [sid|e];
    cbn -[service array_map]; [|reflexivity].
  destruct (serve (updateOffer_request sid (VObj data)) (backend w)) as [t b] eqn:E.
  rewrite (service_run serve _ w E).
  destruct (settle t) as [body|e]; cbn -[array_map]; [|reflexivity].
  destruct (array_map _ _); reflexivity.
Qed.

(** A property of a spread object is the target's or one of the
    source's. *)
Lemma obj_get_spread (k : string) (p fs : obj) :
  obj_get k (spread fs p) = obj_get k fs \/
  exists v, In (k, v) p /\ obj_get k (spread fs p) = v.
Proof.
  revert fs. induction p as [|[k0 v0] r IH]; intros fs; [now left|].
  change (spread fs ((k0, v0) :: r)) with (spread (obj_set k0 v0 fs) r).
  destruct (IH (obj_set k0 v0 fs)) as [H | [v [Hin H]]].
  - destruct (k =? k0) eqn:E.
    + apply String.eqb_eq in E. subst k0. right. exists v0.
      split; [now left|]. now rewrite H, obj_get_set_same.
    + left. now rewrite H, obj_get_set_other.
  - right. exists v. split; [now right|exact H].
Qed.

(** The sum of the page, on safe integers. *)
Lemma newTotalCTC_safe (edited : obj) (b k : Z) :
  safe_integer b = true -> safe_integer k = true -> safe_integer (b + k) = true ->
  obj_get "base_salary" edited = VNum b ->
  obj_get "bonus" edited = VNum k ->
  number_add (parseInt (obj_get "base_salary" edited))
             (parseInt (js_or (obj_get "bonus" edited) (VNum 0)))
  = VNum (b + k).
Proof.
  intros Sb Sk Ss Hb Hk. rewrite Hb, Hk, (parseInt_number b Sb).
  assert (E : js_or (VNum k) (VNum 0) = VNum k).
  { unfold js_or. simpl. destruct (k =? 0)%Z eqn:E; simpl; [|reflexivity].
    apply Z.eqb_eq in E. now subst k. }
  rewrite E, (parseInt_number k Sk). simpl. now apply double_of_Z_safe.
Qed.

(** C3, as the code has it.  [updateOffer] never computes a total.  Its
    fallback branch overwrites the top-level properties of the matching
    offer with those of the patch and forces the status ['Modified']: the
    package it stores is the one the offer had or one the patch carries,
    as it was given, and applying the same patch to the result changes
    nothing; its live branch stores the representation the server
    returned.  The sum is computed on the offer page alone:
    [handleSaveEdit] does not go through [updateOffer] and leaves the
    store as it is; it sends the update to the gateway itself, with the
    status ['Modified'] and [total_ctc = parseInt(base_salary) +
    parseInt(bonus || 0)], which is [base_salary + bonus] when the two
    amounts and their sum are safe integers. *)
Theorem updateOffer_stores_patch_as_given
  (ctx : Store) (w : World Srv) (id : string) (patch : obj) (l : list value) :
  forallb is_object l = true ->
  let l' := map (modified id patch) l in
  let req := updateOffer_request (VStr id) (VObj patch) in
  (offers ctx = VArr l -> useFallbackData ctx = true ->
   updateOffer serve ctx id patch w
   = (Ok (VObj [("message", VStr "Simulated offer update in demo mode")]),
      snd (setOffers (VArr l') w))) /\
  Forall2 (fun o o' =>
             if has_id id o
             then status_of o' = VStr "Modified" /\
                  (optional_prop o' "offer" = optional_prop o "offer" \/
                   exists package,
                     In ("offer", package) patch /\
                     optional_prop o' "offer" = package)
             else o' = o) l l' /\
  map (modified id patch) l' = l' /\
  (offers ctx = VArr l -> useFallbackData ctx = false ->
   forall status body b,
     serve req (backend w) = (HttpResponse status body, b) ->
     ((200 <=? status) && (status <? 300))%Z = true ->
     updateOffer serve ctx id patch w
     = (Ok body,
        snd (setOffers (VArr (map (fun o => if has_id id o then body else o) l))
               (mkWorld (store w) (rolePage w) (offerPage w) b
                        (requests w ++ [req]))))) /\
  (forall (page : OfferRecommendation.State) (edited : obj) (sid : value),
     OfferRecommendation.editedOffer page = VObj edited ->
     get_prop (OfferRecommendation.selectedOffer page) "_id" = Ok sid ->
     let total :=
       number_add (parseInt (obj_get "base_salary" edited))
                  (parseInt (js_or (obj_get "bonus" edited) (VNum 0))) in
     requests (snd (handleSaveEdit serve page w))
     = (requests w
        ++ [updateOffer_request sid
              (VObj [("offer", VObj (obj_set "total_ctc" total edited));
                     ("status", VStr "Modified")])])%list /\
     store (snd (handleSaveEdit serve page w)) = store w /\
     (forall b k : Z,
        safe_integer b = true -> safe_integer k = true ->
        safe_integer (b + k) = true ->
        obj_get "base_salary" edited = VNum b ->
        obj_get "bonus" edited = VNum k ->
        total = VNum (b + k))).
Proof.
  intros Hobj l' req. repeat split.
  - intros Ho Hf. unfold updateOffer. rewrite Hf, Ho. unfold array_map.
    cbn -[map_result]. rewrite (map_result_modify id patch l Hobj). reflexivity.
  - apply Forall2_map_pure. intros o _.
    destruct (has_id id o) eqn:E; unfold modified; rewrite E; [|reflexivity].
    destruct (has_id_object id o E) as [fs ->]. simpl props_of.
    unfold status_of, optional_prop. simpl. split; [apply obj_get_set_same|].
    rewrite obj_get_set_other by reflexivity.
    destruct (obj_get_spread "offer" patch fs) as [H | [v [Hin H]]].
    + now left.
    + right. now exists v.
  - unfold l'. rewrite map_map. apply map_ext. intros o.
    apply modified_idempotent.
  - intros Ho Hf status body b Hs H2.
    unfold updateOffer, offerService_updateOffer. rewrite Hf, Ho.
    cbn -[service map_result]. fold req.
    rewrite (service_run serve req w Hs). cbn -[map_result]. rewrite H2.
    rewrite (map_result_pure (replace_one id body)
               (fun o => if has_id id o then body else o) l).
    + reflexivity.
    + intros o Ho'. destruct (@forallb_is_object_In l o Hobj Ho') as [fs ->].
      reflexivity.
  - now apply handleSaveEdit_request with (edited := edited).
  - apply handleSaveEdit_store.
  - intros b k Sb Sk Ss Hb Hk. now apply newTotalCTC_safe.
Qed.

End UpdateFacts.

(** C3, as stated, fails on the fallback branch of [updateOffer]: a patch
    that carries the pair (120000, 10000) leaves the offer without any
    total, and a patch that carries its own total has it stored as it is;
    in both cases the status is ['Modified']. *)
Lemma updateOffer_does_not_recompute_total :
  let w := world_of fallbackStore tt in
  let pair := [("base_salary", VNum 120000); ("bonus", VNum 10000)] in
  let stale := (pair ++ [("total_ctc", VNum 110000)])%list in
  (exists o,
     offers (store (snd (updateOffer unreachable fallbackStore "mock1"
                                     [("offer", VObj pair)] w))) = VArr [o] /\
     has_id "mock1" o = true /\
     status_of o = VStr "Modified" /\
     total_ctc_of o = VUndef /\
     total_ctc_of o <> VNum (120000 + 10000)) /\
  (exists o,
     offers (store (snd (updateOffer unreachable fallbackStore "mock1"
                                     [("offer", VObj stale)] w))) = VArr [o] /\
     has_id "mock1" o = true /\
     total_ctc_of o = VNum 110000 /\
     total_ctc_of o <> VNum (120000 + 10000)).
Proof.
  split; eexists; repeat split; try reflexivity; vm_compute; discriminate.
Qed.


(** ** Roles: creation and soft deletion *)

Section RoleFacts.

Variable Srv : Type.
Variable serve : Request -> Srv -> Transport * Srv.

(** In fallback mode [refreshRoles] hands back the fallback roles and
    touches nothing. *)
Lemma refreshRoles_fallback (ctx : Store) (w : World Srv) :
  useFallbackData ctx = true ->
  refreshRoles serve ctx w = (Ok (obj_get "roles" mockData), w).
Proof. intros Hf. unfold refreshRoles. now rewrite Hf. Qed.

(** C8, as the code has it.  The store has no operation that creates a
    role: the role page creates one through the gateway, and a call of the
    gateway's [createRole] issues its request and leaves the store alone.
    In fallback mode [handleSubmit] in its ['add'] mode issues exactly one
    request, the creation of the role built from the form, and whatever the
    backend answers the store is left as it was: no role is appended and
    the roles already there are unchanged. *)
Theorem fallback_createRole_leaves_store
  (ctx : Store) (page : RoleManagement.State) (w : World Srv) :
  useFallbackData ctx = true ->
  RoleManagement.dialogMode page = "add" ->
  (forall roleData,
     store (snd (roleService_createRole serve roleData w)) = store w /\
     requests (snd (roleService_createRole serve roleData w))
     = (requests w ++ [createRole_request roleData])%list) /\
  let (r, w') := handleSubmit serve ctx page w in
  r = Ok tt /\
  store w' = store w /\
  requests w'
  = (requests w ++ [createRole_request (roleData_of (RoleManagement.formData page))])%list.
Proof.
  intros Hf Hm. split.
  { intros roleData. unfold roleService_createRole.
    destruct (serve (createRole_request roleData) (backend w)) as [t b] eqn:E.
    rewrite (service_run serve (createRole_request roleData) w E). auto. }
  unfold handleSubmit, try_finally, roleService_createRole.
  rewrite Hm. cbn -[service refreshRoles roleData_of].
  destruct (serve (createRole_request (roleData_of (RoleManagement.formData page)))
                  (backend w)) as [t b] eqn:E.
  erewrite service_run by (cbn; exact E).
  destruct (settle t) as [body|e]; cbn -[refreshRoles roleData_of].
  - rewrite refreshRoles_fallback by exact Hf. cbn. auto.
  - auto.
Qed.

(** In fallback mode [handleDeleteRole] leaves the store as it was,
    whatever the backend answers. *)
Lemma handleDeleteRole_fallback (ctx : Store) (id : value) (w : World Srv) :
  useFallbackData ctx = true ->
  store (snd (handleDeleteRole serve ctx id w)) = store w.
Proof.
  intros Hf. unfold handleDeleteRole, try_finally, roleService_deleteRole.
  cbn -[service refreshRoles].
  destruct (serve (deleteRole_request id) (backend w)) as [t b] eqn:E.
  erewrite service_run by (cbn; exact E).
  destruct (settle t) as [body|e]; cbn -[refreshRoles].
  - rewrite refreshRoles_fallback by exact Hf. reflexivity.
  - reflexivity.
Qed.

End RoleFacts.

(** C8, as stated, fails: in the scenario the roles collection still holds
    the single role [mock1] afterwards, and a request has been issued;
    this whether the backend is unreachable or accepts the creation. *)
Lemma fallback_createRole_appends_nothing :
  let w := mkWorld scenario_store scenario_page initialOfferPage tt [] in
  let down := snd (handleSubmit unreachable scenario_store scenario_page w) in
  let up := snd (handleSubmit (accepting (VObj [("_id", VStr "r9")]))
                              scenario_store scenario_page w) in
  roles (store down) = VArr [scenario_role] /\
  roles (store up) = VArr [scenario_role] /\
  requests down <> requests w /\
  requests up <> requests w /\
  ~ (exists created,
       roles (store down) = VArr [scenario_role; created] /\
       requests down = requests w) /\
  ~ (exists created,
       roles (store up) = VArr [scenario_role; created] /\
       requests up = requests w).
Proof.
  repeat split; try reflexivity; try (vm_compute; discriminate);
    intros [created [H _]]; vm_compute in H; discriminate.
Qed.


(** *** Soft deletion against the roles resource *)

Lemma deactivate_has_id (id id' : string) (r : value) :
  has_id id' (deactivate id r) = has_id id' r.
Proof.
  unfold deactivate. destruct (has_id id r) eqn:E; [|reflexivity].
  destruct (has_id_object id r E) as [fs ->].
  simpl props_of. now apply has_id_set_other.
Qed.

Lemma deactivate_inactive (id : string) (r : value) :
  has_id id r = true -> role_is_active (deactivate id r) = false.
Proof.
  intros E. unfold deactivate. rewrite E.
  destruct (has_id_object id r E) as [fs ->]. simpl props_of.
  unfold role_is_active, optional_prop. simpl.
  now rewrite obj_get_set_same.
Qed.

Lemma deactivate_is_object (id : string) (r : value) :
  is_object r = true -> is_object (deactivate id r) = true.
Proof. unfold deactivate. destruct (has_id id r); auto. Qed.


(** After the flag flip, the active roles carry other identifiers. *)
Lemma active_after_deactivate (id : string) (db : list value) :
  existsb (has_id id) (filter role_is_active (map (deactivate id) db)) = false.
Proof.
  induction db as [|r db IH]; simpl; [reflexivity|].
  destruct (role_is_active (deactivate id r)) eqn:A; [|exact IH].
  simpl. rewrite IH, orb_false_r, deactivate_has_id.
  destruct (has_id id r) eqn:E; [|reflexivity].
  rewrite (deactivate_inactive id r E) in A. discriminate.
Qed.

Lemma forallb_filter_object (p : value -> bool) (l : list value) :
  forallb is_object l = true -> forallb is_object (filter p l) = true.
Proof.
  induction l as [|x r IH]; simpl; [reflexivity|].
  intros H. apply andb_true_iff in H. destruct H as [Hx Hr].
  destruct (p x); simpl; [rewrite Hx|]; auto.
Qed.










(** ** The gateway's classification of a missing resource *)

(** C9. When the gateway receives HTTP 404 with the body
    [{detail: 'role not found'}], the call is rejected with an error whose
    precomputed user-facing message is ["Not Found: role not found"]: it
    bears the label of the 404 arm, which no other status code produces,
    and contains the detail text. *)
Theorem gateway_not_found_message :
  let e := response_error_interceptor (axios_error role_not_found) in
  let m := "Not Found: role not found" in
  settle role_not_found = Throw (AxiosFailure e) /\
  userMessage e = VStr m /\
  prefix "Not Found: " m = true /\
  substring 11 14 m = "role not found" /\
  (forall status data,
     prefix "Not Found: "
       (to_string (userMessage (response_error_interceptor
                                  (axios_error (HttpResponse status data)))))
     = (status =? 404)%Z) /\
  (forall (Srv : Type) (serve : Request -> Srv -> Transport * Srv)
          (req : Request) (w : World Srv),
     fst (serve req (backend w)) = role_not_found ->
     fst (service serve req w) = Throw (AxiosFailure e)).
Proof.
  repeat split.
  - intros status data. unfold response_error_interceptor, axios_error.
    cbn [response userMessage to_string].
    destruct (status =? 400)%Z eqn:E1;
      [apply Z.eqb_eq in E1; subst; reflexivity|].
    destruct (status =? 401)%Z eqn:E2;
      [apply Z.eqb_eq in E2; subst; reflexivity|].
    destruct (status =? 403)%Z eqn:E3;
      [apply Z.eqb_eq in E3; subst; reflexivity|].
    destruct (status =? 404)%Z eqn:E4.
    { simpl. match goal with
             | |- prefix "" ?x = true => destruct x; reflexivity
             end. }
    destruct (status =? 500)%Z eqn:E5; reflexivity.
  - intros Srv serve req w H.
    destruct (serve req (backend w)) as [t b] eqn:E. simpl in H. subst t.
    now rewrite (service_run serve req w E).
Qed.


(** ** Instances *)

Lemma bootstrap_total_failure_uses_fallback_witness :
  let w := mount tt in
  mounted w /\
  all_failed_or_empty (bootstrap_answers unreachable (backend w)) = true /\
  let (r, w') := fetchInitialData unreachable (fun _ => VNaN) initialStore w in
  r = Ok tt /\
  loading (store w') = false /\
  useFallbackData (store w') = true /\
  candidates (store w') = obj_get "candidates" mockData /\
  roles (store w') = obj_get "roles" mockData /\
  matches (store w') = obj_get "matches" mockData /\
  offers (store w') = obj_get "offers" mockData.
Proof.
  intros w. split; [reflexivity|]. split; [reflexivity|].
  apply (@bootstrap_total_failure_uses_fallback unit unreachable
           (fun _ => VNaN) w); reflexivity.
Defined.

(** A backend that answers every fetch with an empty collection sends the
    bootstrap into fallback mode as well. *)
Example bootstrap_on_empty_backend :
  store (snd (fetchInitialData empty_backend (fun _ => VNaN) initialStore (mount tt)))
  = fallbackStore.
Proof. reflexivity. Qed.

Lemma bootstrap_single_success_keeps_live_data_witness :
  let w := mount tt in
  let down := NoResponse (VStr "ERR_NETWORK") in
  let t1 := HttpResponse 200 (VArr [sample_candidate]) in
  mounted w /\
  bootstrap_answers candidates_only (backend w) = (t1, down, down, down) /\
  exactly_one_nonempty (t1, down, down, down) = true /\
  let s := store (snd (fetchInitialData candidates_only (fun _ => VNaN)
                                        initialStore w)) in
  useFallbackData s = false /\
  candidates s = VArr [sample_candidate] /\
  roles s = VArr [] /\ matches s = VArr [] /\ offers s = VArr [].
Proof.
  intros w down t1. split; [reflexivity|]. split; [reflexivity|].
  split; [reflexivity|].
  pose proof (@bootstrap_single_success_keeps_live_data unit candidates_only
                (fun _ => VNaN) w t1 down down down eq_refl eq_refl eq_refl) as H.
  cbv zeta.
  destruct (fetchInitialData candidates_only (fun _ => VNaN) initialStore w)
    as [r w'].
  destruct H as (_ & Hf & _ & Hr & Hm & Ho & Hc & _).
  specialize (Hc eq_refl). injection Hc as Hc.
  simpl snd. rewrite <- Hc, Hf, (Hr eq_refl), (Hm eq_refl), (Ho eq_refl).
  repeat split.
Defined.

Lemma total_failure_shows_error_screen_witness :
  let w := mount tt in
  mounted w /\
  all_failed_or_empty (bootstrap_answers unreachable (backend w)) = true /\
  let s := store (snd (fetchInitialData unreachable (fun _ => VNaN)
                                        initialStore w)) in
  useFallbackData s = true /\
  loading s = false /\
  AppContent s = ErrorScreen (VStr demo_mode_notice) /\
  AppContent s <> Router.
Proof.
  intros w. split; [reflexivity|]. split; [reflexivity|].
  apply (@total_failure_shows_error_screen unit unreachable (fun _ => VNaN) w);
    reflexivity.
Defined.

(** The hard failure screen is not reserved for total failure either: when
    one fetch succeeds and the others fail, live data is kept, fallback
    mode is not entered, and [AppContent] renders the failure screen with
    the message of the first failed fetch. *)
Example partial_failure_shows_error_screen :
  let s := store (snd (fetchInitialData candidates_only (fun _ => VNaN)
                                        initialStore (mount tt))) in
  useFallbackData s = false /\
  candidates s = VArr [sample_candidate] /\
  AppContent s
  = ErrorScreen (VStr "Network error. Please check if the backend server is running on http://localhost:8000").
Proof. repeat split. Qed.

Lemma total_failure_overwrites_recorded_message_witness :
  let w := mount tt in
  let down := NoResponse (VStr "ERR_NETWORK") in
  let e := AxiosFailure (response_error_interceptor (axios_error down)) in
  mounted w /\
  bootstrap_answers unreachable (backend w) = (down, down, down, down) /\
  all_failed_or_empty (down, down, down, down) = true /\
  settle down = Throw e /\
  userMessage_of e
  = VStr "Network error. Please check if the backend server is running on http://localhost:8000" /\
  truthy (userMessage_of e) = true /\
  userMessage_of e <> VStr demo_mode_notice /\
  error (store (snd (try_fetch (candidateService_getCandidates unreachable) w)))
  = userMessage_of e /\
  error (store (snd (fetchInitialData unreachable (fun _ => VNaN) initialStore w)))
  = VStr demo_mode_notice.
Proof.
  intros w down e. repeat (split; [reflexivity|]).
  apply (@total_failure_overwrites_recorded_message unit unreachable
           (fun _ => VNaN) w down down down down e); reflexivity.
Defined.

Lemma approveOffer_idempotent_witness :
  let body := VObj [("status", VStr "Pending Approval")] in
  let serve := accepting body in
  let l' := map (approved "mock1") fallback_offers in
  forallb is_object fallback_offers = true /\
  Forall2 (fun o o' => has_id "mock1" o = true /\ status_of o' = VStr "Approved")
          fallback_offers l' /\
  map (approved "mock1") l' = l' /\
  approveOffer serve (offers_store true) "mock1" (world_of (offers_store true) tt)
  = (Ok (VObj [("message", VStr "Simulated offer approval in demo mode")]),
     snd (setOffers (VArr l') (world_of (offers_store true) tt))) /\
  fst (approveOffer serve (offers_store false) "mock1"
                    (world_of (offers_store false) tt)) = Ok body /\
  offers (store (snd (approveOffer serve (offers_store false) "mock1"
                                   (world_of (offers_store false) tt))))
  = VArr l' /\
  fst (approveOffer serve (offers_store true) "mock1"
                    (world_of (mkStore (VArr []) (VArr []) (VArr []) (VArr l')
                                       false VNull true) tt))
  = Ok (VObj [("message", VStr "Simulated offer approval in demo mode")]).
Proof.
  intros body serve l'. split; [reflexivity|].
  destruct (@approveOffer_idempotent unit serve (offers_store true)
              (editing_page VNull) (world_of (offers_store true) tt) "mock1"
              fallback_offers eq_refl) as (_ & Hi & Hfb & _).
  destruct (@approveOffer_idempotent unit serve (offers_store false)
              (editing_page VNull) (world_of (offers_store false) tt) "mock1"
              fallback_offers eq_refl) as (_ & _ & _ & Hlive & _).
  specialize (Hfb eq_refl eq_refl).
  specialize (Hlive eq_refl eq_refl 200%Z body tt eq_refl eq_refl).
  split; [repeat constructor|].
  split; [exact Hi|]. split; [exact Hfb|].
  rewrite Hlive. repeat split.
Defined.

Lemma fallback_unknown_offer_is_noop_witness :
  let w := world_of fallbackStore tt in
  useFallbackData fallbackStore = true /\
  store w = fallbackStore /\
  offers fallbackStore = VArr fallback_offers /\
  forallb is_object fallback_offers = true /\
  existsb (has_id "mock7") fallback_offers = false /\
  approveOffer unreachable fallbackStore "mock7" w
  = (Ok (VObj [("message", VStr "Simulated offer approval in demo mode")]), w) /\
  updateOffer unreachable fallbackStore "mock7" [("status", VStr "Sent")] w
  = (Ok (VObj [("message", VStr "Simulated offer update in demo mode")]), w).
Proof.
  intros w. repeat (split; [reflexivity|]).
  apply (@fallback_unknown_offer_is_noop unit unreachable fallbackStore w
           "mock7" [("status", VStr "Sent")] fallback_offers); reflexivity.
Defined.

Lemma updateOffer_stores_patch_as_given_witness :
  let w := world_of (offers_store true) tt in
  let patch := [("offer", VObj [("base_salary", VNum 120000); ("bonus", VNum 10000)])] in
  let total :=
    number_add (parseInt (obj_get "base_salary" edited_package))
               (parseInt (js_or (obj_get "bonus" edited_package) (VNum 0))) in
  forallb is_object fallback_offers = true /\
  updateOffer unreachable (offers_store true) "mock1" patch w
  = (Ok (VObj [("message", VStr "Simulated offer update in demo mode")]),
     snd (setOffers (VArr (map (modified "mock1" patch) fallback_offers)) w)) /\
  map (modified "mock1" patch) (map (modified "mock1" patch) fallback_offers)
  = map (modified "mock1" patch) fallback_offers /\
  requests (snd (handleSaveEdit unreachable (editing_page (VObj edited_package)) w))
  = [updateOffer_request (VStr "mock1")
       (VObj [("offer", VObj (obj_set "total_ctc" total edited_package));
              ("status", VStr "Modified")])] /\
  store (snd (handleSaveEdit unreachable (editing_page (VObj edited_package)) w))
  = store w /\
  total = VNum (120000 + 10000).
Proof.
  intros w patch total. split; [reflexivity|].
  destruct (@updateOffer_stores_patch_as_given unit unreachable
              (offers_store true) w "mock1" patch fallback_offers eq_refl)
    as (Hfb & _ & Hi & _ & Hpage).
  split; [exact (Hfb eq_refl eq_refl)|]. split; [exact Hi|].
  destruct (Hpage (editing_page (VObj edited_package)) edited_package
              (VStr "mock1") eq_refl eq_refl) as (Hreq & Hst & _).
  split; [exact Hreq|]. split; [exact Hst|]. reflexivity.
Defined.

Lemma fallback_createRole_leaves_store_witness :
  let w := mkWorld scenario_store scenario_page initialOfferPage tt [] in
  useFallbackData scenario_store = true /\
  RoleManagement.dialogMode scenario_page = "add" /\
  (forall roleData,
     store (snd (roleService_createRole unreachable roleData w)) = store w /\
     requests (snd (roleService_createRole unreachable roleData w))
     = (requests w ++ [createRole_request roleData])%list) /\
  let (r, w') := handleSubmit unreachable scenario_store scenario_page w in
  r = Ok tt /\
  store w' = store w /\
  requests w'
  = (requests w
     ++ [createRole_request (roleData_of (RoleManagement.formData scenario_page))])%list.
Proof.
  intros w. split; [reflexivity|]. split; [reflexivity|].
  apply (@fallback_createRole_leaves_store unit unreachable scenario_store
           scenario_page w); reflexivity.
Defined.


Lemma gateway_not_found_message_witness :
  let e := response_error_interceptor (axios_error role_not_found) in
  let req := getRoles_request (VBool true) in
  fst (missing_everywhere req (backend (mount tt))) = role_not_found /\
  fst (service missing_everywhere req (mount tt)) = Throw (AxiosFailure e) /\
  userMessage e = VStr "Not Found: role not found".
Proof.
  intros e req. split; [reflexivity|].
  destruct gateway_not_found_message as (_ & Hm & _ & _ & _ & Hs).
  split; [|exact Hm].
  apply (Hs unit missing_everywhere req (mount tt)). reflexivity.
Defined.

(** * Further properties *)

#[local] Existing Instance Monad_M.
#[local] Existing Instance Exc_M.

(** ** The gateway *)

(** X1. The gateway settles a call by the status of the reply alone: a
    reply resolves, with its body whatever it is, exactly when its status
    is in 200..299; every other outcome is rejected with an error that
    keeps the reply and carries a non-empty user-facing message, which,
    when no reply arrived, is the timeout message exactly for the code
    [ECONNABORTED] and a network message for every other code. *)
Theorem gateway_settles_by_status (t : Transport) :
  match settle t with
  | Ok body =>
      exists status,
        t = HttpResponse status body /\ (200 <= status < 300)%Z
  | Throw e =>
      (forall status body, t = HttpResponse status body ->
                           ~ (200 <= status < 300)%Z) /\
      e = AxiosFailure (response_error_interceptor (axios_error t)) /\
      (exists m, userMessage_of e = VStr m /\ m <> "") /\
      (forall c, t = NoResponse c ->
                 userMessage_of e
                 = VStr (if strict_eq c (VStr "ECONNABORTED")
                         then "Request timed out. Please try again."
                         else if strict_eq c (VStr "ERR_NETWORK")
                         then "Network error. Please check if the backend server is running on http://localhost:8000"
                         else "Network error. Please check your connection."))
  end.
Proof.
  destruct (settle t) as [body|e] eqn:S.
  - unfold settle in S. destruct t as [st d|c|]; try discriminate.
    destruct ((200 <=? st) && (st <? 300))%Z eqn:E; [|discriminate].
    injection S as <-. exists st. split; [reflexivity|].
    apply andb_true_iff in E. destruct E as [E1 E2].
    apply Z.leb_le in E1. apply Z.ltb_lt in E2. lia.
  - assert (He : e = AxiosFailure (response_error_interceptor (axios_error t))).
    { unfold settle in S. destruct t as [st d| |];
        [destruct ((200 <=? st) && (st <? 300))%Z|..]; congruence. }
    repeat split.
    + intros st d -> H. unfold settle in S.
      assert (E : ((200 <=? st) && (st <? 300))%Z = true).
      { apply andb_true_iff. split; [apply Z.leb_le|apply Z.ltb_lt]; lia. }
      rewrite E in S. discriminate.
    + exact He.
    + exact (settle_throw_message t S).
    + intros c ->. subst e. simpl.
      destruct (strict_eq c (VStr "ECONNABORTED")); [reflexivity|].
      destruct (strict_eq c (VStr "ERR_NETWORK")); reflexivity.
Qed.

Lemma string_app_assoc (a b c : string) : (a ++ b) ++ c = a ++ b ++ c.
Proof. induction a as [|x a IH]; simpl; [reflexivity|now rewrite IH]. Qed.

Lemma js_or_false (a b : value) : truthy a = false -> js_or a b = b.
Proof. unfold js_or. now intros ->. Qed.

Lemma js_or_true (a b : value) : truthy a = true -> js_or a b = a.
Proof. unfold js_or. now intros ->. Qed.

(** X2. How the interceptor uses the body of an error reply.  The messages
    for 401 and 403 never depend on the body.  For every other status the
    detail of the body is appended to the label of the status when it is a
    non-empty string; when the body carries no detail (none, [null], an
    empty string, or a body that is no object), 404, 500 and the unlisted
    statuses fall back to a fixed text, while 400 is left with its bare
    label. *)
Theorem interceptor_detail_handling (status : Z) (data : value) :
  let label :=
    if (status =? 400)%Z then "Bad Request: "
    else if (status =? 404)%Z then "Not Found: "
    else if (status =? 500)%Z then "Server Error: "
    else "Error " ++ Z_to_string status ++ ": " in
  let fallback :=
    if (status =? 400)%Z then ""
    else if (status =? 404)%Z then "The requested resource was not found"
    else if (status =? 500)%Z then "Internal server error"
    else "Something went wrong" in
  (status = 401%Z \/ status = 403%Z ->
   message_for (HttpResponse status data) = message_for (HttpResponse status VUndef)) /\
  (status <> 401%Z -> status <> 403%Z ->
   (forall d, optional_prop data "detail" = VStr d -> d <> "" ->
              message_for (HttpResponse status data) = VStr (label ++ d)) /\
   (truthy (optional_prop data "detail") = false ->
    message_for (HttpResponse status data) = VStr (label ++ fallback))).
Proof.
  intros label fallback. unfold message_for, response_error_interceptor, axios_error.
  cbn [response userMessage]. split.
  - intros [-> | ->]; reflexivity.
  - intros N1 N3.
    assert (E1 : (status =? 401)%Z = false) by now apply Z.eqb_neq.
    assert (E3 : (status =? 403)%Z = false) by now apply Z.eqb_neq.
    unfold label, fallback. rewrite E1, E3. split.
    + intros d Hd Hne. rewrite Hd.
      assert (Ht : truthy (VStr d) = true).
      { simpl. destruct (d =? "") eqn:E; [apply String.eqb_eq in E; contradiction|].
        reflexivity. }
      rewrite !(js_or_true _ _ Ht).
      destruct (status =? 400)%Z; [reflexivity|].
      destruct (status =? 404)%Z; [reflexivity|].
      destruct (status =? 500)%Z; [reflexivity|].
      simpl. now rewrite !string_app_assoc.
    + intros Hf. rewrite (js_or_false _ _ Hf).
      rewrite !(js_or_false (VStr "") _ eq_refl).
      destruct (status =? 400)%Z; [reflexivity|].
      destruct (status =? 404)%Z; [reflexivity|].
      destruct (status =? 500)%Z; [reflexivity|].
      simpl. now rewrite !string_app_assoc.
Qed.

(** ** The query of the job requests *)

Lemma string_forall_app (p : ascii -> bool) (a b : string) :
  string_forall p (a ++ b) = string_forall p a && string_forall p b.
Proof.
  induction a as [|c a IH]; simpl; [reflexivity|].
  now rewrite IH, andb_assoc.
Qed.

Lemma count_char_app (c : ascii) (a b : string) :
  count_char c (a ++ b) = count_char c a + count_char c b.
Proof.
  induction a as [|d a IH]; simpl; [reflexivity|]. rewrite IH. lia.
Qed.

Lemma urlencode_byte_encoded (c : ascii) :
  string_forall encoded_char (urlencode_byte c) = true.
Proof.
  destruct c as [[] [] [] [] [] [] [] []]; reflexivity.
Qed.

Lemma urlencode_encoded (s : string) :
  string_forall encoded_char (urlencode s) = true.
Proof.
  induction s as [|c s IH]; simpl; [reflexivity|].
  now rewrite string_forall_app, urlencode_byte_encoded, IH.
Qed.

Lemma urlencode_safe (s : string) :
  string_forall url_safe s = true -> urlencode s = s.
Proof.
  induction s as [|c s IH]; simpl; [reflexivity|].
  intros H. apply andb_true_iff in H. destruct H as [Hc Hs].
  unfold urlencode_byte. rewrite Hc. simpl. now rewrite IH.
Qed.

Lemma encoded_no_char (c : ascii) (s : string) :
  encoded_char c = false ->
  string_forall encoded_char s = true -> count_char c s = 0.
Proof.
  intros Hc. induction s as [|d s IH]; simpl; [reflexivity|].
  intros H. apply andb_true_iff in H. destruct H as [Hd Hs].
  rewrite (IH Hs). destruct (c =? d)%char eqn:E; [|reflexivity].
  apply Ascii.eqb_eq in E. subst d. congruence.
Qed.

Lemma query_separators (params : list (string * string)) :
  count_char "=" (URLSearchParams_toString params) = List.length params /\
  count_char "&" (URLSearchParams_toString params) = pred (List.length params).
Proof.
  unfold URLSearchParams_toString.
  induction params as [|[k v] r IH]; [split; reflexivity|].
  assert (Hp : count_char "=" (urlencode k ++ "=" ++ urlencode v) = 1 /\
               count_char "&" (urlencode k ++ "=" ++ urlencode v) = 0).
  { rewrite !count_char_app.
    rewrite !(encoded_no_char "=" (urlencode k) eq_refl (urlencode_encoded k)).
    rewrite !(encoded_no_char "=" (urlencode v) eq_refl (urlencode_encoded v)).
    rewrite !(encoded_no_char "&" (urlencode k) eq_refl (urlencode_encoded k)).
    rewrite !(encoded_no_char "&" (urlencode v) eq_refl (urlencode_encoded v)).
    split; reflexivity. }
  destruct Hp as [He Ha]. destruct IH as [IHe IHa].
  destruct r as [|p r].
  - change (join_with "&" (map (fun p0 : string * string =>
                                  urlencode (fst p0) ++ "=" ++ urlencode (snd p0))
                               [(k, v)]))
      with (urlencode k ++ "=" ++ urlencode v).
    now rewrite He, Ha.
  - change (join_with "&" (map (fun p0 : string * string =>
                                  urlencode (fst p0) ++ "=" ++ urlencode (snd p0))
                               ((k, v) :: p :: r)))
      with ((urlencode k ++ "=" ++ urlencode v) ++ "&"
            ++ join_with "&" (map (fun p0 : string * string =>
                                     urlencode (fst p0) ++ "=" ++ urlencode (snd p0))
                                  (p :: r))).
    rewrite (count_char_app "=" (urlencode k ++ "=" ++ urlencode v)).
    rewrite (count_char_app "&" (urlencode k ++ "=" ++ urlencode v)).
    rewrite He, Ha.
    rewrite (count_char_app "=" "&"), (count_char_app "&" "&").
    rewrite IHe, IHa. simpl. split; lia.
Qed.

(** X3. The serialised query cannot be broken by an identifier.  Every
    component is written with URL-safe bytes, [+] and [%] only, and is left
    as it is when it has only URL-safe bytes; whatever the names and the
    values, the query of [n] pairs holds exactly [n] equals signs and, when
    it is not empty, [n - 1] ampersands. *)
Theorem query_is_unambiguous (params : list (string * string)) (s : string) :
  string_forall encoded_char (urlencode s) = true /\
  (if string_forall url_safe s then urlencode s = s else True) /\
  count_char "=" (URLSearchParams_toString params) = List.length params /\
  count_char "&" (URLSearchParams_toString params) = pred (List.length params).
Proof.
  split; [apply urlencode_encoded|]. split; [|apply query_separators].
  destruct (string_forall url_safe s) eqn:E; [now apply urlencode_safe|exact I].
Qed.

Example urlencode_examples :
  urlencode "a b&c=d/e~" = "a+b%26c%3Dd%2Fe%7E" /\
  URLSearchParams_toString [("match_ids", "m1"); ("match_ids", "m 2")]
  = "match_ids=m1&match_ids=m+2".
Proof. split; reflexivity. Qed.

(** ** The store: refreshes *)

Section RefreshFacts.

Variable Srv : Type.
Variable serve : Request -> Srv -> Transport * Srv.

(** X4. In fallback mode the four refreshes never reach the backend and
    never write: each returns its collection of the fallback dataset and
    leaves the world, request log included, exactly as it was.  What a
    refresh returns is therefore the dataset as it was loaded, not what
    the store holds: once a simulated upload has added a candidate, the
    candidates [refreshCandidates] returns are not those of the store. *)
Theorem refresh_in_fallback_is_silent (rendered : Store) (w : World Srv) :
  useFallbackData rendered = true ->
  refreshCandidates serve rendered w = (Ok (obj_get "candidates" mockData), w) /\
  refreshRoles serve rendered w = (Ok (obj_get "roles" mockData), w) /\
  refreshMatches serve rendered w = (Ok (obj_get "matches" mockData), w) /\
  refreshOffers serve rendered w = (Ok (obj_get "offers" mockData), w) /\
  (candidates rendered = obj_get "candidates" mockData ->
   let uploaded := snd (simulated_upload rendered w) in
   fst (refreshCandidates serve rendered uploaded)
   <> Ok (candidates (store uploaded))).
Proof.
  intros Hf. unfold refreshCandidates, refreshRoles, refreshMatches, refreshOffers.
  rewrite Hf. repeat split.
  intros Hc. unfold simulated_upload. rewrite Hc. cbn. discriminate.
Qed.

(** The live branch of a refresh, whatever the service and the setter. *)
Lemma live_refresh_run
  (req : Request) (set : value -> M Srv unit) (text : string)
  (put : value -> Store -> Store) (w : World Srv) (t : Transport) (b : Srv) :
  (forall v w0, set v w0
                = (Ok tt, mkWorld (put v (store w0)) (rolePage w0) (offerPage w0)
                                  (backend w0) (requests w0))) ->
  serve req (backend w) = (t, b) ->
  (catch (bind (service serve req)
               (fun data => bind (set data) (fun _ => ret data)))
         (fun err => bind (setError (js_or (userMessage_of err) (VStr text)))
                          (fun _ => raise err))) w
  = match settle t with
    | Ok data =>
        (Ok data, mkWorld (put data (store w)) (rolePage w) (offerPage w) b
                          (requests w ++ [req]))
    | Throw e =>
        (Throw e,
         mkWorld (mkStore (candidates (store w)) (roles (store w))
                          (matches (store w)) (offers (store w))
                          (loading (store w)) (userMessage_of e)
                          (useFallbackData (store w)))
                 (rolePage w) (offerPage w) b (requests w ++ [req]))
    end.
Proof.
  intros Hset E. cbn -[service]. rewrite (service_run serve req w E).
  destruct (settle t) as [data|e] eqn:S.
  - rewrite Hset. reflexivity.
  - destruct (settle_throw_message t S) as [m [Hm Hne]].
    cbn. rewrite Hm. unfold js_or. simpl.
    destruct (m =? "") eqn:Em; [apply String.eqb_eq in Em; contradiction|].
    reflexivity.
Qed.

(** X5. A live refresh issues its one listing request.  When the listing
    succeeds, the collection is replaced by the body as a whole, whatever
    it held before, and nothing else of the store changes.  When it fails,
    the four collections are left as they were, the error cell takes the
    message of the gateway, and the failure is thrown on to the caller. *)
Theorem live_refresh_replaces_or_reports
  (rendered : Store) (w : World Srv) (t : Transport) (b : Srv) :
  useFallbackData rendered = false ->
  serve (getOffers_request (VObj [])) (backend w) = (t, b) ->
  let (r, w') := refreshOffers serve rendered w in
  requests w' = (requests w ++ [getOffers_request (VObj [])])%list /\
  candidates (store w') = candidates (store w) /\
  roles (store w') = roles (store w) /\
  matches (store w') = matches (store w) /\
  loading (store w') = loading (store w) /\
  useFallbackData (store w') = useFallbackData (store w) /\
  match settle t with
  | Ok data =>
      r = Ok data /\ offers (store w') = data /\ error (store w') = error (store w)
  | Throw e =>
      r = Throw e /\ offers (store w') = offers (store w) /\
      error (store w') = userMessage_of e /\ truthy (error (store w')) = true
  end.
Proof.
  intros Hf E. unfold refreshOffers, offerService_getOffers. rewrite Hf.
  cbv zeta. change (default_arg VUndef (VObj [])) with (VObj []).
  rewrite (@live_refresh_run (getOffers_request (VObj [])) (@setOffers Srv)
             "Error refreshing offers"
             (fun v s => mkStore (candidates s) (roles s) (matches s) v
                                 (loading s) (error s) (useFallbackData s))
             w t b (fun _ _ => eq_refl) E).
  destruct (settle t) as [data|e] eqn:S; cbn; repeat split.
  destruct (settle_throw_message t S) as [m [-> Hne]]. simpl.
  destruct (m =? "") eqn:Em; [apply String.eqb_eq in Em; contradiction|].
  reflexivity.
Qed.

(** X6. A failed refresh takes the whole application away: once the
    bootstrap is over, the failure screen replaces every page, with the
    message of the gateway; [clearError] alone brings the routed
    application back. *)
Theorem failed_refresh_shows_failure_screen
  (rendered : Store) (w : World Srv) (t : Transport) (b : Srv) (e : exn) :
  useFallbackData rendered = false ->
  loading (store w) = false ->
  serve (getRoles_request (VBool true)) (backend w) = (t, b) ->
  settle t = Throw e ->
  let w' := snd (refreshRoles serve rendered w) in
  fst (refreshRoles serve rendered w) = Throw e /\
  roles (store w') = roles (store w) /\
  AppContent (store w') = ErrorScreen (userMessage_of e) /\
  AppContent (store (snd (@clearError Srv w'))) = Router.
Proof.
  intros Hf Hl E S. unfold refreshRoles, roleService_getRoles. rewrite Hf.
  cbv zeta. change (default_arg VUndef (VBool true)) with (VBool true).
  rewrite (@live_refresh_run (getRoles_request (VBool true)) (@setRoles Srv)
             "Error refreshing roles"
             (fun v s => mkStore (candidates s) v (matches s) (offers s)
                                 (loading s) (error s) (useFallbackData s))
             w t b (fun _ _ => eq_refl) E).
  rewrite S. cbn. unfold AppContent. cbn. rewrite Hl.
  destruct (settle_throw_message t S) as [m [-> Hne]]. simpl.
  destruct (m =? "") eqn:Em; [apply String.eqb_eq in Em; contradiction|].
  repeat split.
Qed.

End RefreshFacts.

(** ** The store: simulated jobs of the fallback mode *)

Lemma Z_to_string_inj (a b : Z) : Z_to_string a = Z_to_string b -> a = b.
Proof.
  intros H. pose proof (int_prefix_Z_to_string a) as Ha.
  pose proof (int_prefix_Z_to_string b) as Hb.
  rewrite H in Ha. congruence.
Qed.

Lemma mock_id_inj (n m : nat) : mock_id n = mock_id m -> n = m.
Proof.
  unfold mock_id. intros H. injection H as H.
  apply Z_to_string_inj in H. lia.
Qed.

Lemma mock_id_differs (n : nat) : mock_id n <> mock_id (S n).
Proof. intros H. apply mock_id_inj in H. lia. Qed.

Lemma mock_ids_succ (n : nat) : mock_ids (S n) = (mock_ids n ++ [mock_id n])%list.
Proof.
  unfold mock_ids, mock_id. rewrite seq_S, map_app.
  cbn [map]. replace (Z.of_nat (1 + n)) with (Z.of_nat n + 1)%Z by lia.
  reflexivity.
Qed.

Lemma mock_ids_spec (n : nat) (v : value) :
  In v (mock_ids n) <-> exists i, (i < n)%nat /\ v = mock_id i.
Proof.
  induction n as [|n IH].
  - simpl. split; [contradiction|]. intros [i [Hi _]]. lia.
  - rewrite mock_ids_succ, in_app_iff, IH. simpl. split.
    + intros [[i [Hi ->]]|[<-|[]]]; [exists i|exists n]; split; auto; lia.
    + intros [i [Hi ->]]. destruct (Nat.eq_dec i n) as [->|Hne]; [now right; left|].
      left. exists i. split; [lia|reflexivity].
Qed.

Lemma mock_ids_NoDup (n : nat) : NoDup (mock_ids n).
Proof.
  induction n as [|n IH]; [constructor|].
  rewrite mock_ids_succ. apply NoDup_app; [exact IH|repeat constructor; auto|].
  intros v Hv [<-|[]]. apply mock_ids_spec in Hv. destruct Hv as [i [Hi E]].
  apply mock_id_inj in E. lia.
Qed.

Section SimulationFacts.

Variable Srv : Type.
Variable serve : Request -> Srv -> Transport * Srv.


(** X8. Two simulated generations triggered from the same render lose one
    of the two offers: when both timers have fired the collection has grown
    by one offer only, the second write having replaced the first.  When
    the second generation is triggered from the render that follows the
    first timer, two offers are appended and their identifiers differ. *)
Theorem simulated_generation_lost_update
  (rendered : Store) (w : World Srv) (l cs rs : list value) (c r cid rid : value) :
  offers rendered = VArr l ->
  candidates rendered = VArr (c :: cs) ->
  roles rendered = VArr (r :: rs) ->
  get_prop c "_id" = Ok cid ->
  get_prop r "_id" = Ok rid ->
  store w = rendered ->
  let w1 := snd (simulated_generation rendered w) in
  let same_render := snd (simulated_generation rendered w1) in
  let next_render := snd (simulated_generation (store w1) w1) in
  (exists o, offers (store w1) = VArr (l ++ [o])) /\
  offers (store same_render) = offers (store w1) /\
  (exists o1 o2,
     offers (store next_render) = VArr (l ++ [o1; o2]) /\
     optional_prop o1 "_id" = mock_id (List.length l) /\
     optional_prop o2 "_id" = mock_id (S (List.length l)) /\
     optional_prop o1 "_id" <> optional_prop o2 "_id").
Proof.
  intros Ho Hc Hr Hcid Hrid Hw. subst rendered.
  unfold simulated_generation. rewrite Ho, Hc, Hr.
  cbn. rewrite Hcid. cbn. rewrite Hrid. cbn. rewrite Hc, Hr. cbn.
  rewrite Hcid. cbn. rewrite Hrid. cbn.
  split; [eexists; reflexivity|]. split; [reflexivity|].
  eexists. eexists. rewrite <- app_assoc. split; [reflexivity|].
  rewrite length_app. cbn [List.length]. rewrite Nat.add_1_r.
  repeat split. apply mock_id_differs.
Qed.

End SimulationFacts.

Section WorkflowFacts.

Variable Srv : Type.
Variable serve : Request -> Srv -> Transport * Srv.

(** X9. The simulated upload keeps the identifiers of the candidates
    distinct: when the rendered candidates carry the identifiers [mock1] to
    [mockn] in order, the timer of [uploadCandidates] leaves [n + 1]
    candidates carrying [mock1] to [mockn+1], no two of them alike. *)
Theorem simulated_upload_keeps_ids_distinct
  (rendered : Store) (files : value) (w w1 : World Srv) (l : list value) :
  useFallbackData rendered = true ->
  candidates rendered = VArr l ->
  ids_of l = mock_ids (List.length l) ->
  exists timer l',
    uploadCandidates serve rendered files w
    = (Ok (VObj [("message", VStr "Simulated upload successful in demo mode")],
           [timer]), w) /\
    fst (callback timer w1) = Ok tt /\
    candidates (store (snd (callback timer w1))) = VArr l' /\
    List.length l' = S (List.length l) /\
    ids_of l' = mock_ids (List.length l') /\
    NoDup (ids_of l').
Proof.
  intros Hf Hc Hids. unfold uploadCandidates. rewrite Hf.
  eexists. eexists. split; [reflexivity|].
  cbn [callback]. unfold simulated_upload. rewrite Hc. cbn.
  split; [reflexivity|]. split; [reflexivity|].
  assert (Hlen : List.length (l ++ [VObj [("_id", mock_id (List.length l));
                   ("name", VStr "New Candidate");
                   ("email", VStr "new@example.com");
                   ("skills", VArr [VStr "JavaScript"; VStr "React"]);
                   ("experience", VStr "2 years")]]) = S (List.length l)).
  { rewrite length_app. simpl. lia. }
  split; [exact Hlen|].
  assert (E : ids_of (l ++ [VObj [("_id", mock_id (List.length l));
                   ("name", VStr "New Candidate");
                   ("email", VStr "new@example.com");
                   ("skills", VArr [VStr "JavaScript"; VStr "React"]);
                   ("experience", VStr "2 years")]])
              = mock_ids (S (List.length l))).
  { unfold ids_of. rewrite map_app. fold (ids_of l). rewrite Hids.
    rewrite mock_ids_succ. reflexivity. }
  rewrite Hlen. split; [exact E|]. rewrite E. apply mock_ids_NoDup.
Qed.

(** X10. The simulated matching reads the first candidate and the first
    role of the render that triggered it.  When both exist, the timer
    appends one match that refers to them; when the rendered candidates or
    the rendered roles are empty, the timer throws a TypeError and writes
    nothing, although the trigger had already reported success. *)
Theorem simulated_matching_needs_candidate_and_role
  (rendered : Store) (candidateIds roleIds : value) (w w1 : World Srv)
  (l cl rl : list value) :
  useFallbackData rendered = true ->
  matches rendered = VArr l ->
  candidates rendered = VArr cl ->
  roles rendered = VArr rl ->
  exists timer,
    runMatching serve rendered candidateIds roleIds w
    = (Ok (VObj [("message", VStr "Simulated matching process in demo mode")],
           [timer]), w) /\
    delay timer = 1000%Z /\
    (cl = [] \/ rl = [] -> callback timer w1 = (Throw TypeError, w1)) /\
    (forall c cs r rs cid rid,
        cl = c :: cs -> rl = r :: rs ->
        get_prop c "_id" = Ok cid -> get_prop r "_id" = Ok rid ->
        exists entity,
          callback timer w1
          = (Ok tt, snd (setMatches (VArr (l ++ [entity])) w1)) /\
          optional_prop entity "_id" = mock_id (List.length l) /\
          optional_prop entity "candidate_id" = cid /\
          optional_prop entity "role_id" = rid /\
          status_of entity = VStr "Matched").
Proof.
  intros Hf Hm Hc Hr. unfold runMatching. rewrite Hf.
  eexists. split; [reflexivity|]. split; [reflexivity|].
  cbn [callback]. unfold simulated_matching. rewrite Hm, Hc, Hr. split.
  - intros [-> | ->]; [reflexivity|].
    cbn. destruct cl as [|c cs]; [reflexivity|]. cbn.
    destruct c; reflexivity.
  - intros c cs r rs cid rid -> -> Hcid Hrid. cbn.
    rewrite Hcid. cbn. rewrite Hrid. cbn.
    eexists. split; [reflexivity|]. repeat split.
Qed.

(** X11. Offer generation in live mode.  For an array of match ids the
    gateway is asked once, [POST /offers/generate?] followed by one
    [match_ids] pair per id.  When it accepts, its answer is returned, the
    store is left as it is and one timer of 3000 ms is set: when the timer
    fires the offers are listed again and, when the listing succeeds, the
    collection of offers is replaced by the listing as a whole.  When it
    rejects, the message of the rejection is put in the error cell, the
    four collections are left as they are and the rejection is thrown
    again. *)
Theorem live_generation_refreshes_later
  (rendered : Store) (ids : list value) (w : World Srv) (t : Transport) (b : Srv) :
  useFallbackData rendered = false ->
  serve (generateOffers_request (map (fun id => ("match_ids", to_string id)) ids))
        (backend w) = (t, b) ->
  let req := generateOffers_request (map (fun id => ("match_ids", to_string id)) ids) in
  match settle t with
  | Ok response =>
      exists timer,
        generateOffers serve rendered (VArr ids) w
        = (Ok (response, [timer]),
           mkWorld (store w) (rolePage w) (offerPage w) b (requests w ++ [req])) /\
        delay timer = 3000%Z /\
        forall (w1 : World Srv) (t1 : Transport) (b1 : Srv) (data : value),
          serve (getOffers_request (VObj [])) (backend w1) = (t1, b1) ->
          settle t1 = Ok data ->
          fst (callback timer w1) = Ok tt /\
          offers (store (snd (callback timer w1))) = data /\
          candidates (store (snd (callback timer w1))) = candidates (store w1) /\
          roles (store (snd (callback timer w1))) = roles (store w1) /\
          matches (store (snd (callback timer w1))) = matches (store w1)
  | Throw e =>
      generateOffers serve rendered (VArr ids) w
      = (Throw e,
         mkWorld (mkStore (candidates (store w)) (roles (store w))
                          (matches (store w)) (offers (store w))
                          (loading (store w)) (userMessage_of e)
                          (useFallbackData (store w)))
                 (rolePage w) (offerPage w) b (requests w ++ [req]))
  end.
Proof.
  intros Hf E req. unfold generateOffers. rewrite Hf.
  unfold offerService_generateOffers. cbn -[apiClient refreshOffers].
  fold req. unfold apiClient. fold req in E. rewrite E.
  destruct (settle t) as [response|e] eqn:S.
  - cbn -[refreshOffers]. eexists. split; [reflexivity|]. split; [reflexivity|].
    intros w1 t1 b1 data E1 S1. cbn [callback]. unfold refreshOffers.
    rewrite Hf. unfold offerService_getOffers. cbn -[service].
    rewrite (service_run serve (getOffers_request (VObj [])) w1 E1), S1.
    cbn. repeat split.
  - destruct (settle_throw_message t S) as [m [Hm Hne]].
    cbn. rewrite Hm. unfold js_or. simpl.
    destruct (m =? "") eqn:Em; [apply String.eqb_eq in Em; contradiction|].
    reflexivity.
Qed.

(** X12. A match-id argument that is neither absent nor an array.  In
    live mode [generateOffers] throws a TypeError before any request is
    sent, sets the error cell to its own text and no timer; in fallback
    mode the same argument is never looked at and the simulated success is
    returned. *)
Theorem generation_with_malformed_ids
  (rendered : Store) (matchIds : value) (w : World Srv) :
  matchIds <> VUndef ->
  is_array matchIds = false ->
  (useFallbackData rendered = false ->
   generateOffers serve rendered matchIds w
   = (Throw TypeError,
      mkWorld (mkStore (candidates (store w)) (roles (store w))
                       (matches (store w)) (offers (store w))
                       (loading (store w)) (VStr "Error generating offers")
                       (useFallbackData (store w)))
              (rolePage w) (offerPage w) (backend w) (requests w))) /\
  (useFallbackData rendered = true ->
   exists timer,
     generateOffers serve rendered matchIds w
     = (Ok (VObj [("message", VStr "Simulated offer generation in demo mode")],
            [timer]), w)).
Proof.
  intros Hu Ha. unfold generateOffers. split; intros Hf; rewrite Hf.
  - unfold offerService_generateOffers.
    destruct matchIds; try discriminate; try congruence; reflexivity.
  - eexists. reflexivity.
Qed.

End WorkflowFacts.

(** ** The role page *)

Section RolePageFacts.

Variable Srv : Type.
Variable serve : Request -> Srv -> Transport * Srv.

(** [refreshRoles] never touches the role page. *)
Lemma refreshRoles_rolePage (ctx : Store) (w : World Srv) :
  rolePage (snd (refreshRoles serve ctx w)) = rolePage w.
Proof.
  unfold refreshRoles. destruct (useFallbackData ctx); [reflexivity|].
  unfold roleService_getRoles. cbn -[service].
  destruct (serve (getRoles_request (VBool true)) (backend w)) as [t b] eqn:E.
  rewrite (service_run serve (getRoles_request (VBool true)) w E).
  destruct (settle t); reflexivity.
Qed.

Lemma refreshRoles_cases (ctx : Store) (w : World Srv) :
  exists r w', refreshRoles serve ctx w = (r, w') /\ rolePage w' = rolePage w.
Proof.
  exists (fst (refreshRoles serve ctx w)), (snd (refreshRoles serve ctx w)).
  split; [apply surjective_pairing|apply refreshRoles_rolePage].
Qed.

(** X13. The handlers of the role page never throw, whatever the backend
    answers and whatever the form and the selected role are: a failure of
    any step ends in the notification, and the page is never left in its
    loading state.  After either handler the notification is open, with
    the severity of a success or of an error. *)
Theorem role_page_handlers_never_throw
  (ctx : Store) (page : RoleManagement.State) (roleId : value) (w : World Srv) :
  let done (out : Result unit * World Srv) :=
    fst out = Ok tt /\
    RoleManagement.loading (rolePage (snd out)) = false /\
    open (RoleManagement.notification (rolePage (snd out))) = true /\
    (severity (RoleManagement.notification (rolePage (snd out))) = "success" \/
     severity (RoleManagement.notification (rolePage (snd out))) = "error") in
  done (handleSubmit serve ctx page w) /\
  done (handleDeleteRole serve ctx roleId w).
Proof.
  cbv zeta. split.
  - unfold handleSubmit, try_finally, roleService_createRole, roleService_updateRole.
    destruct (RoleManagement.dialogMode page =? "add").
    + cbn -[service refreshRoles roleData_of].
      destruct (serve (createRole_request (roleData_of (RoleManagement.formData page)))
                      (backend w)) as [t b] eqn:E.
      erewrite service_run by (cbn; exact E).
      destruct (settle t) as [body|e]; cbn -[refreshRoles roleData_of]; [|auto].
      match goal with
      | |- context [refreshRoles serve ctx ?w0] =>
          destruct (refreshRoles_cases ctx w0) as [r [w' [-> Hp]]]
      end.
      destruct r; cbn; try rewrite Hp; cbn; auto.
    + cbn -[service refreshRoles roleData_of].
      destruct (get_prop (RoleManagement.selectedRole page) "_id") as [id|e0];
        cbn -[service refreshRoles roleData_of]; [|auto].
      destruct (serve (updateRole_request id (roleData_of (RoleManagement.formData page)))
                      (backend w)) as [t b] eqn:E.
      erewrite service_run by (cbn; exact E).
      destruct (settle t) as [body|e]; cbn -[refreshRoles roleData_of]; [|auto].
      match goal with
      | |- context [refreshRoles serve ctx ?w0] =>
          destruct (refreshRoles_cases ctx w0) as [r [w' [-> Hp]]]
      end.
      destruct r; cbn; try rewrite Hp; cbn; auto.
  - unfold handleDeleteRole, try_finally, roleService_deleteRole.
    cbn -[service refreshRoles].
    destruct (serve (deleteRole_request roleId) (backend w)) as [t b] eqn:E.
    erewrite service_run by (cbn; exact E).
    destruct (settle t) as [body|e]; cbn -[refreshRoles]; [|auto].
    match goal with
    | |- context [refreshRoles serve ctx ?w0] =>
        destruct (refreshRoles_cases ctx w0) as [r [w' [-> Hp]]]
    end.
    destruct r; cbn; try rewrite Hp; cbn; auto.
Qed.

(** X14. A role that was created can be reported as not created.  In live
    mode, when the gateway accepts the creation and then rejects the
    listing of [refreshRoles], [handleSubmit] shows [Error creating role.
    Please try again.] and leaves the dialog and the form as they were,
    although the creation was sent and accepted; the rejected listing has
    also set the error cell of the store, so that the failure screen is
    shown next. *)
Theorem created_role_reported_as_failure
  (ctx : Store) (page : RoleManagement.State) (w : World Srv)
  (t1 t2 : Transport) (b1 b2 : Srv) (created : value) (e : exn) :
  useFallbackData ctx = false ->
  RoleManagement.dialogMode page = "add" ->
  loading (store w) = false ->
  serve (createRole_request (roleData_of (RoleManagement.formData page))) (backend w)
  = (t1, b1) ->
  settle t1 = Ok created ->
  serve (getRoles_request (VBool true)) b1 = (t2, b2) ->
  settle t2 = Throw e ->
  let (r, w') := handleSubmit serve ctx page w in
  r = Ok tt /\
  requests w'
  = (requests w ++ [createRole_request (roleData_of (RoleManagement.formData page));
                    getRoles_request (VBool true)])%list /\
  RoleManagement.notification (rolePage w')
  = mkNotification true "Error creating role. Please try again." "error" /\
  RoleManagement.dialogOpen (rolePage w') = RoleManagement.dialogOpen (rolePage w) /\
  RoleManagement.formData (rolePage w') = RoleManagement.formData (rolePage w) /\
  roles (store w') = roles (store w) /\
  AppContent (store w') = ErrorScreen (userMessage_of e).
Proof.
  intros Hf Hm Hl E1 S1 E2 S2.
  unfold handleSubmit, try_finally, roleService_createRole.
  rewrite Hm. cbn -[service refreshRoles roleData_of].
  erewrite service_run by (cbn; exact E1). rewrite S1.
  cbn -[refreshRoles roleData_of].
  unfold refreshRoles. rewrite Hf. unfold roleService_getRoles.
  cbn -[service roleData_of].
  erewrite service_run by (cbn; exact E2). rewrite S2.
  destruct (settle_throw_message t2 S2) as [m [Hmsg Hne]].
  cbn -[roleData_of]. rewrite Hmsg. unfold js_or. cbn -[roleData_of].
  destruct (m =? "") eqn:Em; [apply String.eqb_eq in Em; contradiction|].
  cbn -[roleData_of]. rewrite <- app_assoc. repeat split.
  unfold AppContent. cbn. rewrite Hl, Em. reflexivity.
Qed.

End RolePageFacts.

(** ** The skills of the role form *)

Lemma string_app_nil_r (s : string) : s ++ "" = s.
Proof. induction s as [|c s IH]; simpl; congruence. Qed.

Lemma string_rev_aux_app (acc s : string) :
  string_rev_aux acc s = string_rev s ++ acc.
Proof.
  unfold string_rev. revert acc.
  induction s as [|c s IH]; intros acc; simpl; [reflexivity|].
  rewrite (IH (String c acc)), (IH (String c "")), string_app_assoc.
  reflexivity.
Qed.

Lemma string_rev_cons (c : ascii) (s : string) :
  string_rev (String c s) = string_rev s ++ String c "".
Proof. unfold string_rev at 1. simpl. apply string_rev_aux_app. Qed.

Lemma string_rev_app (a b : string) :
  string_rev (a ++ b) = string_rev b ++ string_rev a.
Proof.
  induction a as [|c a IH]; simpl.
  - now rewrite string_app_nil_r.
  - rewrite !string_rev_cons, IH, string_app_assoc. reflexivity.
Qed.

Lemma string_rev_involutive (s : string) : string_rev (string_rev s) = s.
Proof.
  induction s as [|c s IH]; [reflexivity|].
  rewrite string_rev_cons, string_rev_app, IH. reflexivity.
Qed.

Lemma string_forall_rev (p : ascii -> bool) (s : string) :
  string_forall p (string_rev s) = string_forall p s.
Proof.
  induction s as [|c s IH]; [reflexivity|].
  rewrite string_rev_cons, string_forall_app, IH. simpl.
  rewrite andb_true_r. apply andb_comm.
Qed.

Lemma string_length_app (a b : string) :
  String.length (a ++ b) = (String.length a + String.length b)%nat.
Proof. induction a as [|c a IH]; simpl; [reflexivity|now rewrite IH]. Qed.

Lemma string_length_rev (s : string) : String.length (string_rev s) = String.length s.
Proof.
  induction s as [|c s IH]; [reflexivity|].
  rewrite string_rev_cons, string_length_app, IH. simpl. lia.
Qed.

(** *** Skipping the words of a list *)

Lemma strip_prefix_app (w s r : string) :
  strip_prefix w s = Some r -> s = w ++ r.
Proof.
  revert s. induction w as [|a w IH]; intros s H; simpl in H.
  - now injection H as <-.
  - destruct s as [|c s]; [discriminate|].
    destruct (Ascii.eqb a c) eqn:E; [|discriminate].
    apply Ascii.eqb_eq in E. subst c. simpl. f_equal. now apply IH.
Qed.

Lemma strip_prefix_more (w s r x : string) :
  strip_prefix w s = Some r -> strip_prefix w (s ++ x) = Some (r ++ x).
Proof.
  revert s. induction w as [|a w IH]; intros s H; simpl in H.
  - now injection H as <-.
  - destruct s as [|c s]; [discriminate|]. simpl.
    destruct (Ascii.eqb a c); [now apply IH|discriminate].
Qed.

Lemma strip_word_spec (ws : list string) (s r : string) :
  strip_word ws s = Some r -> exists w, In w ws /\ s = w ++ r.
Proof.
  induction ws as [|w ws IH]; simpl; [discriminate|].
  destruct (strip_prefix w s) as [r'|] eqn:E.
  - intros [= <-]. exists w. split; [now left|now apply strip_prefix_app].
  - intros H. destruct (IH H) as [w' [Hin Hs]]. exists w'. split; [now right|exact Hs].
Qed.

Lemma strip_word_more (ws : list string) (s x : string) :
  strip_word ws s <> None -> strip_word ws (s ++ x) <> None.
Proof.
  induction ws as [|w ws IH]; simpl; [auto|].
  destruct (strip_prefix w s) as [r|] eqn:E.
  - intros _. now rewrite (strip_prefix_more w s x E).
  - intros H. destruct (strip_prefix w (s ++ x)); [discriminate|now apply IH].
Qed.

Lemma strip_word_shorter (ws : list string) (s r : string) :
  nonempty_words ws = true ->
  strip_word ws s = Some r -> (String.length r < String.length s)%nat.
Proof.
  intros Hne H. destruct (strip_word_spec ws s H) as [w [Hin ->]].
  unfold nonempty_words in Hne. rewrite forallb_forall in Hne.
  specialize (Hne w Hin). apply negb_true_iff, String.eqb_neq in Hne.
  rewrite string_length_app. destruct w; [contradiction|simpl; lia].
Qed.

Lemma strip_word_empty (ws : list string) :
  nonempty_words ws = true -> strip_word ws "" = None.
Proof.
  induction ws as [|w ws IH]; simpl; [reflexivity|].
  intros H. apply andb_prop in H. destruct H as [Hw Hws].
  destruct w; [discriminate|]. simpl. now apply IH.
Qed.

Lemma skip_words_split (ws : list string) (n : nat) (s : string) :
  exists p, s = p ++ skip_words ws n s.
Proof.
  revert s. induction n as [|n IH]; intros s; [now exists ""|].
  simpl. destruct (strip_word ws s) as [r|] eqn:E; [|now exists ""].
  destruct (strip_word_spec ws s E) as [w [_ ->]].
  destruct (IH r) as [p Hp]. exists (w ++ p).
  now rewrite string_app_assoc, <- Hp.
Qed.

Lemma skip_words_fix (ws : list string) (n : nat) (s : string) :
  strip_word ws s = None -> skip_words ws n s = s.
Proof. intros H. destruct n; simpl; [reflexivity|now rewrite H]. Qed.

(** With enough fuel nothing is left to skip. *)
Lemma skip_words_done (ws : list string) (n : nat) (s : string) :
  nonempty_words ws = true ->
  (String.length s <= n)%nat ->
  strip_word ws (skip_words ws n s) = None.
Proof.
  intros Hne. revert s. induction n as [|n IH]; intros s Hn.
  - destruct s; [|simpl in Hn; lia]. now apply strip_word_empty.
  - simpl. destruct (strip_word ws s) as [r|] eqn:E; [|exact E].
    apply IH. pose proof (strip_word_shorter ws s Hne E). lia.
Qed.

Lemma skip_words_fuel (ws : list string) (n m : nat) (s : string) :
  nonempty_words ws = true ->
  (String.length s <= n)%nat -> (String.length s <= m)%nat ->
  skip_words ws n s = skip_words ws m s.
Proof.
  intros Hne. revert m s. induction n as [|n IH]; intros m s Hn Hm.
  - destruct s; [|simpl in Hn; lia].
    symmetry. apply skip_words_fix. now apply strip_word_empty.
  - destruct m as [|m].
    + destruct s; [|simpl in Hm; lia].
      apply skip_words_fix. now apply strip_word_empty.
    + simpl. destruct (strip_word ws s) as [r|] eqn:E; [|reflexivity].
      pose proof (strip_word_shorter ws s Hne E). apply IH; lia.
Qed.

Lemma skip_words_length (ws : list string) (n : nat) (s : string) :
  (String.length (skip_words ws n s) <= String.length s)%nat.
Proof.
  destruct (skip_words_split ws n s) as [p Hp].
  rewrite Hp at 2. rewrite string_length_app. lia.
Qed.

Lemma string_forall_skip (p : ascii -> bool) (ws : list string) (n : nat) (s : string) :
  string_forall p s = true -> string_forall p (skip_words ws n s) = true.
Proof.
  intros H. destruct (skip_words_split ws n s) as [q Hq].
  rewrite Hq, string_forall_app in H. now apply andb_prop in H.
Qed.

Lemma white_spaces_nonempty : nonempty_words white_spaces = true.
Proof. reflexivity. Qed.

Lemma white_spaces_rev_nonempty : nonempty_words (map string_rev white_spaces) = true.
Proof. reflexivity. Qed.

Lemma string_forall_trim (p : ascii -> bool) (s : string) :
  string_forall p s = true -> string_forall p (trim s) = true.
Proof.
  intros H. unfold trim, skip_spaces. rewrite string_forall_rev.
  apply string_forall_skip. rewrite string_forall_rev.
  now apply string_forall_skip.
Qed.

(** [trim] is idempotent. *)
Lemma trim_idempotent (s : string) : trim (trim s) = trim s.
Proof.
  unfold trim, skip_spaces.
  set (W := white_spaces). set (R := map string_rev white_spaces).
  set (a := skip_words W (String.length s) s).
  set (b := skip_words R (String.length s) (string_rev a)).
  assert (Ha : strip_word W a = None).
  { apply skip_words_done; [exact white_spaces_nonempty|lia]. }
  assert (Hb : strip_word R b = None).
  { apply skip_words_done; [exact white_spaces_rev_nonempty|].
    rewrite string_length_rev. apply skip_words_length. }
  destruct (skip_words_split R (String.length s) (string_rev a)) as [q Hq].
  fold b in Hq.
  assert (Ea : a = string_rev b ++ string_rev q).
  { rewrite <- string_rev_app, <- Hq, string_rev_involutive. reflexivity. }
  assert (Ht : strip_word W (string_rev b) = None).
  { destruct (strip_word W (string_rev b)) eqn:E; [|reflexivity].
    exfalso. apply (@strip_word_more W (string_rev b) (string_rev q)).
    - rewrite E. discriminate.
    - now rewrite <- Ea. }
  rewrite (skip_words_fix W _ _ Ht), string_rev_involutive.
  now rewrite (skip_words_fix R _ _ Hb).
Qed.

Lemma skip_spaces_space (s : string) : skip_spaces (String " " s) = skip_spaces s.
Proof. reflexivity. Qed.

Lemma trim_space (s : string) : trim (String " " s) = trim s.
Proof.
  unfold trim. rewrite skip_spaces_space. f_equal.
  apply skip_words_fuel; [exact white_spaces_rev_nonempty| |];
    rewrite string_length_rev; unfold skip_spaces;
    pose proof (skip_words_length white_spaces (String.length s) s);
    simpl; lia.
Qed.

Lemma split_comma_aux_no_comma (cur s : string) :
  string_forall no_comma s = true ->
  split_comma_aux cur s = [cur ++ s].
Proof.
  revert cur. induction s as [|c s IH]; intros cur H; simpl.
  - now rewrite string_app_nil_r.
  - simpl in H. apply andb_prop in H. destruct H as [Hc Hs].
    unfold no_comma in Hc. apply negb_true_iff in Hc. rewrite Hc.
    rewrite (IH _ Hs), string_app_assoc. reflexivity.
Qed.

Lemma split_comma_aux_comma (cur s r : string) :
  string_forall no_comma s = true ->
  split_comma_aux cur (s ++ String "," r) = (cur ++ s) :: split_comma_aux "" r.
Proof.
  revert cur. induction s as [|c s IH]; intros cur H; simpl.
  - now rewrite string_app_nil_r.
  - simpl in H. apply andb_prop in H. destruct H as [Hc Hs].
    unfold no_comma in Hc. apply negb_true_iff in Hc. rewrite Hc.
    rewrite (IH _ Hs), string_app_assoc. reflexivity.
Qed.

Lemma split_comma_aux_entries (cur s x : string) :
  string_forall no_comma cur = true ->
  In x (split_comma_aux cur s) -> string_forall no_comma x = true.
Proof.
  revert cur. induction s as [|c s IH]; intros cur Hcur; simpl.
  - intros [<-|[]]. exact Hcur.
  - destruct (c =? ",")%char eqn:Ec.
    + intros [<-|Hin]; [exact Hcur|]. now apply (IH "").
    + apply IH. rewrite string_forall_app, Hcur. simpl.
      unfold no_comma. now rewrite Ec.
Qed.

Lemma clean_skill_inv (x : string) :
  clean_skill x = true ->
  x <> "" /\ string_forall no_comma x = true /\ trim x = x.
Proof.
  unfold clean_skill. intros H.
  apply andb_prop in H. destruct H as [H Ht].
  apply andb_prop in H. destruct H as [Hn Hc].
  apply negb_true_iff, String.eqb_neq in Hn. apply String.eqb_eq in Ht.
  auto.
Qed.

Lemma clean_skill_intro (x : string) :
  x <> "" -> string_forall no_comma x = true -> trim x = x ->
  clean_skill x = true.
Proof.
  intros Hn Hc Ht. unfold clean_skill. rewrite Hc, Ht.
  apply String.eqb_neq in Hn. rewrite Hn, String.eqb_refl. reflexivity.
Qed.

(** Splitting a joined list of clean skills gives the skills back, each
    but the first behind the space of the separator. *)
Lemma split_joined (l : list string) (x : string) (p : string) :
  p = "" \/ p = " " ->
  forallb clean_skill (x :: l) = true ->
  map trim (split_comma_aux "" (p ++ join_with ", " (x :: l))) = x :: l.
Proof.
  revert x p. induction l as [|y l IH]; intros x p Hp H.
  - simpl in H. rewrite andb_true_r in H.
    destruct (clean_skill_inv x H) as [Hn [Hc Ht]].
    cbn [join_with]. rewrite split_comma_aux_no_comma.
    + simpl. destruct Hp as [-> | ->]; simpl; [|rewrite trim_space];
        now rewrite Ht.
    + rewrite string_forall_app, Hc. destruct Hp as [-> | ->]; reflexivity.
  - cbn [forallb] in H. apply andb_prop in H. destruct H as [Hx Hl].
    destruct (clean_skill_inv x Hx) as [Hn [Hc Ht]].
    change (join_with ", " (x :: y :: l))
      with (x ++ String "," (" " ++ join_with ", " (y :: l))).
    rewrite <- string_app_assoc, split_comma_aux_comma.
    + cbn [map]. rewrite (IH y " " (or_intror eq_refl) Hl). f_equal.
      destruct Hp as [-> | ->]; simpl; [|rewrite trim_space]; exact Ht.
    + rewrite string_forall_app, Hc. destruct Hp as [-> | ->]; reflexivity.
Qed.

Lemma filter_clean (l : list string) :
  forallb clean_skill l = true ->
  filter (fun x => negb (x =? "")) l = l.
Proof.
  induction l as [|x l IH]; simpl; [reflexivity|].
  intros H. apply andb_prop in H. destruct H as [Hx Hl].
  destruct (clean_skill_inv x Hx) as [Hn _]. apply String.eqb_neq in Hn.
  rewrite Hn. simpl. now rewrite IH.
Qed.

Lemma skills_of_joined (l : list string) :
  forallb clean_skill l = true ->
  skills_of (join_with ", " l) = VArr (map VStr l).
Proof.
  intros H. unfold skills_of, split_comma. destruct l as [|x l]; [reflexivity|].
  pose proof (split_joined l x (or_introl eq_refl) H) as E.
  change ("" ++ join_with ", " (x :: l)) with (join_with ", " (x :: l)) in E.
  rewrite E. now rewrite filter_clean.
Qed.

Lemma map_element_string (l : list string) : map element_string (map VStr l) = l.
Proof. induction l as [|x l IH]; simpl; [reflexivity|]. now rewrite IH. Qed.

Lemma typed_skills_clean (s : string) : forallb clean_skill (typed_skills s) = true.
Proof.
  apply forallb_forall. intros x Hx. unfold typed_skills in Hx.
  apply filter_In in Hx. destruct Hx as [Hin Hne].
  apply negb_true_iff, String.eqb_neq in Hne.
  apply in_map_iff in Hin. destruct Hin as [y [<- Hy]].
  apply clean_skill_intro; [exact Hne| |apply trim_idempotent].
  apply string_forall_trim.
  now apply (split_comma_aux_entries "" s y eq_refl).
Qed.

(** X15. Editing a role and saving it without touching the skills sends
    the skills the role had.  For a role whose required and preferred
    skills are arrays of clean skills (not empty, no comma, no white space
    at either end), a missing array counting as an empty one, the form [handleEditRole] builds joins them with a
    comma and a space, and the role data [handleSubmit] builds from that
    form splits them back into the same arrays. *)
Theorem edited_role_keeps_its_skills
  (fs : obj) (required preferred : list string) :
  js_or (obj_get "required_skills" fs) (VArr []) = VArr (map VStr required) ->
  js_or (obj_get "preferred_skills" fs) (VArr []) = VArr (map VStr preferred) ->
  forallb clean_skill required = true ->
  forallb clean_skill preferred = true ->
  exists f,
    form_of_role (VObj fs) = Ok f /\
    RoleManagement.required_skills f = join_with ", " required /\
    RoleManagement.preferred_skills f = join_with ", " preferred /\
    optional_prop (roleData_of f) "required_skills" = VArr (map VStr required) /\
    optional_prop (roleData_of f) "preferred_skills" = VArr (map VStr preferred).
Proof.
  intros Hr Hp Cr Cp. unfold form_of_role. cbn -[js_or array_join].
  rewrite Hr, Hp. cbn -[array_join js_or]. unfold array_join.
  rewrite !map_element_string. cbn -[skills_of join_with].
  eexists. split; [reflexivity|]. cbn -[skills_of join_with].
  rewrite (skills_of_joined required Cr), (skills_of_joined preferred Cp).
  repeat split.
Qed.

(** X16. Whatever text is typed in a skills field, the skills
    [handleSubmit] sends are clean: strings none of which is empty, holds
    a comma or has white space, of any kind [trim] strips, at either end.
    They are therefore a fixed point of the form: joined by
    [handleEditRole] and split again by [handleSubmit] they come back
    unchanged. *)
Theorem submitted_skills_are_normal (text : string) :
  exists skills,
    skills_of text = VArr (map VStr skills) /\
    forallb clean_skill skills = true /\
    skills_of (join_with ", " skills) = skills_of text.
Proof.
  exists (typed_skills text). split; [reflexivity|].
  split; [apply typed_skills_clean|].
  now rewrite (skills_of_joined _ (typed_skills_clean text)).
Qed.

(** ** The salary inputs of the role form *)

Lemma double_of_Z_number (z : Z) : is_number (double_of_Z z) = true.
Proof.
  unfold double_of_Z.
  repeat match goal with
         | |- context [if ?c then _ else _] => destruct c
         end; reflexivity.
Qed.

Lemma parse_int_string_number_or_NaN (s : string) :
  is_number (parse_int_string s) = true \/ parse_int_string s = VNaN.
Proof.
  unfold parse_int_string. destruct (int_prefix s) as [z|]; [left|now right].
  apply double_of_Z_number.
Qed.

Lemma typed_number_or_zero (text : string) :
  let typed := parseInt (VStr text) in
  let stored := js_or typed (VNum 0) in
  is_number stored = true /\
  (typed = stored \/ (stored = VNum 0 /\ typed = VNaN)).
Proof.
  cbv zeta. unfold parseInt. simpl to_string.
  destruct (parse_int_string_number_or_NaN text) as [H | ->];
    [|split; [reflexivity|now right]].
  destruct (parse_int_string text) as [| | | |z|neg| | |]; try discriminate.
  - unfold js_or. simpl. destruct (z =? 0)%Z eqn:E; simpl; auto.
    apply Z.eqb_eq in E. subst z. auto.
  - auto.
Qed.

Lemma Z_to_string_not_empty (z : Z) : Z_to_string z <> "".
Proof.
  intros H. pose proof (int_prefix_Z_to_string z) as P.
  rewrite H in P. discriminate.
Qed.

(** X17. Whatever is typed in a salary input of the role form, the bound
    the form stores is a number, never [NaN]: the number [parseInt] reads
    (an integer, or an infinity for a numeral beyond the doubles), and [0]
    when it reads none; typing the decimal text of a safe integer stores
    that integer.  The other bound and every other field of the form are
    left as the render had them. *)
Theorem salary_input_stores_a_number
  (formData : RoleManagement.FormData) (text : string) :
  let range := own_props (RoleManagement.salary_range formData) in
  let changed name := changed_form formData name text in
  let typed := parseInt (VStr text) in
  let stored_min :=
    optional_prop (RoleManagement.salary_range (changed input_salary_min)) "min" in
  let stored_max :=
    optional_prop (RoleManagement.salary_range (changed input_salary_max)) "max" in
  (is_number stored_min = true /\
   (typed = stored_min \/ (stored_min = VNum 0 /\ typed = VNaN))) /\
  (is_number stored_max = true /\
   (typed = stored_max \/ (stored_max = VNum 0 /\ typed = VNaN))) /\
  optional_prop (RoleManagement.salary_range (changed input_salary_min)) "max"
  = obj_get "max" range /\
  optional_prop (RoleManagement.salary_range (changed input_salary_max)) "min"
  = obj_get "min" range /\
  (forall z, safe_integer z = true -> text = Z_to_string z ->
     stored_min = VNum z /\ stored_max = VNum z) /\
  (forall name, name = input_salary_min \/ name = input_salary_max ->
     set_salary_range (RoleManagement.salary_range formData) (changed name)
     = formData).
Proof.
  cbv zeta. unfold changed_form, optional_prop. cbn -[parseInt js_or own_props].
  rewrite !obj_get_set_same.
  destruct (typed_number_or_zero text) as [Hn Hcase].
  repeat split; try assumption.
  - now rewrite obj_get_set_other.
  - now rewrite obj_get_set_other.
  - rewrite H0, parseInt_typed, (double_of_Z_safe z H).
    unfold js_or. simpl. destruct (z =? 0)%Z eqn:E; simpl; [|reflexivity].
    apply Z.eqb_eq in E. now subst z.
  - rewrite H0, parseInt_typed, (double_of_Z_safe z H).
    unfold js_or. simpl. destruct (z =? 0)%Z eqn:E; simpl; [|reflexivity].
    apply Z.eqb_eq in E. now subst z.
  - intros name [-> | ->]; destruct formData; reflexivity.
Qed.

(** ** The offer page *)

Section OfferPageFacts.

Variable Srv : Type.
Variable serve : Request -> Srv -> Transport * Srv.

(** X18. From opening the edit dialog to the request of the save.  After
    [handleEditOpen] on an offer, one change of a field of the dialog and
    [handleSaveEdit], exactly one request has been issued: the update of
    that offer with the edited package and the total computed from it.
    With safe integers as amounts, typing the decimal text of a safe
    integer as base salary or bonus gives the sum with the other amount
    when the sum is a safe integer too; an emptied bonus counts as [0], an
    emptied base salary makes the total [NaN], and the request is sent
    all the same. *)
Theorem edit_dialog_submits_computed_total
  (o package : obj) (field text : string) (w : World Srv) :
  obj_get "offer" o = VObj package ->
  let w1 := snd (handleEditOpen (VObj o) w) in
  let w2 := snd (handleEditChange (offerPage w1) field text w1) in
  let w3 := snd (handleSaveEdit serve (offerPage w2) w2) in
  let edited := obj_set field (VStr text) package in
  exists total,
    requests w3
    = (requests w
       ++ [updateOffer_request (obj_get "_id" o)
             (VObj [("offer", VObj (obj_set "total_ctc" total edited));
                    ("status", VStr "Modified")])])%list /\
    (forall b k,
        obj_get "base_salary" package = VNum b ->
        obj_get "bonus" package = VNum k ->
        safe_integer b = true -> safe_integer k = true ->
        (field = "base_salary" ->
         (forall z, safe_integer z = true -> safe_integer (z + k) = true ->
                    text = Z_to_string z -> total = VNum (z + k)) /\
         (text = "" -> total = VNaN)) /\
        (field = "bonus" ->
         (forall z, safe_integer z = true -> safe_integer (b + z) = true ->
                    text = Z_to_string z -> total = VNum (b + z)) /\
         (text = "" -> total = VNum b))).
Proof.
  intros Hp. cbv zeta.
  unfold handleEditOpen. cbn -[handleSaveEdit]. rewrite Hp.
  cbn -[handleSaveEdit].
  set (edited := obj_set field (VStr text) package).
  set (total := number_add (parseInt (obj_get "base_salary" edited))
                           (parseInt (js_or (obj_get "bonus" edited) (VNum 0)))).
  exists total. split.
  - erewrite handleSaveEdit_request; [reflexivity|reflexivity|reflexivity|reflexivity].
  - intros b k Hb Hk Sb Sk. unfold total, edited. split; intros ->.
    + rewrite obj_get_set_same, obj_get_set_other, Hk by reflexivity.
      split.
      * intros z Sz Ss ->. rewrite parseInt_typed, (double_of_Z_safe z Sz).
        replace (js_or (VNum k) (VNum 0)) with (VNum k).
        { rewrite (parseInt_number k Sk). simpl. now apply double_of_Z_safe. }
        unfold js_or. simpl. destruct (k =? 0)%Z eqn:E; simpl; [|reflexivity].
        apply Z.eqb_eq in E. now subst k.
      * intros ->. reflexivity.
    + rewrite obj_get_set_same, obj_get_set_other, Hb by reflexivity.
      rewrite (parseInt_number b Sb). split.
      * intros z Sz Ss ->.
        replace (js_or (VStr (Z_to_string z)) (VNum 0)) with (VStr (Z_to_string z)).
        { rewrite parseInt_typed, (double_of_Z_safe z Sz). simpl.
          now apply double_of_Z_safe. }
        unfold js_or. simpl.
        destruct (Z_to_string z =? "") eqn:E; simpl; [|reflexivity].
        apply String.eqb_eq in E. now apply Z_to_string_not_empty in E.
      * intros ->. change (parseInt (js_or (VStr "") (VNum 0))) with (VNum 0).
        simpl. rewrite Z.add_0_r. now apply double_of_Z_safe.
Qed.

(** X19. The handlers of the offer page never throw and never write to
    the store or to the role page.  [handleSaveEdit] and
    [handleApproveOffer] end with their success notification, or with an
    error notification and nothing else of the page changed;
    [handleDetailOpen] ends with the detail dialog open on the offer the
    gateway returned, or with an error notification and nothing else
    changed. *)
Theorem offer_page_handlers_never_throw
  (page : OfferRecommendation.State) (offerId : string) (offer : value)
  (w : World Srv) :
  let quiet (out : Result unit * World Srv) :=
    fst out = Ok tt /\ store (snd out) = store w /\ rolePage (snd out) = rolePage w in
  let saved := handleSaveEdit serve page w in
  let approved := handleApproveOffer serve page offerId w in
  let opened := handleDetailOpen serve offer w in
  (quiet saved /\
   (OfferRecommendation.notification (offerPage (snd saved))
    = mkNotification true "Offer updated successfully!" "success" \/
    only_notice (offerPage w) (offerPage (snd saved)))) /\
  (quiet approved /\
   (OfferRecommendation.notification (offerPage (snd approved))
    = mkNotification true "Offer approved successfully!" "success" \/
    only_notice (offerPage w) (offerPage (snd approved)))) /\
  (quiet opened /\
   (OfferRecommendation.detailDialogOpen (offerPage (snd opened)) = true /\
    OfferRecommendation.notification (offerPage (snd opened))
    = OfferRecommendation.notification (offerPage w) \/
    only_notice (offerPage w) (offerPage (snd opened)))).
Proof.
  cbv zeta. unfold only_notice. repeat split.
  all: unfold handleSaveEdit, handleApproveOffer, handleDetailOpen,
         offerService_updateOffer, offerService_approveOffer, offerService_getOffer.
  all: cbn -[service array_map updatedOfferData].
  all: repeat match goal with
         | |- context [updatedOfferData ?x] =>
             destruct (updatedOfferData x); cbn -[service array_map]
         | |- context [get_prop ?x "_id"] =>
             destruct (get_prop x "_id"); cbn -[service array_map]
         | |- context [service serve ?req ?w0] =>
             let t := fresh "t" in
             let b := fresh "b" in
             let E := fresh "E" in
             destruct (serve req (backend w0)) as [t b] eqn:E;
             rewrite (service_run serve req w0 E);
             destruct (settle t); cbn -[array_map]
         | |- context [array_map ?f ?x] =>
             destruct (array_map f x); cbn
         | |- context [if ?c then _ else _] => destruct c; cbn
         end.
  all: tauto.
Qed.

End OfferPageFacts.

(** ** The navigation, the dashboard and the matching page *)

Lemma filter_result_pure (p : value -> Result bool) (q : value -> bool)
  (l : list value) :
  (forall x, In x l -> p x = Ok (q x)) ->
  filter_result p l = Ok (filter q l).
Proof.
  induction l as [|x l IH]; intros H; simpl; [reflexivity|].
  rewrite (H x (or_introl eq_refl)), IH by (intros y Hy; apply H; now right).
  destruct (q x); reflexivity.
Qed.

Lemma count_status_objects (l : list value) :
  forallb is_object l = true ->
  pendingOffersCount (VArr l) = Ok (List.length (filter is_pending l)).
Proof.
  intros H. unfold pendingOffersCount, count_status.
  rewrite (filter_result_pure _ is_pending); [reflexivity|].
  intros o Ho. destruct (@forallb_is_object_In l o H Ho) as [fs ->]. reflexivity.
Qed.

Lemma approved_all_objects (id : string) (l : list value) :
  forallb is_object l = true -> forallb is_object (map (approved id) l) = true.
Proof.
  induction l as [|o l IH]; simpl; [reflexivity|].
  intros H. apply andb_prop in H. destruct H as [Ho Hl].
  rewrite (IH Hl), andb_true_r. unfold approved.
  destruct (has_id id o); [reflexivity|exact Ho].
Qed.

Lemma approved_pending_count (id : string) (l : list value) :
  forallb is_object l = true ->
  List.length (filter is_pending l)
  = (List.length (filter is_pending (map (approved id) l))
     + List.length (filter (fun o => has_id id o && is_pending o) l))%nat.
Proof.
  induction l as [|o l IH]; simpl; [reflexivity|].
  intros H. apply andb_prop in H. destruct H as [Ho Hl].
  specialize (IH Hl). destruct o as [| | | | | | | |fs]; try discriminate.
  unfold approved at 1. destruct (has_id id (VObj fs)) eqn:E.
  - assert (P : is_pending (VObj (obj_set "status" (VStr "Approved")
                                          (props_of (VObj fs)))) = false).
    { unfold is_pending, status_of, optional_prop. simpl.
      now rewrite obj_get_set_same. }
    rewrite P. simpl. destruct (is_pending (VObj fs)); simpl; lia.
  - simpl. destruct (is_pending (VObj fs)); simpl; lia.
Qed.

Section BadgeFacts.

Variable Srv : Type.
Variable serve : Request -> Srv -> Transport * Srv.

(** X20. The badge of the navigation after an approval.  In fallback
    mode, on a collection of offer objects, [approveOffer] lowers the
    number of offers the navigation counts as pending by exactly the
    number of pending offers that carry the identifier: the badge never
    grows, and an identifier no pending offer carries leaves it as it
    is. *)
Theorem approval_lowers_pending_badge
  (rendered : Store) (id : string) (l : list value) (w : World Srv) :
  useFallbackData rendered = true ->
  offers rendered = VArr l ->
  forallb is_object l = true ->
  exists before after,
    pendingOffersCount (offers rendered) = Ok before /\
    pendingOffersCount (offers (store (snd (approveOffer serve rendered id w))))
    = Ok after /\
    before
    = (after + List.length (filter (fun o => has_id id o && is_pending o) l))%nat /\
    (after <= before)%nat.
Proof.
  intros Hf Ho Hobj.
  exists (List.length (filter is_pending l)),
         (List.length (filter is_pending (map (approved id) l))).
  rewrite Ho. split; [now apply count_status_objects|].
  unfold approveOffer. rewrite Hf, Ho. unfold array_map.
  rewrite (map_result_approve id l Hobj). cbn -[pendingOffersCount].
  split; [apply count_status_objects, approved_all_objects, Hobj|].
  pose proof (approved_pending_count id l Hobj). lia.
Qed.

End BadgeFacts.

Section ScoreFacts.

Variable string_to_number : string -> value.

Lemma count_matches_total (l : list value) (d0 d1 d2 d3 e0 e1 e2 e3 : Z) :
  count_matches string_to_number l (d0, d1, d2, d3) = Ok (e0, e1, e2, e3) ->
  (e0 + e1 + e2 + e3 = d0 + d1 + d2 + d3 + Z.of_nat (List.length l)
   /\ d0 <= e0 /\ d1 <= e1 /\ d2 <= e2 /\ d3 <= e3)%Z.
Proof.
  revert d0 d1 d2 d3.
  induction l as [|m l IH]; intros d0 d1 d2 d3 H.
  - simpl in H. injection H as <- <- <- <-. simpl. lia.
  - cbn [count_matches] in H.
    destruct (get_prop m "match_score") as [score|e]; [|discriminate].
    cbn [List.length]. rewrite Nat2Z.inj_succ.
    destruct (js_ge string_to_number score 90);
      [|destruct (js_ge string_to_number score 70);
        [|destruct (js_ge string_to_number score 50)]];
      apply IH in H; lia.
Qed.

(** X21. The quality distribution of the dashboard counts every match
    once: when the loop over the matches completes, the four counters are
    not negative and add up to the number of matches; and it completes
    whenever no match is [null] or [undefined]. *)
Theorem match_distribution_counts_every_match (l : list value) :
  (forall e0 e1 e2 e3,
      matchDistribution string_to_number (VArr l) = Ok (e0, e1, e2, e3) ->
      (0 <= e0 /\ 0 <= e1 /\ 0 <= e2 /\ 0 <= e3 /\
       e0 + e1 + e2 + e3 = Z.of_nat (List.length l))%Z) /\
  ((forall m, In m l -> m <> VUndef /\ m <> VNull) ->
   exists d, matchDistribution string_to_number (VArr l) = Ok d).
Proof.
  split.
  - intros e0 e1 e2 e3 H. apply count_matches_total in H. lia.
  - intros Hl. unfold matchDistribution.
    generalize (0, 0, 0, 0)%Z as d. induction l as [|m l IH]; intros d.
    + now exists d.
    + cbn [count_matches].
      destruct (Hl m (or_introl eq_refl)) as [Hu Hn].
      assert (Hg : exists score, get_prop m "match_score" = Ok score).
      { destruct m; try congruence; eexists; reflexivity. }
      destruct Hg as [score ->]. destruct d as [[[d0 d1] d2] d3].
      apply IH. intros x Hx. apply Hl. now right.
Qed.

(** X22. The score selector of the matching page against the dashboard.
    For a match whose score converts to a number (an infinity included),
    exactly one of the four selections keeps it, the one of the colour
    [getMatchScoreColor] gives the score.  A match whose score does not convert to a number (a
    missing score) is kept by none of the four selections, although the
    dashboard counts it as poor and its colour is that of a poor match. *)
Theorem score_selector_against_dashboard (fs : obj) :
  let m := VObj fs in
  let score := obj_get "match_score" fs in
  let kept name := score_filter string_to_number name m in
  let colour := getMatchScoreColor string_to_number score in
  match to_number string_to_number score with
  | VNum _ | VInf _ =>
      kept "excellent" = Ok (colour =? "success") /\
      kept "good" = Ok (colour =? "primary") /\
      kept "fair" = Ok (colour =? "warning") /\
      kept "poor" = Ok (colour =? "error") /\
      (colour = "success" \/ colour = "primary" \/ colour = "warning"
       \/ colour = "error")
  | _ =>
      kept "excellent" = Ok false /\
      kept "good" = Ok false /\
      kept "fair" = Ok false /\
      kept "poor" = Ok false /\
      colour = "error" /\
      matchDistribution string_to_number (VArr [m]) = Ok (0, 0, 0, 1)%Z
  end.
Proof.
  cbv zeta. unfold score_filter, getMatchScoreColor, matchDistribution.
  cbn -[to_number]. unfold js_ge, js_lt.
  destruct (to_number string_to_number (obj_get "match_score" fs))
    as [| | | |z|[|]| | |];
    cbn; try (repeat split; auto; reflexivity).
  destruct (90 <=? z)%Z eqn:E90; destruct (70 <=? z)%Z eqn:E70;
    destruct (50 <=? z)%Z eqn:E50; destruct (z <? 90)%Z eqn:L90;
    destruct (z <? 70)%Z eqn:L70; destruct (z <? 50)%Z eqn:L50;
    try lia; cbn; repeat split; auto.
Qed.

End ScoreFacts.

(** ** The upload page *)

Lemma progress_tick_iter (n : nat) :
  Nat.iter n progress_tick 0%Z = Z.min (10 * Z.of_nat n) 90.
Proof.
  induction n as [|n IH]; [reflexivity|].
  change (Nat.iter (S n) progress_tick 0%Z)
    with (progress_tick (Nat.iter n progress_tick 0%Z)).
  rewrite IH. unfold progress_tick.
  destruct (90 <=? Z.min (10 * Z.of_nat n) 90)%Z eqn:E; lia.
Qed.

(** X23. The simulated progress of an upload.  Starting from [0], after
    [n] ticks of the interval the progress is [10 n] up to [90], where it
    stays: the interval alone never shows [100], which only the end of
    the upload sets. *)
Theorem upload_progress_stops_at_ninety (n : nat) :
  Nat.iter n progress_tick 0%Z = Z.min (10 * Z.of_nat n) 90 /\
  (Nat.iter n progress_tick 0%Z <= 90)%Z /\
  ((9 <= n)%nat -> progress_tick (Nat.iter n progress_tick 0%Z)
                   = Nat.iter n progress_tick 0%Z).
Proof.
  rewrite progress_tick_iter. repeat split; [lia|].
  intros Hn. unfold progress_tick.
  destruct (90 <=? Z.min (10 * Z.of_nat n) 90)%Z eqn:E; lia.
Qed.

Lemma accepted_type_object (fs : obj) :
  accepted_type (VObj fs) = Ok (pdf_or_docx (VObj fs)).
Proof.
  unfold accepted_type, pdf_or_docx, optional_prop. cbn -[pdf_type docx_type].
  destruct (strict_eq (obj_get "type" fs) (VStr pdf_type)); reflexivity.
Qed.

Lemma filter_length_le {A : Type} (q : A -> bool) (l : list A) :
  (List.length (filter q l) <= List.length l)%nat.
Proof. induction l as [|x l IH]; simpl; [lia|]. destruct (q x); simpl; lia. Qed.

Lemma filter_all {A : Type} (q : A -> bool) (l : list A) :
  List.length (filter q l) = List.length l -> filter q l = l.
Proof.
  induction l as [|x l IH]; simpl; [reflexivity|].
  destruct (q x); simpl; intros H.
  - f_equal. apply IH. lia.
  - pose proof (filter_length_le q l). lia.
Qed.

(** X24. Dropping files on the upload page.  For file objects, [onDrop]
    never loses a file selected before and never admits a file of another
    type: the selection becomes the previous selection followed by the
    dropped files of type PDF or DOCX, in the order they were dropped, and
    the rejection notice is shown exactly when some dropped file was left
    out. *)
Theorem onDrop_keeps_pdf_and_docx (acceptedFiles prevFiles : list value) :
  forallb is_object acceptedFiles = true ->
  exists notice files,
    onDrop acceptedFiles prevFiles = Ok (notice, files) /\
    files = (prevFiles ++ filter pdf_or_docx acceptedFiles)%list /\
    (forall f, In f files <-> In f prevFiles \/ (In f acceptedFiles /\ pdf_or_docx f = true)) /\
    (notice = false <-> filter pdf_or_docx acceptedFiles = acceptedFiles).
Proof.
  intros H. unfold onDrop.
  rewrite (filter_result_pure accepted_type pdf_or_docx).
  2:{ intros f Hf. destruct (@forallb_is_object_In acceptedFiles f H Hf) as [fs ->].
      apply accepted_type_object. }
  cbn -[pdf_or_docx Nat.ltb]. eexists. eexists. split; [reflexivity|].
  split; [reflexivity|]. split.
  - intros f. rewrite in_app_iff, filter_In. tauto.
  - rewrite Nat.ltb_ge. split.
    + intros Hle. apply filter_all.
      pose proof (filter_length_le pdf_or_docx acceptedFiles). lia.
    + intros ->. lia.
Qed.

(** ** Instances of the further properties *)

Lemma refresh_in_fallback_is_silent_witness :
  let w := world_of fallbackStore tt in
  useFallbackData fallbackStore = true /\
  refreshCandidates unreachable fallbackStore w = (Ok (obj_get "candidates" mockData), w) /\
  refreshRoles unreachable fallbackStore w = (Ok (obj_get "roles" mockData), w) /\
  refreshMatches unreachable fallbackStore w = (Ok (obj_get "matches" mockData), w) /\
  refreshOffers unreachable fallbackStore w = (Ok (obj_get "offers" mockData), w) /\
  let uploaded := snd (simulated_upload fallbackStore w) in
  fst (refreshCandidates unreachable fallbackStore uploaded)
  <> Ok (candidates (store uploaded)).
Proof.
  intros w. split; [reflexivity|].
  destruct (@refresh_in_fallback_is_silent unit unreachable fallbackStore w eq_refl)
    as (H1 & H2 & H3 & H4 & H5).
  repeat (split; [assumption|]). exact (H5 eq_refl).
Defined.

Lemma live_refresh_replaces_or_reports_witness :
  let w := world_of live_store tt in
  let serve := accepting (VArr fallback_offers) in
  useFallbackData live_store = false /\
  let (r, w') := refreshOffers serve live_store w in
  requests w' = [getOffers_request (VObj [])] /\
  r = Ok (VArr fallback_offers) /\
  offers (store w') = VArr fallback_offers /\
  error (store w') = VNull.
Proof.
  intros w serve. split; [reflexivity|].
  pose proof (@live_refresh_replaces_or_reports unit serve live_store w
                (HttpResponse 200 (VArr fallback_offers)) tt eq_refl eq_refl) as H.
  destruct (refreshOffers serve live_store w) as [r w'].
  destruct H as (Hreq & _ & _ & _ & _ & _ & Hr & Ho & He).
  repeat split; assumption.
Defined.

Lemma failed_refresh_shows_failure_screen_witness :
  let w := world_of live_store tt in
  let down := NoResponse (VStr "ERR_NETWORK") in
  let e := AxiosFailure (response_error_interceptor (axios_error down)) in
  let w' := snd (refreshRoles unreachable live_store w) in
  settle down = Throw e /\
  fst (refreshRoles unreachable live_store w) = Throw e /\
  roles (store w') = VArr [engineer_role] /\
  AppContent (store w') = ErrorScreen (userMessage_of e) /\
  AppContent (store (snd (@clearError unit w'))) = Router.
Proof.
  intros w down e w'. split; [reflexivity|].
  apply (@failed_refresh_shows_failure_screen unit unreachable live_store w
           down tt e); reflexivity.
Defined.


Lemma simulated_generation_lost_update_witness :
  let w := world_of fallbackStore tt in
  let w1 := snd (simulated_generation fallbackStore w) in
  let same_render := snd (simulated_generation fallbackStore w1) in
  let next_render := snd (simulated_generation (store w1) w1) in
  (exists o, offers (store w1) = VArr (fallback_offers ++ [o])) /\
  offers (store same_render) = offers (store w1) /\
  (exists o1 o2,
     offers (store next_render) = VArr (fallback_offers ++ [o1; o2]) /\
     optional_prop o1 "_id" = VStr "mock2" /\
     optional_prop o2 "_id" = VStr "mock3" /\
     optional_prop o1 "_id" <> optional_prop o2 "_id").
Proof.
  intros w.
  exact (@simulated_generation_lost_update unit fallbackStore w fallback_offers
           _ _ _ _ (VStr "mock1") (VStr "mock1")
           eq_refl eq_refl eq_refl eq_refl eq_refl eq_refl).
Defined.

Lemma simulated_upload_keeps_ids_distinct_witness :
  let w := world_of fallbackStore tt in
  exists timer l',
    uploadCandidates unreachable fallbackStore (VArr []) w
    = (Ok (VObj [("message", VStr "Simulated upload successful in demo mode")],
           [timer]), w) /\
    fst (callback timer w) = Ok tt /\
    candidates (store (snd (callback timer w))) = VArr l' /\
    List.length l' = 3%nat /\
    ids_of l' = [VStr "mock1"; VStr "mock2"; VStr "mock3"] /\
    NoDup (ids_of l').
Proof.
  intros w.
  destruct (@simulated_upload_keeps_ids_distinct unit unreachable fallbackStore
              (VArr []) w w _ eq_refl eq_refl eq_refl)
    as (timer & l' & H1 & H2 & H3 & H4 & H5 & H6).
  exists timer, l'. repeat split; try assumption.
  rewrite H5, H4. reflexivity.
Defined.

Lemma simulated_matching_needs_candidate_and_role_witness :
  let emptied := mkStore (VArr []) (obj_get "roles" mockData)
                         (obj_get "matches" mockData) (obj_get "offers" mockData)
                         false VNull true in
  let w := world_of emptied tt in
  exists timer,
    runMatching unreachable emptied VUndef VUndef w
    = (Ok (VObj [("message", VStr "Simulated matching process in demo mode")],
           [timer]), w) /\
    delay timer = 1000%Z /\
    callback timer w = (Throw TypeError, w).
Proof.
  intros emptied w.
  destruct (@simulated_matching_needs_candidate_and_role unit unreachable emptied
              VUndef VUndef w w _ _ _ eq_refl eq_refl eq_refl eq_refl)
    as (timer & H1 & H2 & H3 & _).
  exists timer. repeat split; try assumption.
  apply H3. now left.
Defined.

Lemma live_generation_refreshes_later_witness :
  let w := world_of live_store tt in
  let reply := VArr fallback_offers in
  let req := generateOffers_request [("match_ids", "m1")] in
  url req = "/offers/generate?match_ids=m1" /\
  exists timer,
    generateOffers (accepting reply) live_store (VArr [VStr "m1"]) w
    = (Ok (reply, [timer]),
       mkWorld live_store initialRolePage initialOfferPage tt [req]) /\
    delay timer = 3000%Z /\
    fst (callback timer w) = Ok tt /\
    offers (store (snd (callback timer w))) = reply.
Proof.
  intros w reply req. split; [reflexivity|].
  pose proof (@live_generation_refreshes_later unit (accepting reply) live_store
                [VStr "m1"] w (HttpResponse 200 reply) tt eq_refl eq_refl) as H.
  destruct H as (timer & H1 & H2 & H3).
  exists timer. split; [exact H1|]. split; [exact H2|].
  destruct (H3 w (HttpResponse 200 reply) tt reply eq_refl eq_refl)
    as (Hr & Ho & _).
  split; assumption.
Defined.

Lemma generation_with_malformed_ids_witness :
  let w := world_of live_store tt in
  fst (generateOffers unreachable live_store (VStr "m1") w) = Throw TypeError /\
  requests (snd (generateOffers unreachable live_store (VStr "m1") w)) = [] /\
  error (store (snd (generateOffers unreachable live_store (VStr "m1") w)))
  = VStr "Error generating offers" /\
  exists timer,
    generateOffers unreachable fallbackStore (VStr "m1") w
    = (Ok (VObj [("message", VStr "Simulated offer generation in demo mode")],
           [timer]), w).
Proof.
  intros w.
  destruct (@generation_with_malformed_ids unit unreachable live_store (VStr "m1") w
              ltac:(discriminate) eq_refl) as [Hlive _].
  destruct (@generation_with_malformed_ids unit unreachable fallbackStore (VStr "m1") w
              ltac:(discriminate) eq_refl) as [_ Hfb].
  rewrite (Hlive eq_refl). repeat split. exact (Hfb eq_refl).
Defined.

Lemma created_role_reported_as_failure_witness :
  let created := VObj [("_id", VStr "r9")] in
  let w := mkWorld live_store scenario_page initialOfferPage tt [] in
  let (r, w') := handleSubmit (posts_only created) live_store scenario_page w in
  r = Ok tt /\
  requests w'
  = [createRole_request (roleData_of scenario_form); getRoles_request (VBool true)] /\
  RoleManagement.notification (rolePage w')
  = mkNotification true "Error creating role. Please try again." "error" /\
  RoleManagement.dialogOpen (rolePage w') = true /\
  roles (store w') = VArr [engineer_role] /\
  AppContent (store w')
  = ErrorScreen (VStr "Network error. Please check if the backend server is running on http://localhost:8000").
Proof.
  intros created w.
  pose proof (@created_role_reported_as_failure unit (posts_only created) live_store
                scenario_page w (HttpResponse 201 created)
                (NoResponse (VStr "ERR_NETWORK")) tt tt created
                (AxiosFailure (response_error_interceptor
                                 (axios_error (NoResponse (VStr "ERR_NETWORK")))))
                eq_refl eq_refl eq_refl eq_refl eq_refl eq_refl eq_refl) as H.
  destruct (handleSubmit (posts_only created) live_store scenario_page w) as [r w'].
  destruct H as (H1 & H2 & H3 & H4 & _ & H6 & H7).
  repeat split; assumption.
Defined.

Lemma edited_role_keeps_its_skills_witness :
  forallb clean_skill ["JavaScript"; "React"] = true /\
  exists f,
    form_of_role (VObj skilled_role) = Ok f /\
    RoleManagement.required_skills f = "JavaScript, React" /\
    RoleManagement.preferred_skills f = "" /\
    optional_prop (roleData_of f) "required_skills"
    = VArr [VStr "JavaScript"; VStr "React"] /\
    optional_prop (roleData_of f) "preferred_skills" = VArr [].
Proof.
  split; [reflexivity|].
  exact (@edited_role_keeps_its_skills skilled_role ["JavaScript"; "React"] []
           eq_refl eq_refl eq_refl eq_refl).
Defined.

Lemma edit_dialog_submits_computed_total_witness :
  let w := world_of (offers_store true) tt in
  let w1 := snd (handleEditOpen (VObj edited_offer) w) in
  let w2 := snd (handleEditChange (offerPage w1) "base_salary" "" w1) in
  let w3 := snd (handleSaveEdit unreachable (offerPage w2) w2) in
  exists total,
    requests w3
    = [updateOffer_request (VStr "mock1")
         (VObj [("offer", VObj (obj_set "total_ctc" total
                                  (obj_set "base_salary" (VStr "") edited_package)));
                ("status", VStr "Modified")])].
Proof.
  intros w.
  destruct (@edit_dialog_submits_computed_total unit unreachable edited_offer
              edited_package "base_salary" "" w eq_refl) as (total & H & _).
  exists total. exact H.
Defined.

Lemma approval_lowers_pending_badge_witness :
  let w := world_of (offers_store true) tt in
  forallb is_object fallback_offers = true /\
  exists before after,
    pendingOffersCount (offers (offers_store true)) = Ok before /\
    pendingOffersCount
      (offers (store (snd (approveOffer unreachable (offers_store true) "mock1" w))))
    = Ok after /\
    before
    = (after + List.length (filter (fun o => has_id "mock1" o && is_pending o)
                                   fallback_offers))%nat /\
    (after <= before)%nat.
Proof.
  intros w. split; [reflexivity|].
  exact (@approval_lowers_pending_badge unit unreachable (offers_store true) "mock1"
           fallback_offers w eq_refl eq_refl eq_refl).
Defined.

Lemma onDrop_keeps_pdf_and_docx_witness :
  forallb is_object dropped_files = true /\
  exists notice files,
    onDrop dropped_files [] = Ok (notice, files) /\
    files = ([] ++ filter pdf_or_docx dropped_files)%list /\
    (forall f, In f files <->
               In f [] \/ (In f dropped_files /\ pdf_or_docx f = true)) /\
    (notice = false <-> filter pdf_or_docx dropped_files = dropped_files).
Proof.
  split; [reflexivity|].
  exact (@onDrop_keeps_pdf_and_docx dropped_files [] eq_refl).
Defined.
